(** * Dermaglare admin dashboard: appointment views, calendar grid and lifecycle

    A shallow embedding of the non-presentational logic of
    [src/components/EnhancedAppointmentManagement.tsx] (filtered views,
    aggregate statistics, the month grid, and the approve / decline /
    complete / refund handlers) and of the sortable appointment table of
    [src/AdminDashboard.tsx], followed by the properties established for
    them.

    The embedding also covers the code around these: the map from dates to
    appointments and the cells of the three calendars, [formatCurrency],
    and, from the two dashboards kept in [src/Layout.tsx], the table of the
    earlier one with its user names, the counts and the chart of the
    overview page, the chat page's [handleSendMessage] and the colour
    theme.

    Conventions of the embedding:
    - a JavaScript [number] is an IEEE-754 binary64 value ([float]);
    - a JavaScript string is a [string]; case folding is the ASCII one and
      the relational operators compare code units;
    - a nullable field is an [option] ([None] is [null]);
    - a [Date] is a civil day (a day number relative to 1970-01-01 in local
      time): every [Date] the calendar builds sits at local midnight;
    - where the instant behind a [Date] matters (its ISO string), the local
      zone keeps a fixed offset from UTC and time values are integers of
      milliseconds;
    - a Firestore document is a finite map from field names to values and the
      collection a finite map from document ids to documents;
    - blocking dialogs ([confirm], [prompt]) take the operator's answer as an
      argument and are recorded, with [alert], in a trace. *)

From Stdlib Require Import ZArith Lia Floats Ascii String DecimalString QArith Qabs.
From Stdlib Require DecimalN DecimalPos.
From stdpp Require Import base option list strings gmap sorting.

Local Open Scope string_scope.
Local Open Scope list_scope.
Local Open Scope Z_scope.

(* ===================================================================== *)
(** * JavaScript strings *)
(* ===================================================================== *)

Module JsString.

(** [String.prototype.toLowerCase] on one code unit: [A]..[Z] are shifted to
    [a]..[z]; every other unit is kept. *)
Definition lower_ascii (c : ascii) : ascii :=
  let n := Ascii.N_of_ascii c in
  if ((65 <=? n) && (n <=? 90))%N then Ascii.ascii_of_N (n + 32) else c.

Fixpoint toLowerCase (s : string) : string :=
  match s with
  | EmptyString => EmptyString
  | String c s' => String (lower_ascii c) (toLowerCase s')
  end.

(** [s.includes(sub)]: [sub] occurs in [s] at some position. *)
Fixpoint includes (s sub : string) : bool :=
  String.prefix sub s ||
  match s with
  | EmptyString => false
  | String _ s' => includes s' sub
  end.

(** Truthiness of a string: only the empty string is falsy. *)
Definition truthy (s : string) : bool :=
  match s with
  | EmptyString => false
  | String _ _ => true
  end.

(** [s || null]. *)
Definition or_null (s : string) : option string :=
  if truthy s then Some s else None.

End JsString.

(* ===================================================================== *)
(** * The appointment record of EnhancedAppointmentManagement.tsx *)
(* ===================================================================== *)

(** A Firestore timestamp, as an instant in milliseconds. *)
Definition Timestamp := Z.

Inductive Status :=
| StPending | StConfirmed | StCompleted | StCancelled | StPaid.

Inductive PaymentStatus :=
| PayPaid | PayPending | PayRefunded.

Definition Status_eqb (a b : Status) : bool :=
  match a, b with
  | StPending, StPending | StConfirmed, StConfirmed
  | StCompleted, StCompleted | StCancelled, StCancelled
  | StPaid, StPaid => true
  | _, _ => false
  end.

Definition PaymentStatus_eqb (a b : PaymentStatus) : bool :=
  match a, b with
  | PayPaid, PayPaid | PayPending, PayPending
  | PayRefunded, PayRefunded => true
  | _, _ => false
  end.

Record Appointment := {
  id : string;
  adminNotes : option string;
  amount : float;
  appointmentDate : Timestamp;
  cancellationReason : option string;
  cancelledAt : option Timestamp;
  confirmedAt : option Timestamp;
  createdAt : Timestamp;
  duration : float;
  notes : option string;
  paidAt : option Timestamp;
  paymentMethod : string;
  paymentStatus : PaymentStatus;
  paymentTransactionId : string;
  serviceCategory : string;
  serviceId : string;
  serviceName : string;
  status : Status;
  timeSlot : string;
  updatedAt : Timestamp;
  userEmail : string;
  userId : string;
  userName : string;
  userPhone : string
}.

Inductive ViewMode := VmPending | VmConfirmed | VmAll | VmCalendar.

(* ===================================================================== *)
(** * Derived views *)
(* ===================================================================== *)

Module Views.

Definition is_null {A} (o : option A) : bool :=
  match o with None => true | Some _ => false end.

(** The callback of the [viewMode === "pending"] branch. *)
Definition pendingFilter (app : Appointment) : bool :=
  Status_eqb (status app) StPending || is_null (confirmedAt app).

(** The callback of the [viewMode === "confirmed"] branch. *)
Definition confirmedFilter (app : Appointment) : bool :=
  Status_eqb (status app) StConfirmed || Status_eqb (status app) StPaid.

(** The callback of the search filter. *)
Definition searchFilter (searchTerm : string) (app : Appointment) : bool :=
  let needle := JsString.toLowerCase searchTerm in
  JsString.includes (JsString.toLowerCase (userName app)) needle
  || JsString.includes (JsString.toLowerCase (userEmail app)) needle
  || JsString.includes (JsString.toLowerCase (serviceName app)) needle.

Definition filteredAppointments
    (appointments : list Appointment) (viewMode : ViewMode)
    (searchTerm : string) : list Appointment :=
  let filtered := appointments in
  let filtered :=
    match viewMode with
    | VmPending => List.filter pendingFilter filtered
    | VmConfirmed => List.filter confirmedFilter filtered
    | _ => filtered
    end in
  let filtered :=
    if JsString.truthy searchTerm
    then List.filter (searchFilter searchTerm) filtered
    else filtered in
  filtered.

(** The [stats] memo. *)
Record Stats := {
  pending : nat;
  confirmed : nat;
  completed : nat;
  totalRevenue : float;
  pendingPayments : float
}.

(** [xs.reduce((sum, app) => sum + app.amount, 0)]. *)
Definition reduce_amount (xs : list Appointment) : float :=
  fold_left (fun sum app => (sum + amount app)%float) xs 0%float.

Definition stats (appointments : list Appointment) : Stats :=
  {| pending := length (List.filter pendingFilter appointments);
     confirmed := length (List.filter confirmedFilter appointments);
     completed :=
       length (List.filter
                 (fun app => Status_eqb (status app) StCompleted)
                 appointments);
     totalRevenue :=
       reduce_amount
         (List.filter
            (fun app => PaymentStatus_eqb (paymentStatus app) PayPaid)
            appointments);
     pendingPayments :=
       reduce_amount
         (List.filter
            (fun app => PaymentStatus_eqb (paymentStatus app) PayPending)
            appointments) |}.

(** The component state the two memos are computed from. *)
Record ViewState := {
  vs_appointments : list Appointment;
  vs_viewMode : ViewMode;
  vs_searchTerm : string
}.

Definition render_filtered (s : ViewState) : list Appointment :=
  filteredAppointments (vs_appointments s) (vs_viewMode s) (vs_searchTerm s).




End Views.

(* ===================================================================== *)
(** * JavaScript dates *)
(* ===================================================================== *)

(** The day-level part of the ECMAScript date algorithms (ECMA-262, "Time
    Values and Time Range", "MakeDay", the [Date] constructor and
    [Date.prototype.setDate]).  A [Date] is the number of its local civil
    day, day 0 being 1970-01-01 (a Thursday); the time of day, which is
    local midnight for every date of the calendar code, is left out.  Day
    numbers are unbounded integers; ECMAScript clips time values at
    100,000,000 days from the epoch, which only matters for the two boundary
    months of that range. *)
Module JsDate.

Definition Date := Z.

Definition DayFromYear (y : Z) : Z :=
  365 * (y - 1970) + (y - 1969) / 4 - (y - 1901) / 100 + (y - 1601) / 400.

(** The leap-year rule of [DaysInYear]. *)
Definition isLeapYear (y : Z) : bool :=
  if negb (y mod 4 =? 0) then false
  else if negb (y mod 100 =? 0) then true
  else if negb (y mod 400 =? 0) then false
  else true.

Definition DaysInYear (y : Z) : Z := if isLeapYear y then 366 else 365.

(** [YearFromTime]: the largest [y] with [DayFromYear y <= d].  The year is
    estimated from the mean length of the Gregorian year and corrected by
    at most one. *)
Definition YearFromTime (d : Date) : Z :=
  let y0 := 1970 + (400 * d) / 146097 in
  if d <? DayFromYear y0 then y0 - 1
  else if DayFromYear (y0 + 1) <=? d then y0 + 1
  else y0.

Definition DayWithinYear (d : Date) : Z := d - DayFromYear (YearFromTime d).

Definition InLeapYear (d : Date) : Z :=
  if isLeapYear (YearFromTime d) then 1 else 0.

Definition MonthFromTime (d : Date) : Z :=
  let w := DayWithinYear d in
  let l := InLeapYear d in
  if w <? 31 then 0
  else if w <? 59 + l then 1
  else if w <? 90 + l then 2
  else if w <? 120 + l then 3
  else if w <? 151 + l then 4
  else if w <? 181 + l then 5
  else if w <? 212 + l then 6
  else if w <? 243 + l then 7
  else if w <? 273 + l then 8
  else if w <? 304 + l then 9
  else if w <? 334 + l then 10
  else 11.

Definition DateFromTime (d : Date) : Z :=
  let w := DayWithinYear d in
  let l := InLeapYear d in
  match MonthFromTime d with
  | 0 => w + 1
  | 1 => w - 30
  | 2 => w - 58 - l
  | 3 => w - 89 - l
  | 4 => w - 119 - l
  | 5 => w - 150 - l
  | 6 => w - 180 - l
  | 7 => w - 211 - l
  | 8 => w - 242 - l
  | 9 => w - 272 - l
  | 10 => w - 303 - l
  | _ => w - 333 - l
  end.

Definition WeekDay (d : Date) : Z := (d + 4) mod 7.

(** Day within the year of the first day of month [mn] (0..11). *)
Definition monthStart (leap : bool) (mn : Z) : Z :=
  let l := if leap then 1 else 0 in
  match mn with
  | 0 => 0
  | 1 => 31
  | 2 => 59 + l
  | 3 => 90 + l
  | 4 => 120 + l
  | 5 => 151 + l
  | 6 => 181 + l
  | 7 => 212 + l
  | 8 => 243 + l
  | 9 => 273 + l
  | 10 => 304 + l
  | _ => 334 + l
  end.

(** Number of days of month [mn] (0..11). *)
Definition monthLength (leap : bool) (mn : Z) : Z :=
  match mn with
  | 1 => if leap then 29 else 28
  | 3 | 5 | 8 | 10 => 30
  | _ => 31
  end.

(** [MakeDay(year, month, date)]: months outside 0..11 carry into the year
    and the date counts on from the first of the month. *)
Definition MakeDay (year month date : Z) : Date :=
  let ym := year + month / 12 in
  let mn := month mod 12 in
  DayFromYear ym + monthStart (isLeapYear ym) mn + date - 1.

(** [MakeFullYear]: a year argument of 0..99 means 1900..1999. *)
Definition MakeFullYear (year : Z) : Z :=
  if (0 <=? year) && (year <=? 99) then 1900 + year else year.

(** [new Date(year, month, date)]. *)
Definition Date_new (year month date : Z) : Date :=
  MakeDay (MakeFullYear year) month date.

Definition getFullYear (d : Date) : Z := YearFromTime d.
Definition getMonth (d : Date) : Z := MonthFromTime d.
Definition getDate (d : Date) : Z := DateFromTime d.
Definition getDay (d : Date) : Z := WeekDay d.

(** [d.setDate(date)], as the value [d] holds afterwards. *)
Definition setDate (d : Date) (date : Z) : Date :=
  MakeDay (YearFromTime d) (MonthFromTime d) date.

End JsDate.

(* ===================================================================== *)
(** * The month grid of the calendar view *)
(* ===================================================================== *)

Module Calendar.
Import JsDate.

(** [for (let i = firstDayOfMonth.getDay(); i > 0; i--)]: the days before
    the first of the month, back to the Sunday. *)
Fixpoint push_leading (firstDayOfMonth : Date) (i : nat) (days : list Date)
    : list Date :=
  match i with
  | O => days
  | S k =>
      let prevDate := firstDayOfMonth in
      let prevDate := setDate prevDate (getDate prevDate - Z.of_nat i) in
      push_leading firstDayOfMonth k (days ++ [prevDate])
  end.

(** [for (let i = 1; i <= lastDayOfMonth.getDate(); i++)], with [n] the
    number of iterations left. *)
Fixpoint push_month (year month : Z) (n : nat) (i : Z) (days : list Date)
    : list Date :=
  match n with
  | O => days
  | S k => push_month year month k (i + 1) (days ++ [Date_new year month i])
  end.

(** [while (daysInMonth.length % 7 !== 0)].  [None] when the fuel runs out
    before the loop exits (or if the list were empty inside the loop, where
    the source would fail on [undefined.getTime()]). *)
Fixpoint pad_trailing (fuel : nat) (days : list Date) : option (list Date) :=
  if Z.of_nat (length days) mod 7 =? 0 then Some days
  else
    match fuel with
    | O => None
    | S k =>
        match last days with
        | None => None
        | Some d =>
            let nextDate := d in
            let nextDate := setDate nextDate (getDate nextDate + 1) in
            pad_trailing k (days ++ [nextDate])
        end
    end.

Definition firstDayOfMonth (currentDate : Date) : Date :=
  Date_new (getFullYear currentDate) (getMonth currentDate) 1.

Definition lastDayOfMonth (currentDate : Date) : Date :=
  Date_new (getFullYear currentDate) (getMonth currentDate + 1) 0.

(** The [daysInMonth] array built on each render. *)
Definition daysInMonth (fuel : nat) (currentDate : Date)
    : option (list Date) :=
  let first := firstDayOfMonth currentDate in
  let last := lastDayOfMonth currentDate in
  let days := push_leading first (Z.to_nat (getDay first)) [] in
  let days :=
    push_month (getFullYear currentDate) (getMonth currentDate)
      (Z.to_nat (getDate last)) 1 days in
  pad_trailing fuel days.

(** The flag computed for each cell when the grid is rendered. *)
Definition isCurrentMonth (currentDate day : Date) : bool :=
  getMonth day =? getMonth currentDate.

(** The click handler of a cell: [isCurrentMonth && setSelectedDate(day)]. *)
Definition onDayClick (currentDate day : Date) (selectedDate : option Date)
    : option Date :=
  if isCurrentMonth currentDate day then Some day else selectedDate.

(** [changeMonth(offset)]. *)
Definition changeMonth (offset : Z) (prev : Date) : Date :=
  Date_new (getFullYear prev) (getMonth prev + offset) 1.

(** Cells still missing to complete the last week of a grid of [n] cells. *)
Definition padding (n : Z) : Z := (7 - n mod 7) mod 7.

(** 1 December of the year 99, which [changeMonth (-1)] reaches from
    January 100. *)
Definition december_99 : Date := MakeDay 99 11 1.

(** A day belongs to the month displayed for [currentDate]. *)
Definition in_target_month (currentDate day : Date) : Prop :=
  getFullYear day = getFullYear currentDate
  /\ getMonth day = getMonth currentDate.


End Calendar.

(* ===================================================================== *)
(** * JavaScript numbers: [Number.prototype.toFixed] *)
(* ===================================================================== *)

Module JsNumber.

(** The literals [0.1] and [0.9] denote the binary64 values nearest to
    them. *)
Definition lit_0_1 : float := 0x1.999999999999ap-4%float.
Definition lit_0_9 : float := 0x1.ccccccccccccdp-1%float.

(** The integer [n] for which [n / 10^f - x] is as close to zero as
    possible, the larger one on a tie, for [x = m * 2^e > 0]. *)
Definition fixed_round (m : positive) (e : Z) (f : nat) : Z :=
  let num := Z.pos m * 10 ^ Z.of_nat f in
  if 0 <=? e then num * 2 ^ e
  else (2 * num + 2 ^ (- e)) / (2 * 2 ^ (- e)).

(** [x >= 10^21] for [x = m * 2^e]. *)
Definition at_least_1e21 (m : positive) (e : Z) : bool :=
  if 0 <=? e then 10 ^ 21 <=? Z.pos m * 2 ^ e
  else 10 ^ 21 * 2 ^ (- e) <=? Z.pos m.

(** The decimal digits of a non-negative integer. *)
Definition digits (n : Z) : string :=
  DecimalString.NilZero.string_of_uint (N.to_uint (Z.to_N n)).

Fixpoint zeros (k : nat) : string :=
  match k with
  | O => EmptyString
  | S k' => String "0" (zeros k')
  end.

(** Steps 11.b-11.c of [toFixed]: the digits of [n] with a decimal point
    before the last [f] of them, after padding with zeros on the left to
    [f + 1] digits. *)
Definition fixed_digits (n : Z) (f : nat) : string :=
  let m := digits n in
  match f with
  | O => m
  | S _ =>
      let k := String.length m in
      let m := if (k <=? f)%nat then zeros (f + 1 - k) +:+ m else m in
      let k := String.length m in
      substring 0 (k - f) m +:+ "." +:+ substring (k - f) f m
  end.

Section ToString.

(** [Number::toString], the default conversion of a number to a string
    (the shortest decimal that reads back as the same value), is the
    platform's. *)
Variable Number_toString : float -> string.

Definition toFixed (x : float) (fractionDigits : nat) : string :=
  match Prim2SF x with
  | S754_nan | S754_infinity _ => Number_toString x
  | S754_zero _ => fixed_digits 0 fractionDigits
  | S754_finite s m e =>
      let sign := if s then "-" else "" in
      if at_least_1e21 m e then sign +:+ Number_toString (abs x)
      else sign +:+ fixed_digits (fixed_round m e fractionDigits)
                      fractionDigits
  end.

End ToString.

(** The integer whose digits [toFixed] prints, with its sign: the value
    shown is [shown_units x f / 10^f].  [None] where [toFixed] falls back
    on [Number::toString]. *)
Definition shown_units (x : float) (f : nat) : option Z :=
  match Prim2SF x with
  | S754_nan | S754_infinity _ => None
  | S754_zero _ => Some 0
  | S754_finite s m e =>
      if at_least_1e21 m e then None
      else Some ((if s then -1 else 1) * fixed_round m e f)
  end.

(** The sign [toFixed] prints in front of the digits. *)
Definition sign_of (x : float) : string :=
  match Prim2SF x with
  | S754_finite true _ _ => "-"
  | _ => ""
  end.

(** The exact value of a finite binary64 number, as a fraction. *)
Definition float_value (x : float) : option Q :=
  match Prim2SF x with
  | S754_zero _ => Some 0%Q
  | S754_finite s m e =>
      let sm := (if s then -1 else 1) * Z.pos m in
      Some (if 0 <=? e then inject_Z (sm * 2 ^ e)
            else sm # Z.to_pos (2 ^ (- e)))
  | _ => None
  end.


End JsNumber.

(* ===================================================================== *)
(** * The remote document store *)
(* ===================================================================== *)

Module Firestore.

Inductive Value :=
| VNull
| VString (s : string)
| VNumber (x : float)
| VTimestamp (t : Timestamp).

(** What a field of an update may hold: a value, or the [serverTimestamp()]
    sentinel the server replaces with the time of the write. *)
Inductive FieldValue :=
| Lit (v : Value)
| ServerTimestamp.

Definition resolve (now : Timestamp) (fv : FieldValue) : Value :=
  match fv with
  | Lit v => v
  | ServerTimestamp => VTimestamp now
  end.

Definition of_nullable (o : option string) : FieldValue :=
  match o with
  | Some s => Lit (VString s)
  | None => Lit VNull
  end.

(** Merging the fields of an update into a document. *)
Definition apply_update (now : Timestamp)
    (data : list (string * FieldValue)) (d : gmap string Value)
    : gmap string Value :=
  foldl (fun acc kv => <[kv.1 := resolve now kv.2]> acc) d data.

(** [updateDoc(doc(db, "appointments", id), data)]: fails when the document
    does not exist. *)
Definition updateDoc (id : string) (data : list (string * FieldValue))
    (now : Timestamp) (coll : gmap string (gmap string Value))
    : option (gmap string (gmap string Value)) :=
  match coll !! id with
  | None => None
  | Some d => Some (<[id := apply_update now data d]> coll)
  end.

End Firestore.

(* ===================================================================== *)
(** * The appointment lifecycle handlers *)
(* ===================================================================== *)

Module Lifecycle.
Import Firestore.

Inductive Dialog :=
| Confirm (message : string) (answer : bool)
| Prompt (message : string) (answer : option string)
| Alert (message : string).

(** The remote [appointments] collection, the component state the handlers
    read and set, and the dialogs shown so far (console output is left
    out). *)
Record State := {
  docs : gmap string (gmap string Value);
  selectedAppointment : option Appointment;
  showApprovalModal : bool;
  adminNotes : string;
  actionLoading : bool;
  dialogs : list Dialog
}.

Definition setDocs v (s : State) : State :=
  {| docs := v; selectedAppointment := selectedAppointment s;
     showApprovalModal := showApprovalModal s; adminNotes := adminNotes s;
     actionLoading := actionLoading s; dialogs := dialogs s |}.
Definition setSelectedAppointment v (s : State) : State :=
  {| docs := docs s; selectedAppointment := v;
     showApprovalModal := showApprovalModal s; adminNotes := adminNotes s;
     actionLoading := actionLoading s; dialogs := dialogs s |}.
Definition setShowApprovalModal v (s : State) : State :=
  {| docs := docs s; selectedAppointment := selectedAppointment s;
     showApprovalModal := v; adminNotes := adminNotes s;
     actionLoading := actionLoading s; dialogs := dialogs s |}.
Definition setAdminNotes v (s : State) : State :=
  {| docs := docs s; selectedAppointment := selectedAppointment s;
     showApprovalModal := showApprovalModal s; adminNotes := v;
     actionLoading := actionLoading s; dialogs := dialogs s |}.
Definition setActionLoading v (s : State) : State :=
  {| docs := docs s; selectedAppointment := selectedAppointment s;
     showApprovalModal := showApprovalModal s; adminNotes := adminNotes s;
     actionLoading := v; dialogs := dialogs s |}.
Definition show (d : Dialog) (s : State) : State :=
  {| docs := docs s; selectedAppointment := selectedAppointment s;
     showApprovalModal := showApprovalModal s; adminNotes := adminNotes s;
     actionLoading := actionLoading s; dialogs := dialogs s ++ [d] |}.

(** The update objects of the four handlers. *)
Definition approveData (adminNotes : string) : list (string * FieldValue) :=
  [("status", Lit (VString "confirmed"));
   ("confirmedAt", ServerTimestamp);
   ("adminNotes", of_nullable (JsString.or_null adminNotes));
   ("updatedAt", ServerTimestamp)].

Definition declineData (reason adminNotes : string)
    : list (string * FieldValue) :=
  [("status", Lit (VString "cancelled"));
   ("cancelledAt", ServerTimestamp);
   ("cancellationReason", Lit (VString reason));
   ("adminNotes", of_nullable (JsString.or_null adminNotes));
   ("updatedAt", ServerTimestamp)].

Definition completedData : list (string * FieldValue) :=
  [("status", Lit (VString "completed"));
   ("updatedAt", ServerTimestamp)].

Definition refundData : list (string * FieldValue) :=
  [("paymentStatus", Lit (VString "refunded"));
   ("status", Lit (VString "cancelled"));
   ("cancelledAt", ServerTimestamp);
   ("cancellationReason", Lit (VString "Refund requested by patient"));
   ("updatedAt", ServerTimestamp)].

Definition handleApprove (now : Timestamp) (s : State) : State :=
  match selectedAppointment s with
  | None => s
  | Some sel =>
      let s := setActionLoading true s in
      let s :=
        match updateDoc (id sel) (approveData (adminNotes s)) now (docs s)
        with
        | Some docs' =>
            setSelectedAppointment None
              (setAdminNotes ""
                 (setShowApprovalModal false (setDocs docs' s)))
        | None => show (Alert "Failed to approve appointment") s
        end in
      setActionLoading false s
  end.

Definition declinePrompt : string :=
  "Please provide a reason for declining:".

(** [promptAnswer] is what [prompt] returns: [None] when it is dismissed. *)
Definition handleDecline (promptAnswer : option string) (now : Timestamp)
    (s : State) : State :=
  match selectedAppointment s with
  | None => s
  | Some sel =>
      let s := show (Prompt declinePrompt promptAnswer) s in
      match promptAnswer with
      | None => s
      | Some reason =>
          if negb (JsString.truthy reason) then s
          else
            let s := setActionLoading true s in
            let s :=
              match updateDoc (id sel)
                      (declineData reason (adminNotes s)) now (docs s)
              with
              | Some docs' =>
                  setSelectedAppointment None
                    (setAdminNotes ""
                       (setShowApprovalModal false (setDocs docs' s)))
              | None => show (Alert "Failed to decline appointment") s
              end in
            setActionLoading false s
      end
  end.

Definition handleMarkCompleted (appointmentId : string)
    (confirmAnswer : bool) (now : Timestamp) (s : State) : State :=
  let s :=
    show (Confirm "Mark this appointment as completed?" confirmAnswer) s in
  if negb confirmAnswer then s
  else
    match updateDoc appointmentId completedData now (docs s) with
    | Some docs' => setDocs docs' s
    | None => show (Alert "Failed to mark as completed") s
    end.

Definition nl : string := String "010"%char EmptyString.

Section Refund.

Variable Number_toString : float -> string.

Definition refundFee (appointment : Appointment) : string :=
  JsNumber.toFixed Number_toString
    (amount appointment * JsNumber.lit_0_1)%float 2.

Definition refundAmount (appointment : Appointment) : string :=
  JsNumber.toFixed Number_toString
    (amount appointment * JsNumber.lit_0_9)%float 2.

(** The text of the confirmation dialog. *)
Definition refundMessage (appointment : Appointment) : string :=
  "Refund R" +:+ Number_toString (amount appointment) +:+ "?"
  +:+ nl +:+ nl +:+ "Note: A 10% cancellation fee (R"
  +:+ refundFee appointment +:+ ") will be deducted."
  +:+ nl +:+ "Refund amount: R" +:+ refundAmount appointment.

Definition handleRefund (appointment : Appointment)
    (confirmRefund : bool) (now : Timestamp) (s : State) : State :=
  let s := show (Confirm (refundMessage appointment) confirmRefund) s in
  if negb confirmRefund then s
  else
    match updateDoc (id appointment) refundData now (docs s) with
    | Some docs' =>
        show (Alert ("Refund processed: R" +:+ refundAmount appointment
                     +:+ " (after 10% fee)"))
          (setDocs docs' s)
    | None => show (Alert "Failed to process refund") s
    end.

End Refund.

(** The condition under which the detail modal renders the
    "Process Refund" button. *)
Definition showProcessRefund (selectedAppointment : Appointment) : bool :=
  PaymentStatus_eqb (paymentStatus selectedAppointment) PayPaid
  && negb (Status_eqb (status selectedAppointment) StCancelled).

(** The condition under which a row of the list renders "Complete". *)
Definition showComplete (app : Appointment) : bool :=
  Status_eqb (status app) StConfirmed.

End Lifecycle.

(* ===================================================================== *)
(** * [Array.prototype.sort] with a comparator *)
(* ===================================================================== *)

(** ECMAScript fixes the result of [sort] for a consistent comparator: the
    rearrangement in comparator order that keeps elements comparing equal in
    their original order.  This insertion sort computes it: an element moves
    past exactly the elements the comparator puts strictly before it. *)
Module JsArray.

Section Sort.
Context {A : Type} (comparefn : A -> A -> Z).

Fixpoint insert (x : A) (l : list A) : list A :=
  match l with
  | [] => [x]
  | y :: l' => if 0 <? comparefn x y then y :: insert x l' else x :: l
  end.

Fixpoint sort (l : list A) : list A :=
  match l with
  | [] => []
  | x :: l' => insert x (sort l')
  end.
End Sort.

End JsArray.

(* ===================================================================== *)
(** * The sortable appointment table (AllAppointmentsList) *)
(* ===================================================================== *)

Module AppointmentList.

(** What [a[key]] may be: a string, or [undefined] for an optional field
    that is absent. *)
Inductive JsValue :=
| JsUndefined
| JsStr (s : string).

(** The relational operator [x < y]: code-unit order on two strings; false
    as soon as one side is [undefined]. *)
Definition js_lt (x y : JsValue) : bool :=
  match x, y with
  | JsStr s, JsStr t => String.ltb s t
  | _, _ => false
  end.

Inductive Direction := ascending | descending.

Definition Direction_eqb (a b : Direction) : bool :=
  match a, b with
  | ascending, ascending | descending, descending => true
  | _, _ => false
  end.

Definition flip (dir : Direction) : Direction :=
  match dir with
  | ascending => descending
  | descending => ascending
  end.

Section Table.
(** The record type of the rows, its keys, and the access [a[key]]. *)
Context {A K : Type} (get : K -> A -> JsValue) (K_eqb : K -> K -> bool).

Record SortConfig := { key : K; direction : Direction }.

(** The comparator handed to [sort]. *)
Definition compareFn (sortConfig : SortConfig) (a b : A) : Z :=
  if js_lt (get (key sortConfig) a) (get (key sortConfig) b)
  then (if Direction_eqb (direction sortConfig) ascending then -1 else 1)
  else if js_lt (get (key sortConfig) b) (get (key sortConfig) a)
  then (if Direction_eqb (direction sortConfig) ascending then 1 else -1)
  else 0.

Definition sortedAppointments (appointments : list A)
    (sortConfig : option SortConfig) : list A :=
  let sortableItems := appointments in
  match sortConfig with
  | Some c => JsArray.sort (compareFn c) sortableItems
  | None => sortableItems
  end.

(** The new [sortConfig] after a click on the header of column [key0]. *)
Definition requestSort (key0 : K) (sortConfig : option SortConfig)
    : option SortConfig :=
  let direction0 :=
    match sortConfig with
    | Some c =>
        if K_eqb (key c) key0 && Direction_eqb (direction c) ascending
        then descending else ascending
    | None => ascending
    end in
  Some {| key := key0; direction := direction0 |}.

(** The string under a key ([""] stands in where the field is absent). *)
Definition key_string (k : K) (a : A) : string :=
  match get k a with
  | JsStr s => s
  | JsUndefined => ""
  end.

(** Row [a] may come before row [b] in a table sorted on [k]. *)
Definition ordered (dir : Direction) (k : K) (a b : A) : Prop :=
  match dir with
  | ascending => String.leb (key_string k a) (key_string k b) = true
  | descending => String.leb (key_string k b) (key_string k a) = true
  end.

(** What [compareFn] computes on two rows whose compared fields are both
    present, in terms of the order of the two strings. *)
Definition compare_keys (sortConfig : SortConfig) (a b : A) : Z :=
  match String.compare (key_string (key sortConfig) a)
          (key_string (key sortConfig) b),
        direction sortConfig with
  | Eq, _ => 0
  | Lt, ascending | Gt, descending => -1
  | Lt, descending | Gt, ascending => 1
  end.

(** The field under [k] is present in every row. *)
Definition all_defined (k : K) (rows : list A) : Prop :=
  Forall (fun a => get k a <> JsUndefined) rows.

End Table.

End AppointmentList.

(** The record of src/AdminDashboard.tsx and its table. *)
Module AdminDashboard.
Import AppointmentList.

Inductive AppointmentType := Consultation | Treatment | FollowUp.
Inductive AppointmentStatus := Confirmed | Completed | Cancelled | Pending.

Definition AppointmentType_str (t : AppointmentType) : string :=
  match t with
  | Consultation => "Consultation"
  | Treatment => "Treatment"
  | FollowUp => "Follow-up"
  end.

Definition AppointmentStatus_str (s : AppointmentStatus) : string :=
  match s with
  | Confirmed => "Confirmed"
  | Completed => "Completed"
  | Cancelled => "Cancelled"
  | Pending => "Pending"
  end.

Record Appointment := {
  id : string;
  patientName : string;
  time : string;
  date : string;
  type : AppointmentType;
  status : AppointmentStatus
}.

(** [keyof Appointment]. *)
Inductive SortKeys :=
| key_id | key_patientName | key_time | key_date | key_type | key_status.

Definition SortKeys_eqb (a b : SortKeys) : bool :=
  match a, b with
  | key_id, key_id | key_patientName, key_patientName
  | key_time, key_time | key_date, key_date
  | key_type, key_type | key_status, key_status => true
  | _, _ => false
  end.

(** [a[key]]. *)
Definition get (k : SortKeys) (a : Appointment) : JsValue :=
  match k with
  | key_id => JsStr (id a)
  | key_patientName => JsStr (patientName a)
  | key_time => JsStr (time a)
  | key_date => JsStr (date a)
  | key_type => JsStr (AppointmentType_str (type a))
  | key_status => JsStr (AppointmentStatus_str (status a))
  end.

Definition key_string := AppointmentList.key_string get.

Definition ordered := AppointmentList.ordered get.


Definition sortedAppointments :=
  AppointmentList.sortedAppointments get.

Definition requestSort :=
  AppointmentList.requestSort SortKeys_eqb.

(** The column headers that can be clicked. *)
Definition headers : list SortKeys :=
  [key_date; key_time; key_patientName; key_status].

End AdminDashboard.


(** The record and table of the earlier copy of the dashboard kept in
    src/Layout.tsx, whose rows have optional fields. *)
Module EarlierDashboard.
Import AppointmentList.

Record AppUser := {
  user_id : string;
  displayName : string;
  email : string;
  role : string;
  isActive : bool
}.

Inductive AppointmentStatus := Pending | Confirmed | Completed | Cancelled.

Definition AppointmentStatus_str (s : AppointmentStatus) : string :=
  match s with
  | Pending => "Pending"
  | Confirmed => "Confirmed"
  | Completed => "Completed"
  | Cancelled => "Cancelled"
  end.

(** [createdAt] is typed [any]: it holds whatever the store returned. *)
Record Appointment := {
  id : string;
  userId : string;
  userName : option string;
  date : string;
  time : string;
  status : AppointmentStatus;
  serviceType : option string;
  notes : option string;
  createdAt : JsValue
}.

Inductive SortKeys :=
| key_id | key_userId | key_userName | key_date | key_time | key_status
| key_serviceType | key_notes | key_createdAt.

Definition SortKeys_eqb (a b : SortKeys) : bool :=
  match a, b with
  | key_id, key_id | key_userId, key_userId | key_userName, key_userName
  | key_date, key_date | key_time, key_time | key_status, key_status
  | key_serviceType, key_serviceType | key_notes, key_notes
  | key_createdAt, key_createdAt => true
  | _, _ => false
  end.

Definition optional (o : option string) : JsValue :=
  match o with
  | Some s => JsStr s
  | None => JsUndefined
  end.

(** [a[key]]. *)
Definition get (k : SortKeys) (a : Appointment) : JsValue :=
  match k with
  | key_id => JsStr (id a)
  | key_userId => JsStr (userId a)
  | key_userName => optional (userName a)
  | key_date => JsStr (date a)
  | key_time => JsStr (time a)
  | key_status => JsStr (AppointmentStatus_str (status a))
  | key_serviceType => optional (serviceType a)
  | key_notes => optional (notes a)
  | key_createdAt => createdAt a
  end.

(** [{ ...app, userName: user?.displayName || "Unknown" }] with
    [user = users.find((u) => u.id === app.userId)]. *)
Definition withUserName (users : list AppUser) (app : Appointment)
    : Appointment :=
  let user := List.find (fun u => String.eqb (user_id u) (userId app)) users in
  let name :=
    match user with
    | Some u => if JsString.truthy (displayName u) then displayName u
                else "Unknown"
    | None => "Unknown"
    end in
  {| id := id app; userId := userId app; userName := Some name;
     date := date app; time := time app; status := status app;
     serviceType := serviceType app; notes := notes app;
     createdAt := createdAt app |}.

(** The rows handed to [AllAppointmentsList]. *)
Definition listRows (users : list AppUser) (appointments : list Appointment)
    : list Appointment :=
  List.map (withUserName users) appointments.

Definition sortedAppointments :=
  AppointmentList.sortedAppointments get.

Definition requestSort :=
  AppointmentList.requestSort SortKeys_eqb.

(** The column headers that can be clicked. *)
Definition headers : list SortKeys :=
  [key_date; key_time; key_userName; key_status].

End EarlierDashboard.

(* ===================================================================== *)
(** * The views, as sets *)
(* ===================================================================== *)

Module ViewSpec.




End ViewSpec.

(* ===================================================================== *)
(** * The "Approve" button of the list *)
(* ===================================================================== *)

Module Review.
Import Lifecycle.

(** The condition under which a row of the list renders "Approve". *)
Definition showApprove (app : Appointment) : bool :=
  Status_eqb (status app) StPending || Views.is_null (confirmedAt app).

(** The click handler of that button. *)
Definition onApproveClick (app : Appointment) (s : State) : State :=
  setShowApprovalModal true (setSelectedAppointment (Some app) s).

End Review.

(* ===================================================================== *)
(** * Amounts on screen *)
(* ===================================================================== *)

Module Format.

Section ToString.
Variable Number_toString : float -> string.

(** [formatCurrency]. *)
Definition formatCurrency (amount : float) : string :=
  "R " +:+ JsNumber.toFixed Number_toString amount 2.

End ToString.

(** Reading a string of decimal digits back as a number. *)
Definition read_digits (s : string) : option Z :=
  match NilEmpty.uint_of_string s with
  | Some d => Some (Z.of_N (N.of_uint d))
  | None => None
  end.

End Format.

(* ===================================================================== *)
(** * Time values and [Date.prototype.toISOString] *)
(* ===================================================================== *)

(** A [Date] wraps a time value, the milliseconds since the epoch in UTC.
    The calendar's civil days of [JsDate] are turned into time values for a
    zone that keeps a fixed offset from UTC. *)
Module JsTime.
Import JsDate.

Definition msPerDay : Z := 86400000.
Definition msPerMinute : Z := 60000.

(** [Day(t)], the day number of a time value. *)
Definition Day (t : Z) : Z := t / msPerDay.

(** A [Date] holds a time value within 8.64e15 ms of the epoch; beyond it
    the date is invalid and [toISOString] throws a [RangeError]. *)
Definition valid (t : Z) : bool := Z.abs t <=? 8640000000000000.

Definition digit (d : Z) : ascii := ascii_of_N (Z.to_N (48 + d)).

(** The [w] decimal digits of [0 <= n < 10^w]. *)
Fixpoint pad (w : nat) (n : Z) : string :=
  match w with
  | O => EmptyString
  | S w' =>
      String (digit (n / 10 ^ Z.of_nat w')) (pad w' (n mod 10 ^ Z.of_nat w'))
  end.

(** The year of the date-time string format: four digits from 0000 to
    9999, otherwise a sign and six digits. *)
Definition yearText (y : Z) : string :=
  if (0 <=? y) && (y <=? 9999) then pad 4 y
  else (if y <? 0 then "-" else "+") +:+ pad 6 (Z.abs y).

(** The part of the ISO string before its ["T"], for a day number. *)
Definition isoDateOfDay (d : Z) : string :=
  yearText (YearFromTime d) +:+ "-" +:+ pad 2 (MonthFromTime d + 1)
  +:+ "-" +:+ pad 2 (DateFromTime d).

(** [new Date(t).toISOString().split("T")[0]]; [None] is the
    [RangeError]. *)
Definition toISODate (t : Z) : option string :=
  if valid t then Some (isoDateOfDay (Day t)) else None.

(** Local time in a zone that is always [tz] minutes ahead of UTC. *)
Definition LocalTime (tz t : Z) : Z := t + tz * msPerMinute.
Definition UTC (tz t : Z) : Z := t - tz * msPerMinute.

(** The time value of the [Date] that sits at midnight, local time, at the
    start of the civil day [day]. *)
Definition timeValue (tz : Z) (day : Date) : Z := UTC tz (day * msPerDay).

End JsTime.

(* ===================================================================== *)
(** * Appointments by date and the cells of the calendar *)
(* ===================================================================== *)

Module CalendarCells.
Import JsTime.

Section Grouping.
(** [dateKeyOf app] is the key computed for [app] ([None] when computing
    it throws) and [entry app] is what is pushed under it. *)
Context {A : Type} (dateKeyOf : A -> option string) (entry : A -> A).

(** One call of the [forEach] callback on the [Map] built so far. *)
Definition addToMap (map : gmap string (list A)) (app : A)
    : option (gmap string (list A)) :=
  match dateKeyOf app with
  | None => None
  | Some dateKey =>
      let map :=
        match map !! dateKey with
        | None => <[dateKey := []]> map
        | Some _ => map
        end in
      Some match map !! dateKey with
           | Some bucket => <[dateKey := bucket ++ [entry app]]> map
           | None => map
           end
  end.

Definition appointmentsByDate (appointments : list A)
    : option (gmap string (list A)) :=
  foldl (fun acc app =>
           match acc with
           | Some map => addToMap map app
           | None => None
           end)
    (Some ∅) appointments.

(** [map.get(dateKey) || []]. *)
Definition forDay (map : gmap string (list A)) (dateKey : string) : list A :=
  match map !! dateKey with
  | Some bucket => bucket
  | None => []
  end.

(** The key of [a] is [k]. *)
Definition has_key (k : string) (a : A) : bool :=
  match dateKeyOf a with
  | Some k' => String.eqb k' k
  | None => false
  end.

End Grouping.

(** [day.toISOString().split("T")[0]] for a cell of the grid, in a zone
    [tz] minutes ahead of UTC. *)
Definition cellKey (tz : Z) (day : JsDate.Date) : option string :=
  toISODate (timeValue tz day).

(** The appointments shown in the cell of [day]. *)
Definition appointmentsForDay {A} (tz : Z) (map : gmap string (list A))
    (day : JsDate.Date) : option (list A) :=
  match cellKey tz day with
  | Some dateKey => Some (forDay map dateKey)
  | None => None
  end.

(** The maps of the three calendars: the one of
    EnhancedAppointmentManagement.tsx keys an appointment by the ISO date
    of its timestamp, the two of src/Layout.tsx by its [date] string, the
    earlier of them filling in the user name. *)
Definition enhancedByDate :=
  appointmentsByDate
    (fun app : Appointment => toISODate (appointmentDate app))
    (fun app => app).

Definition earlierByDate (users : list EarlierDashboard.AppUser) :=
  appointmentsByDate
    (fun app : EarlierDashboard.Appointment =>
       Some (EarlierDashboard.date app))
    (EarlierDashboard.withUserName users).

Definition adminByDate :=
  appointmentsByDate
    (fun app : AdminDashboard.Appointment => Some (AdminDashboard.date app))
    (fun app => app).

End CalendarCells.

(* ===================================================================== *)
(** * The overview page (DashboardView) *)
(* ===================================================================== *)

Module DashboardView.
Import JsTime.

Inductive ChartView := upcoming | past.

(** [Array.prototype.filter] with a callback that may throw. *)
Fixpoint filterM {A} (p : A -> option bool) (l : list A) : option (list A) :=
  match l with
  | [] => Some []
  | a :: l' =>
      match p a with
      | None => None
      | Some b =>
          match filterM p l' with
          | None => None
          | Some r => Some (if b then a :: r else r)
          end
      end
  end.

(** [Date.now() + i * 864e5] and [Date.now() - (6 - i) * 864e5]. *)
Definition chartInstant (chartView : ChartView) (now i : Z) : Z :=
  match chartView with
  | upcoming => now + i * 86400000
  | past => now - (6 - i) * 86400000
  end.

Section Chart.
(** The appointment record and its [date] field. *)
Context {A : Type} (date : A -> string).

(** [a.date === new Date(t).toISOString().split("T")[0]]. *)
Definition onDate (t : Z) (a : A) : option bool :=
  match toISODate t with
  | Some dateKey => Some (String.eqb (date a) dateKey)
  | None => None
  end.

(** The seven bars of the chart; [now] is what the clock reads while the
    page renders. *)
Definition chartData (chartView : ChartView) (now : Z)
    (appointments : list A) : option (list nat) :=
  mapM (fun i =>
          match filterM (onDate (chartInstant chartView now i)) appointments
          with
          | Some r => Some (length r)
          | None => None
          end)
    [0; 1; 2; 3; 4; 5; 6].

(** [a.date] is the ISO date of day [d]. *)
Definition onDay (d : Z) (a : A) : bool :=
  String.eqb (date a) (isoDateOfDay d).

End Chart.












End DashboardView.

(* ===================================================================== *)
(** * The chat page (ChatManagementView) *)
(* ===================================================================== *)

Module Chat.

(** The white space and line terminators among the code units below 256,
    which [String.prototype.trim] strips. *)
Definition isWhiteSpace (c : ascii) : bool :=
  let n := Ascii.N_of_ascii c in
  (((9 <=? n) && (n <=? 13)) || (n =? 32) || (n =? 160))%N.

Fixpoint trimStart (s : string) : string :=
  match s with
  | EmptyString => EmptyString
  | String c s' => if isWhiteSpace c then trimStart s' else s
  end.

Fixpoint trimEnd (s : string) : string :=
  match s with
  | EmptyString => EmptyString
  | String c s' =>
      match trimEnd s' with
      | EmptyString => if isWhiteSpace c then EmptyString
                       else String c EmptyString
      | t => String c t
      end
  end.

Definition trim (s : string) : string := trimEnd (trimStart s).

(** The values held by the documents of the [chats] collection. *)
Inductive Field :=
| FNull
| FString (s : string)
| FBool (b : bool)
| FTimestamp (t : Timestamp).

Record User := { uid : string }.

(** The documents of [chats], the documents of each thread's [messages]
    subcollection in the order they were added (their generated ids are
    left out), and the component state the handler reads and sets. *)
Record State := {
  chats : gmap string (gmap string Field);
  messages : gmap string (list (gmap string Field));
  selectedThreadId : option string;
  newMessage : string
}.

(** How the handler's promise settles, with the state it leaves. *)
Inductive Outcome :=
| Fulfilled (s : State)
| Rejected (s : State).

Definition messageData (text : string) (now : Timestamp)
    : gmap string Field :=
  list_to_map
    [("text", FString text); ("senderId", FString "admin");
     ("timestamp", FTimestamp now)].

Definition threadData (text : string) (now : Timestamp)
    : list (string * Field) :=
  [("lastMessageText", FString text);
   ("lastMessageTimestamp", FTimestamp now);
   ("unreadByAdmin", FBool false)].

(** [addDoc]: a subcollection needs no parent document. *)
Definition addDoc (threadId : string) (data : gmap string Field)
    (msgs : gmap string (list (gmap string Field)))
    : gmap string (list (gmap string Field)) :=
  <[threadId := default [] (msgs !! threadId) ++ [data]]> msgs.

(** [updateDoc]: rejected when the document does not exist. *)
Definition updateDoc (threadId : string) (data : list (string * Field))
    (coll : gmap string (gmap string Field))
    : option (gmap string (gmap string Field)) :=
  match coll !! threadId with
  | Some d =>
      Some (<[threadId := foldl (fun d kv => <[kv.1 := kv.2]> d) d data]>
              coll)
  | None => None
  end.

(** [sentAt] and [updatedAt] are the server times of the two writes. *)
Definition handleSendMessage (user : option User)
    (sentAt updatedAt : Timestamp) (s : State) : Outcome :=
  if String.eqb (trim (newMessage s)) ""
  then Fulfilled s
  else
    match selectedThreadId s, user with
    | Some threadId, Some _ =>
        if negb (JsString.truthy threadId) then Fulfilled s
        else
          let s1 :=
            {| chats := chats s;
               messages :=
                 addDoc threadId (messageData (newMessage s) sentAt)
                   (messages s);
               selectedThreadId := selectedThreadId s;
               newMessage := newMessage s |} in
          match updateDoc threadId (threadData (newMessage s) updatedAt)
                  (chats s1)
          with
          | None => Rejected s1
          | Some chats' =>
              Fulfilled
                {| chats := chats'; messages := messages s1;
                   selectedThreadId := selectedThreadId s1;
                   newMessage := "" |}
          end
    | _, _ => Fulfilled s
    end.

(** The messages of a thread. *)
Definition thread (threadId : string) (s : State)
    : list (gmap string Field) :=
  default [] (messages s !! threadId).

(** A message of white space only. *)
Definition blank (s : string) : Prop :=
  Forall (fun c => isWhiteSpace c = true) (list_ascii_of_string s).

End Chat.

(* ===================================================================== *)
(** * The colour theme (AdminDashboard, SettingsView) *)
(* ===================================================================== *)

Module Theme.

(** The component's [theme], the browser's [localStorage] and whether the
    root element carries the class ["dark"]. *)
Record State := {
  theme : string;
  localStorage : gmap string string;
  darkClass : bool
}.

(** [localStorage.getItem("theme") || "dark"]. *)
Definition initialTheme (storage : gmap string string) : string :=
  match storage !! "theme" with
  | Some t => if JsString.truthy t then t else "dark"
  | None => "dark"
  end.

(** The effect that runs after the first render and after every change of
    [theme]. *)
Definition themeEffect (s : State) : State :=
  {| theme := theme s;
     localStorage := <["theme" := theme s]> (localStorage s);
     darkClass := String.eqb (theme s) "dark" |}.

(** Opening the page with the given storage and root class. *)
Definition mount (storage : gmap string string) (rootDark : bool) : State :=
  themeEffect {| theme := initialTheme storage; localStorage := storage;
                 darkClass := rootDark |}.

(** The switch of the settings page:
    [setTheme(isDark ? "light" : "dark")]. *)
Definition onToggle (s : State) : State :=
  let isDark := String.eqb (theme s) "dark" in
  themeEffect {| theme := if isDark then "light" else "dark";
                 localStorage := localStorage s;
                 darkClass := darkClass s |}.

End Theme.

(* ===================================================================== *)
(** * Sample data *)
(* ===================================================================== *)

Module Samples.
Import Firestore.

Definition status_str (s : Status) : string :=
  match s with
  | StPending => "pending"
  | StConfirmed => "confirmed"
  | StCompleted => "completed"
  | StCancelled => "cancelled"
  | StPaid => "paid"
  end.

Definition paymentStatus_str (p : PaymentStatus) : string :=
  match p with
  | PayPaid => "paid"
  | PayPending => "pending"
  | PayRefunded => "refunded"
  end.

Definition nullable_ts (o : option Timestamp) : Value :=
  match o with
  | Some t => VTimestamp t
  | None => VNull
  end.

Definition nullable_str (o : option string) : Value :=
  match o with
  | Some s => VString s
  | None => VNull
  end.

(** The document a record is the snapshot of: the fields that
    [{ id: doc.id, ...doc.data() }] spreads into it. *)
Definition docOf (a : Appointment) : gmap string Value :=
  list_to_map
    [("adminNotes", nullable_str (adminNotes a));
     ("amount", VNumber (amount a));
     ("appointmentDate", VTimestamp (appointmentDate a));
     ("cancellationReason", nullable_str (cancellationReason a));
     ("cancelledAt", nullable_ts (cancelledAt a));
     ("confirmedAt", nullable_ts (confirmedAt a));
     ("createdAt", VTimestamp (createdAt a));
     ("duration", VNumber (duration a));
     ("notes", nullable_str (notes a));
     ("paidAt", nullable_ts (paidAt a));
     ("paymentMethod", VString (paymentMethod a));
     ("paymentStatus", VString (paymentStatus_str (paymentStatus a)));
     ("paymentTransactionId", VString (paymentTransactionId a));
     ("serviceCategory", VString (serviceCategory a));
     ("serviceId", VString (serviceId a));
     ("serviceName", VString (serviceName a));
     ("status", VString (status_str (status a)));
     ("timeSlot", VString (timeSlot a));
     ("updatedAt", VTimestamp (updatedAt a));
     ("userEmail", VString (userEmail a));
     ("userId", VString (userId a));
     ("userName", VString (userName a));
     ("userPhone", VString (userPhone a))].

(** A booking awaiting approval. *)
Definition booked : Appointment :=
  {| id := "apt-1"; adminNotes := None; amount := 500%float;
     appointmentDate := 1767261600000; cancellationReason := None;
     cancelledAt := None; confirmedAt := None; createdAt := 1764583200000;
     duration := 30%float; notes := None; paidAt := Some 1764583260000;
     paymentMethod := "payfast"; paymentStatus := PayPaid;
     paymentTransactionId := "tx-1"; serviceCategory := "Dermatology";
     serviceId := "svc-1"; serviceName := "Consultation";
     status := StPending; timeSlot := "09:00"; updatedAt := 1764583260000;
     userEmail := "jane@example.com"; userId := "u-1";
     userName := "Jane Doe"; userPhone := "0110000001" |}.

(** A confirmed and paid booking of R200. *)
Definition confirmed_paid : Appointment :=
  {| id := "apt-2"; adminNotes := None; amount := 200%float;
     appointmentDate := 1767348000000; cancellationReason := None;
     cancelledAt := None; confirmedAt := Some 1764669600000;
     createdAt := 1764583200000; duration := 45%float; notes := None;
     paidAt := Some 1764583260000; paymentMethod := "payfast";
     paymentStatus := PayPaid; paymentTransactionId := "tx-2";
     serviceCategory := "Dermatology"; serviceId := "svc-2";
     serviceName := "Chemical peel"; status := StConfirmed;
     timeSlot := "10:30"; updatedAt := 1764669600000;
     userEmail := "sam@example.com"; userId := "u-2";
     userName := "Sam Nkosi"; userPhone := "0110000002" |}.

(** A booking declined before it was ever confirmed or paid. *)
Definition declined : Appointment :=
  {| id := "apt-3"; adminNotes := None; amount := 350%float;
     appointmentDate := 1767434400000;
     cancellationReason := Some "No slot available";
     cancelledAt := Some 1764756000000; confirmedAt := None;
     createdAt := 1764583200000; duration := 30%float; notes := None;
     paidAt := None; paymentMethod := "payfast";
     paymentStatus := PayPending; paymentTransactionId := "";
     serviceCategory := "Dermatology"; serviceId := "svc-1";
     serviceName := "Consultation"; status := StCancelled;
     timeSlot := "14:00"; updatedAt := 1764756000000;
     userEmail := "lee@example.com"; userId := "u-3";
     userName := "Lee Mokoena"; userPhone := "0110000003" |}.

(** A booking already marked completed. *)
Definition done_visit : Appointment :=
  {| id := "apt-4"; adminNotes := Some "follow up in 6 weeks";
     amount := 200%float; appointmentDate := 1764842400000;
     cancellationReason := None; cancelledAt := None;
     confirmedAt := Some 1764669600000; createdAt := 1764583200000;
     duration := 45%float; notes := None; paidAt := Some 1764583260000;
     paymentMethod := "payfast"; paymentStatus := PayPaid;
     paymentTransactionId := "tx-4"; serviceCategory := "Dermatology";
     serviceId := "svc-2"; serviceName := "Chemical peel";
     status := StCompleted; timeSlot := "10:30";
     updatedAt := 1764846000000; userEmail := "sam@example.com";
     userId := "u-2"; userName := "Sam Nkosi"; userPhone := "0110000002" |}.

(** An amount of five cents: the binary64 value nearest to 0.05. *)
Definition five_cents : float := 0x1.999999999999ap-5%float.

Definition tiny_fee : Appointment :=
  {| id := "apt-5"; adminNotes := None; amount := five_cents;
     appointmentDate := 1767434400000; cancellationReason := None;
     cancelledAt := None; confirmedAt := Some 1764669600000;
     createdAt := 1764583200000; duration := 15%float; notes := None;
     paidAt := Some 1764583260000; paymentMethod := "payfast";
     paymentStatus := PayPaid; paymentTransactionId := "tx-5";
     serviceCategory := "Admin"; serviceId := "svc-9";
     serviceName := "Record copy"; status := StConfirmed;
     timeSlot := "08:00"; updatedAt := 1764669600000;
     userEmail := "lee@example.com"; userId := "u-3";
     userName := "Lee Mokoena"; userPhone := "0110000003" |}.

Definition store : gmap string (gmap string Value) :=
  list_to_map
    [(id booked, docOf booked); (id confirmed_paid, docOf confirmed_paid);
     (id declined, docOf declined); (id done_visit, docOf done_visit);
     (id tiny_fee, docOf tiny_fee)].

Definition state (sel : option Appointment) (note : string)
    : Lifecycle.State :=
  {| Lifecycle.docs := store;
     Lifecycle.selectedAppointment := sel;
     Lifecycle.showApprovalModal := true;
     Lifecycle.adminNotes := note;
     Lifecycle.actionLoading := false;
     Lifecycle.dialogs := [] |}.

(** A [Number::toString] for the samples: the digits of integral values. *)
Definition integral_toString (x : float) : string :=
  match Prim2SF x with
  | S754_finite false m e =>
      if 0 <=? e then JsNumber.digits (Z.pos m * 2 ^ e)
      else JsNumber.digits (Z.pos m / 2 ^ (- e))
  | _ => "0"
  end.

Definition server_time : Timestamp := 1764842400000.

(** A day of November 2026. *)
Definition a_day : JsDate.Date := JsDate.MakeDay 2026 10 2.

(** Rows of the appointment table of src/AdminDashboard.tsx. *)
Definition row (i name t d : string) (ty : AdminDashboard.AppointmentType)
    (st : AdminDashboard.AppointmentStatus) : AdminDashboard.Appointment :=
  {| AdminDashboard.id := i; AdminDashboard.patientName := name;
     AdminDashboard.time := t; AdminDashboard.date := d;
     AdminDashboard.type := ty; AdminDashboard.status := st |}.

Definition rows : list AdminDashboard.Appointment :=
  [row "r1" "Sam Nkosi" "10:30" "2026-11-03" AdminDashboard.Treatment
     AdminDashboard.Confirmed;
   row "r2" "Jane Doe" "09:00" "2026-11-02" AdminDashboard.Consultation
     AdminDashboard.Pending;
   row "r3" "Lee Mokoena" "14:00" "2026-11-03" AdminDashboard.FollowUp
     AdminDashboard.Completed;
   row "r4" "Ann Smith" "08:00" "2026-11-05" AdminDashboard.Consultation
     AdminDashboard.Cancelled].

End Samples.

(* ===================================================================== *)
(** * Further sample data *)
(* ===================================================================== *)

Module Cases.

(** A booking whose document was removed from the store after the list
    was loaded. *)
Definition removed : Appointment :=
  {| id := "apt-9"; adminNotes := None; amount := 350%float;
     appointmentDate := 1767434400000; cancellationReason := None;
     cancelledAt := None; confirmedAt := None; createdAt := 1764583200000;
     duration := 30%float; notes := None; paidAt := None;
     paymentMethod := "payfast"; paymentStatus := PayPending;
     paymentTransactionId := ""; serviceCategory := "Dermatology";
     serviceId := "svc-1"; serviceName := "Consultation";
     status := StPending; timeSlot := "15:00"; updatedAt := 1764583200000;
     userEmail := "kim@example.com"; userId := "u-4";
     userName := "Kim Dlamini"; userPhone := "0110000004" |}.

(** [Samples.booked] once declined, without a note, at
    [Samples.server_time]. *)
Definition booked_declined : Appointment :=
  {| id := "apt-1"; adminNotes := None; amount := 500%float;
     appointmentDate := 1767261600000;
     cancellationReason := Some "No slot available";
     cancelledAt := Some Samples.server_time; confirmedAt := None;
     createdAt := 1764583200000; duration := 30%float; notes := None;
     paidAt := Some 1764583260000; paymentMethod := "payfast";
     paymentStatus := PayPaid; paymentTransactionId := "tx-1";
     serviceCategory := "Dermatology"; serviceId := "svc-1";
     serviceName := "Consultation"; status := StCancelled;
     timeSlot := "09:00"; updatedAt := Samples.server_time;
     userEmail := "jane@example.com"; userId := "u-1";
     userName := "Jane Doe"; userPhone := "0110000001" |}.

(** Users and appointments of the earlier dashboard: the second user has
    no display name and the third appointment belongs to no user. *)
Definition users : list EarlierDashboard.AppUser :=
  [{| EarlierDashboard.user_id := "u-1";
      EarlierDashboard.displayName := "Jane Doe";
      EarlierDashboard.email := "jane@example.com";
      EarlierDashboard.role := "patient";
      EarlierDashboard.isActive := true |};
   {| EarlierDashboard.user_id := "u-2";
      EarlierDashboard.displayName := "";
      EarlierDashboard.email := "sam@example.com";
      EarlierDashboard.role := "patient";
      EarlierDashboard.isActive := true |}].

Definition visit (i u d t : string)
    (st : EarlierDashboard.AppointmentStatus)
    : EarlierDashboard.Appointment :=
  {| EarlierDashboard.id := i; EarlierDashboard.userId := u;
     EarlierDashboard.userName := None; EarlierDashboard.date := d;
     EarlierDashboard.time := t; EarlierDashboard.status := st;
     EarlierDashboard.serviceType := None; EarlierDashboard.notes := None;
     EarlierDashboard.createdAt := AppointmentList.JsUndefined |}.

Definition visits : list EarlierDashboard.Appointment :=
  [visit "v1" "u-1" "2026-11-01" "09:00" EarlierDashboard.Confirmed;
   visit "v2" "u-2" "2026-11-02" "10:00" EarlierDashboard.Pending;
   visit "v3" "u-7" "2026-11-02" "11:00" EarlierDashboard.Completed].

(** 2 November 2026, 08:00 UTC. *)
Definition now : Z := 1793606400000.

(** South African Standard Time: two hours ahead of UTC all year. *)
Definition sast : Z := 120.

(** The civil days 2 January and 2 November 2026. *)
Definition jan_2 : JsDate.Date := JsDate.MakeDay 2026 0 2.
Definition nov_2 : JsDate.Date := JsDate.MakeDay 2026 10 2.

(** A chat with one thread. *)
Definition thread_doc : gmap string Chat.Field :=
  list_to_map
    [("patientName", Chat.FString "Jane Doe");
     ("lastMessageText", Chat.FString "Hi");
     ("lastMessageTimestamp", Chat.FTimestamp 1764583200000);
     ("unreadByAdmin", Chat.FBool true)].

Definition chat (sel : option string) (text : string) : Chat.State :=
  {| Chat.chats := {[ "t-1" := thread_doc ]};
     Chat.messages := ∅;
     Chat.selectedThreadId := sel;
     Chat.newMessage := text |}.

Definition admin : Chat.User := {| Chat.uid := "admin-1" |}.

End Cases.

(* ===================================================================== *)
(** * Properties *)
(* ===================================================================== *)

(** Linear arithmetic with division and remainder by constants. *)
Ltac zlia := Z.to_euclidean_division_equations; lia.

(* --------------------------------------------------------------------- *)
(** ** Calendar arithmetic *)
(* --------------------------------------------------------------------- *)

Section DateFacts.
Import JsDate.

Lemma DayFromYear_bounds y :
  146097 * (y - 1970) - 506 <= 400 * DayFromYear y
  <= 146097 * (y - 1970) + 589.
Proof. unfold DayFromYear. zlia. Qed.

Lemma DayFromYear_succ y : DayFromYear (y + 1) = DayFromYear y + DaysInYear y.
Proof.
  unfold DayFromYear, DaysInYear, isLeapYear.
  destruct (Z.eqb_spec (y mod 4) 0), (Z.eqb_spec (y mod 100) 0),
    (Z.eqb_spec (y mod 400) 0); cbn [negb]; zlia.
Qed.

Lemma DaysInYear_range y : 365 <= DaysInYear y <= 366.
Proof. unfold DaysInYear. destruct (isLeapYear y); lia. Qed.

Lemma DayFromYear_mono a b : a <= b -> DayFromYear a <= DayFromYear b.
Proof.
  intros H. replace b with (a + Z.of_nat (Z.to_nat (b - a))) by lia.
  induction (Z.to_nat (b - a)) as [|n IH].
  - replace (a + Z.of_nat 0) with a by lia. lia.
  - replace (a + Z.of_nat (S n)) with (a + Z.of_nat n + 1) by lia.
    rewrite DayFromYear_succ. pose proof (DaysInYear_range (a + Z.of_nat n)). lia.
Qed.

Lemma YearFromTime_spec d :
  DayFromYear (YearFromTime d) <= d < DayFromYear (YearFromTime d + 1).
Proof.
  unfold YearFromTime.
  set (y0 := 1970 + (400 * d) / 146097).
  assert (Hy0 : 146097 * (y0 - 1970) <= 400 * d
                < 146097 * (y0 - 1970) + 146097) by (subst y0; zlia).
  pose proof (DayFromYear_bounds (y0 - 1)).
  pose proof (DayFromYear_bounds y0).
  pose proof (DayFromYear_bounds (y0 + 1)).
  pose proof (DayFromYear_bounds (y0 + 1 + 1)).
  clearbody y0.
  destruct (Z.ltb_spec d (DayFromYear y0)).
  - replace (y0 - 1 + 1) with y0 by lia. lia.
  - destruct (Z.leb_spec (DayFromYear (y0 + 1)) d); lia.
Qed.

Lemma YearFromTime_unique y d :
  DayFromYear y <= d < DayFromYear (y + 1) -> YearFromTime d = y.
Proof.
  intros Hd. pose proof (YearFromTime_spec d) as Hs.
  destruct (Z.lt_trichotomy (YearFromTime d) y) as [Hlt | [Heq | Hgt]]; [|done|].
  - pose proof (DayFromYear_mono (YearFromTime d + 1) y ltac:(lia)). lia.
  - pose proof (DayFromYear_mono (y + 1) (YearFromTime d) ltac:(lia)). lia.
Qed.

(** [YearFromTime d] is the largest year that starts on or before [d]. *)
Lemma YearFromTime_largest d y :
  DayFromYear y <= d -> y <= YearFromTime d.
Proof.
  intros Hy. pose proof (YearFromTime_spec d) as Hs.
  destruct (Z.le_gt_cases y (YearFromTime d)) as [|Hgt]; [done|].
  pose proof (DayFromYear_mono (YearFromTime d + 1) y ltac:(lia)). lia.
Qed.

Lemma DayWithinYear_range d :
  0 <= DayWithinYear d < 365 + InLeapYear d.
Proof.
  unfold DayWithinYear, InLeapYear.
  pose proof (YearFromTime_spec d) as Hs.
  rewrite DayFromYear_succ in Hs. unfold DaysInYear in Hs.
  destruct (isLeapYear (YearFromTime d)); lia.
Qed.

(** The month and date of a day, read off its position in the year. *)
Lemma month_date_cases d :
  let w := DayWithinYear d in
  let l := InLeapYear d in
  exists mn, MonthFromTime d = mn /\ 0 <= mn <= 11
    /\ DateFromTime d = w - monthStart (isLeapYear (YearFromTime d)) mn + 1
    /\ 1 <= DateFromTime d <= monthLength (isLeapYear (YearFromTime d)) mn.
Proof.
  intros w l. pose proof (DayWithinYear_range d) as Hw.
  fold w l in Hw.
  unfold DateFromTime, MonthFromTime. fold w l.
  assert (Hl : l = if isLeapYear (YearFromTime d) then 1 else 0) by done.
  clearbody w l.
  repeat match goal with
         | |- context [ ?a <? ?b ] => destruct (Z.ltb_spec a b)
         end;
  eexists; (split; [reflexivity|]);
  destruct (isLeapYear (YearFromTime d)); cbn [monthStart monthLength]; lia.
Qed.

Lemma MakeDay_in_year y mn dt :
  0 <= mn <= 11 ->
  MakeDay y mn dt = DayFromYear y + monthStart (isLeapYear y) mn + dt - 1.
Proof.
  intros Hm. unfold MakeDay.
  rewrite Z.div_small, Z.mod_small by lia. by rewrite Z.add_0_r.
Qed.

Lemma MakeDay_shift y m dt k : MakeDay y m (dt + k) = MakeDay y m dt + k.
Proof. unfold MakeDay. lia. Qed.

Lemma MakeDay_of_fields d :
  MakeDay (YearFromTime d) (MonthFromTime d) (DateFromTime d) = d.
Proof.
  destruct (month_date_cases d) as (mn & Hm & Hr & Hd & _).
  rewrite Hm, Hd, MakeDay_in_year by done. unfold DayWithinYear. lia.
Qed.

Lemma monthStart_next leap mn :
  0 <= mn <= 10 ->
  monthStart leap (mn + 1) = monthStart leap mn + monthLength leap mn.
Proof.
  intros H.
  assert (mn = 0 \/ mn = 1 \/ mn = 2 \/ mn = 3 \/ mn = 4 \/ mn = 5 \/ mn = 6
          \/ mn = 7 \/ mn = 8 \/ mn = 9 \/ mn = 10) as Hc by lia.
  destruct leap; intuition subst; reflexivity.
Qed.

Lemma monthStart_range leap mn :
  0 <= mn <= 11 ->
  0 <= monthStart leap mn
  /\ monthStart leap mn + monthLength leap mn <= (if leap then 366 else 365).
Proof.
  intros H.
  assert (mn = 0 \/ mn = 1 \/ mn = 2 \/ mn = 3 \/ mn = 4 \/ mn = 5 \/ mn = 6
          \/ mn = 7 \/ mn = 8 \/ mn = 9 \/ mn = 10 \/ mn = 11) as Hc by lia.
  destruct leap; intuition subst; cbn; lia.
Qed.

Lemma monthLength_range leap mn : 28 <= monthLength leap mn <= 31.
Proof.
  unfold monthLength. destruct leap; repeat case_match; lia.
Qed.

Lemma fields_of_MakeDay y mn dt :
  0 <= mn <= 11 ->
  1 <= dt <= monthLength (isLeapYear y) mn ->
  YearFromTime (MakeDay y mn dt) = y
  /\ MonthFromTime (MakeDay y mn dt) = mn
  /\ DateFromTime (MakeDay y mn dt) = dt.
Proof.
  intros Hm Hdt. rewrite MakeDay_in_year by done.
  set (d := DayFromYear y + monthStart (isLeapYear y) mn + dt - 1).
  pose proof (monthStart_range (isLeapYear y) mn Hm) as [Hs1 Hs2].
  assert (HY : YearFromTime d = y).
  { apply YearFromTime_unique. rewrite DayFromYear_succ. unfold DaysInYear.
    subst d. destruct (isLeapYear y); lia. }
  destruct (month_date_cases d) as (mn' & Hm' & Hr' & Hd' & Hrange).
  rewrite HY in *. unfold DayWithinYear in Hd'. rewrite HY in Hd'.
  assert (mn' = mn) as ->.
  { rewrite Hd' in Hrange. subst d.
    assert (mn = 0 \/ mn = 1 \/ mn = 2 \/ mn = 3 \/ mn = 4 \/ mn = 5 \/ mn = 6
            \/ mn = 7 \/ mn = 8 \/ mn = 9 \/ mn = 10 \/ mn = 11) as Hc by lia.
    assert (mn' = 0 \/ mn' = 1 \/ mn' = 2 \/ mn' = 3 \/ mn' = 4 \/ mn' = 5
            \/ mn' = 6 \/ mn' = 7 \/ mn' = 8 \/ mn' = 9 \/ mn' = 10
            \/ mn' = 11) as Hc' by lia.
    clear Hm' Hd' HY Hs1 Hs2.
    destruct (isLeapYear y);
      decompose [or] Hc; subst mn; decompose [or] Hc'; subst mn';
      cbn [monthStart monthLength] in *; lia. }
  repeat split; [done|]. rewrite Hd'. subst d. lia.
Qed.

Lemma setDate_shift d dt : setDate d dt = d + (dt - getDate d).
Proof.
  unfold setDate, getDate.
  replace dt with (DateFromTime d + (dt - DateFromTime d)) at 1 by lia.
  by rewrite MakeDay_shift, MakeDay_of_fields.
Qed.

Lemma MakeDay_next_month y mn dt :
  0 <= mn <= 11 ->
  MakeDay y (mn + 1) dt = MakeDay y mn (monthLength (isLeapYear y) mn + dt).
Proof.
  intros Hm. destruct (decide (mn = 11)) as [->|Hne].
  - rewrite (MakeDay_in_year y 11) by lia.
    unfold MakeDay. change ((11 + 1) / 12) with 1.
    change ((11 + 1) mod 12) with 0. rewrite DayFromYear_succ.
    unfold DaysInYear. destruct (isLeapYear y), (isLeapYear (y + 1));
      cbn [monthStart monthLength]; lia.
  - rewrite !MakeDay_in_year, monthStart_next by lia. lia.
Qed.

Lemma MakeDay_prev_month y mn dt :
  0 <= mn <= 11 ->
  exists y' mn',
    0 <= mn' <= 11 /\ mn' <> mn
    /\ MakeDay y mn dt = MakeDay y' mn' (monthLength (isLeapYear y') mn' + dt).
Proof.
  intros Hm. destruct (decide (mn = 0)) as [->|Hne].
  - exists (y - 1), 11. split; [lia|]. split; [lia|].
    rewrite !MakeDay_in_year by lia.
    replace y with (y - 1 + 1) at 1 by lia. rewrite DayFromYear_succ.
    unfold DaysInYear. destruct (isLeapYear (y - 1)), (isLeapYear y);
      cbn [monthStart monthLength]; lia.
  - exists y, (mn - 1). split; [lia|]. split; [lia|].
    rewrite !MakeDay_in_year by lia.
    replace mn with (mn - 1 + 1) at 1 by lia.
    rewrite monthStart_next by lia. lia.
Qed.

(** Days shortly before the first of a month lie in another month. *)
Lemma month_before y mn i :
  0 <= mn <= 11 -> 1 <= i <= 28 ->
  MonthFromTime (MakeDay y mn 1 - i) <> mn.
Proof.
  intros Hm Hi.
  destruct (MakeDay_prev_month y mn (1 - i) Hm) as (y' & mn' & Hm' & Hne & E).
  replace (MakeDay y mn 1 - i) with (MakeDay y mn (1 - i))
    by (unfold MakeDay; lia).
  rewrite E. pose proof (monthLength_range (isLeapYear y') mn').
  destruct (fields_of_MakeDay y' mn' (monthLength (isLeapYear y') mn' + (1 - i)))
    as (_ & -> & _); [done|lia|done].
Qed.

(** Days shortly after the last of a month lie in another month. *)
Lemma month_after y mn j :
  0 <= mn <= 11 -> 0 <= j < 28 ->
  MonthFromTime (MakeDay y mn 1 + monthLength (isLeapYear y) mn + j) <> mn.
Proof.
  intros Hm Hj.
  replace (MakeDay y mn 1 + monthLength (isLeapYear y) mn + j)
    with (MakeDay y (mn + 1) (1 + j))
    by (rewrite MakeDay_next_month by done; unfold MakeDay; lia).
  destruct (decide (mn = 11)) as [->|Hne].
  - replace (MakeDay y (11 + 1) (1 + j)) with (MakeDay (y + 1) 0 (1 + j))
      by (rewrite (MakeDay_in_year (y + 1) 0) by lia; reflexivity).
    pose proof (monthLength_range (isLeapYear (y + 1)) 0).
    destruct (fields_of_MakeDay (y + 1) 0 (1 + j)) as (_ & -> & _); lia.
  - pose proof (monthLength_range (isLeapYear y) (mn + 1)).
    destruct (fields_of_MakeDay y (mn + 1) (1 + j)) as (_ & -> & _); lia.
Qed.

(** Every month of every year is the month of one of its days. *)
Lemma every_month_has_a_date y mn :
  0 <= mn <= 11 ->
  getFullYear (MakeDay y mn 1) = y /\ getMonth (MakeDay y mn 1) = mn.
Proof.
  intros Hm. pose proof (monthLength_range (isLeapYear y) mn).
  destruct (fields_of_MakeDay y mn 1) as (HY & HM & _); [done|lia|done].
Qed.

(** The days of a month are the [monthLength] days from its first. *)
Lemma in_month_iff y mn d :
  0 <= mn <= 11 ->
  YearFromTime d = y /\ MonthFromTime d = mn
  <-> MakeDay y mn 1 <= d < MakeDay y mn 1 + monthLength (isLeapYear y) mn.
Proof.
  intros Hm. split.
  - intros [<- <-].
    destruct (month_date_cases d) as (mn' & Hm' & _ & _ & Hrange).
    rewrite Hm' in *.
    pose proof (MakeDay_of_fields d) as E. rewrite Hm' in E.
    rewrite <- E at 2 3.
    replace (DateFromTime d) with (1 + (DateFromTime d - 1)) at 1 2 by lia.
    rewrite MakeDay_shift. lia.
  - intros Hd.
    destruct (fields_of_MakeDay y mn (1 + (d - MakeDay y mn 1)) Hm)
      as (HY & HM & _); [lia|].
    rewrite MakeDay_shift in HY, HM.
    replace (MakeDay y mn 1 + (d - MakeDay y mn 1)) with d in * by lia.
    done.
Qed.

End DateFacts.

Section GridFacts.
Import JsDate Calendar.

Lemma push_leading_seq first n acc :
  push_leading first n acc = acc ++ seqZ (first - Z.of_nat n) (Z.of_nat n).
Proof.
  revert acc. induction n as [|k IH]; intros acc.
  - by rewrite seqZ_nil, app_nil_r by lia.
  - cbn [push_leading]. rewrite IH, setDate_shift, <- app_assoc. f_equal.
    rewrite (seqZ_cons _ (Z.of_nat (S k))) by lia. cbn [app]. f_equal; [lia|].
    f_equal; lia.
Qed.

Lemma push_month_seq year month n i acc :
  push_month year month n i acc
  = acc ++ seqZ (Date_new year month i) (Z.of_nat n).
Proof.
  revert i acc. induction n as [|k IH]; intros i acc.
  - by rewrite seqZ_nil, app_nil_r by lia.
  - cbn [push_month]. rewrite IH, <- app_assoc. f_equal.
    rewrite (seqZ_cons _ (Z.of_nat (S k))) by lia. cbn [app]. f_equal.
    unfold Date_new. rewrite MakeDay_shift. f_equal; lia.
Qed.

Lemma pad_trailing_seq fuel start n :
  0 < n -> padding n <= Z.of_nat fuel ->
  pad_trailing fuel (seqZ start n) = Some (seqZ start (n + padding n)).
Proof.
  unfold padding. revert n. induction fuel as [|k IH]; intros n Hn Hfuel.
  - cbn [pad_trailing]. rewrite length_seqZ, Z2Nat.id by lia.
    destruct (Z.eqb_spec (n mod 7) 0) as [E|E]; [|zlia].
    do 2 f_equal. zlia.
  - cbn [pad_trailing]. rewrite length_seqZ, Z2Nat.id by lia.
    destruct (Z.eqb_spec (n mod 7) 0) as [E|E].
    { do 2 f_equal. zlia. }
    replace n with (Z.of_nat (S (Z.to_nat (n - 1)))) at 1 by lia.
    rewrite seqZ_S, last_snoc, setDate_shift, Z2Nat.id by lia.
    replace (seqZ start (Z.of_nat (S (Z.to_nat (n - 1)))))
      with (seqZ start n) by (f_equal; lia).
    unfold Date.
    match goal with
    | |- context [ seqZ start n ++ [?x] ] =>
        replace (seqZ start n ++ [x]) with (seqZ start (n + 1))
    end.
    2:{ rewrite seqZ_app by lia. do 2 f_equal.
        rewrite seqZ_cons, seqZ_nil by lia. f_equal. lia. }
    rewrite IH by zlia. do 2 f_equal. zlia.
Qed.

End GridFacts.

Section GridTheorem.
Import JsDate Calendar.

Lemma MakeFullYear_id y : y < 0 \/ 99 < y -> MakeFullYear y = y.
Proof.
  intros H. unfold MakeFullYear.
  destruct (Z.leb_spec 0 y), (Z.leb_spec y 99); cbn [andb]; lia.
Qed.

Lemma getMonth_range d : 0 <= getMonth d <= 11.
Proof.
  destruct (month_date_cases d) as (mn & Hm & Hr & _). unfold getMonth. lia.
Qed.

(** The grid is the run of consecutive days from the Sunday on or before
    the first of the month, over whole weeks. *)
Lemma daysInMonth_seq fuel currentDate :
  let y := getFullYear currentDate in
  let m := getMonth currentDate in
  let first := MakeDay y m 1 in
  let n := WeekDay first + monthLength (isLeapYear y) m in
  y < 0 \/ 99 < y -> (6 <= fuel)%nat ->
  daysInMonth fuel currentDate
  = Some (seqZ (first - WeekDay first) (n + padding n)).
Proof.
  intros y m first n Hy Hfuel.
  pose proof (getMonth_range currentDate) as Hm. fold m in Hm.
  pose proof (monthLength_range (isLeapYear y) m) as Hlen.
  assert (Hdow : 0 <= WeekDay first < 7) by (unfold WeekDay; zlia).
  unfold daysInMonth, firstDayOfMonth, lastDayOfMonth, Date_new.
  fold y m. rewrite MakeFullYear_id by done. fold first.
  rewrite push_leading_seq, push_month_seq. cbn [app].
  unfold Date_new. rewrite MakeFullYear_id by done. fold first.
  rewrite MakeDay_next_month, Z.add_0_r by done.
  destruct (fields_of_MakeDay y m (monthLength (isLeapYear y) m))
    as (_ & _ & HD); [done|lia|].
  unfold getDate, getDay. rewrite HD, !Z2Nat.id by lia.
  unfold Date.
  replace (seqZ first (monthLength (isLeapYear y) m))
    with (seqZ (first - WeekDay first + WeekDay first)
            (monthLength (isLeapYear y) m)) by (f_equal; lia).
  rewrite <- seqZ_app by lia. fold n. apply pad_trailing_seq; [lia|].
  unfold padding. zlia.
Qed.


(** Within four weeks of the displayed month, having its month number is
    the same as lying in it. *)
Lemma isCurrentMonth_near (currentDate day : Date) :
  let first := MakeDay (getFullYear currentDate) (getMonth currentDate) 1 in
  let len :=
    monthLength (isLeapYear (getFullYear currentDate))
      (getMonth currentDate) in
  first - 28 <= day < first + len + 28 ->
  isCurrentMonth currentDate day = true <-> in_target_month currentDate day.
Proof.
  intros first len Hday.
  pose proof (getMonth_range currentDate) as Hm.
  split; [|intros Ht; apply Z.eqb_eq; by destruct Ht].
  intros Hcur%Z.eqb_eq. unfold in_target_month.
  apply in_month_iff; [done|]. fold first len.
  destruct (Z.lt_ge_cases day first) as [Hlt|Hge].
  { exfalso.
    apply (month_before (getFullYear currentDate) (getMonth currentDate)
             (first - day)); [done|lia|].
    fold first. replace (first - (first - day)) with day by lia. done. }
  destruct (Z.lt_ge_cases day (first + len)) as [Hlt'|Hge']; [lia|].
  exfalso.
  apply (month_after (getFullYear currentDate) (getMonth currentDate)
           (day - first - len)); [done|lia|].
  fold first len. replace (first + len + (day - first - len)) with day by lia.
  done.
Qed.


(** A click on a cell outside the displayed month selects nothing. *)
Lemma outside_cells_not_selectable
    (fuel : nat) (currentDate day : Date) (days : list Date)
    (selectedDate : option Date) :
  getFullYear currentDate < 0 \/ 99 < getFullYear currentDate ->
  (6 <= fuel)%nat ->
  daysInMonth fuel currentDate = Some days ->
  day ∈ days ->
  ~ in_target_month currentDate day ->
  onDayClick currentDate day selectedDate = selectedDate.
Proof.
  intros Hy Hfuel Hdays Hin Hout.
  rewrite daysInMonth_seq in Hdays by done. injection Hdays as <-.
  apply elem_of_seqZ in Hin.
  pose proof (monthLength_range (isLeapYear (getFullYear currentDate))
                (getMonth currentDate)) as Hlen.
  assert (Hdow : 0 <= WeekDay (MakeDay (getFullYear currentDate)
                                 (getMonth currentDate) 1) < 7)
    by (unfold WeekDay; zlia).
  unfold onDayClick.
  destruct (isCurrentMonth currentDate day) eqn:E; [|done].
  exfalso. apply Hout. apply isCurrentMonth_near; [|done].
  unfold padding in Hin. zlia.
Qed.

(** December 99 is a month the calendar can display: it is where
    "previous month" leads from January 100. *)
Lemma december_99_reachable :
  changeMonth (-1) (MakeDay 100 0 1) = december_99.
Proof. by vm_compute. Qed.


End GridTheorem.

(* --------------------------------------------------------------------- *)
(** ** Filtered views and statistics *)
(* --------------------------------------------------------------------- *)

Section ViewFacts.
Import Views.


Lemma PaymentStatus_eqb_eq a b : PaymentStatus_eqb a b = true <-> a = b.
Proof. destruct a, b; cbn; split; congruence. Qed.








End ViewFacts.

(* --------------------------------------------------------------------- *)
(** ** Document updates *)
(* --------------------------------------------------------------------- *)

Section FirestoreFacts.
Import Firestore.

Lemma apply_update_cons now k v data (d : gmap string Value) :
  apply_update now ((k, v) :: data) d
  = apply_update now data (<[k := resolve now v]> d).
Proof. reflexivity. Qed.

Lemma apply_update_other now data (d : gmap string Value) (f : string) :
  f ∉ data.*1 -> apply_update now data d !! f = d !! f.
Proof.
  revert d. induction data as [|[k v] data IH]; intros d Hf; [done|].
  cbn in Hf. apply not_elem_of_cons in Hf as [Hne Hf].
  rewrite apply_update_cons, IH by done. by rewrite lookup_insert_ne.
Qed.

Lemma apply_update_written now data (d : gmap string Value) k v :
  NoDup data.*1 -> (k, v) ∈ data ->
  apply_update now data d !! k = Some (resolve now v).
Proof.
  revert d. induction data as [|[k' v'] data IH]; intros d Hnd Hin.
  - by apply elem_of_nil in Hin.
  - cbn in Hnd. apply NoDup_cons in Hnd as [Hk' Hnd].
    rewrite apply_update_cons.
    apply elem_of_cons in Hin as [[= <- <-]|Hin].
    + rewrite apply_update_other by done. by rewrite lookup_insert_eq.
    + by apply IH.
Qed.

Lemma updateDoc_Some id data now (coll : gmap string (gmap string Value)) d :
  coll !! id = Some d ->
  updateDoc id data now coll = Some (<[id := apply_update now data d]> coll).
Proof. intros H. unfold updateDoc. by rewrite H. Qed.

Lemma updateDoc_None id data now (coll : gmap string (gmap string Value)) :
  coll !! id = None -> updateDoc id data now coll = None.
Proof. intros H. unfold updateDoc. by rewrite H. Qed.

End FirestoreFacts.

Section LifecycleFacts.
Import Firestore Lifecycle.

Lemma NoDup_approveData n : NoDup (approveData n).*1.
Proof. cbn. compute_done. Qed.
Lemma NoDup_declineData r n : NoDup (declineData r n).*1.
Proof. cbn. compute_done. Qed.
Lemma NoDup_completedData : NoDup completedData.*1.
Proof. compute_done. Qed.
Lemma NoDup_refundData : NoDup refundData.*1.
Proof. compute_done. Qed.

(** Membership in a literal list. *)
Ltac in_data :=
  repeat first [apply list_elem_of_here | apply list_elem_of_further].

(** C9. Approving the selected appointment, pending and not yet confirmed,
    with the admin note "ok" writes status "confirmed", the server time as
    [confirmedAt] (hence not null) and as [updatedAt], and "ok" as
    [adminNotes] to its document; every other field of the document and
    every other document is unchanged. *)
Theorem approve_pending_scenario
    (s : State) (sel : Appointment) (d : gmap string Value)
    (now : Timestamp) :
  selectedAppointment s = Some sel ->
  status sel = StPending ->
  confirmedAt sel = None ->
  adminNotes s = "ok" ->
  docs s !! id sel = Some d ->
  exists d',
    docs (handleApprove now s) !! id sel = Some d'
    /\ d' !! "status" = Some (VString "confirmed")
    /\ d' !! "confirmedAt" = Some (VTimestamp now)
    /\ d' !! "adminNotes" = Some (VString "ok")
    /\ d' !! "updatedAt" = Some (VTimestamp now)
    /\ (forall f : string,
          f ∉ ["status"; "confirmedAt"; "adminNotes"; "updatedAt"] ->
          d' !! f = d !! f)
    /\ (forall j : string,
          j <> id sel -> docs (handleApprove now s) !! j = docs s !! j).
Proof.
  intros Hsel _ _ Hnote Hd. unfold handleApprove. rewrite Hsel.
  cbn [setActionLoading docs adminNotes]. rewrite Hnote.
  rewrite (updateDoc_Some _ _ _ _ d) by done. cbn [docs setSelectedAppointment
    setAdminNotes setShowApprovalModal setDocs setActionLoading].
  exists (apply_update now (approveData "ok") d). split_and!.
  - by rewrite lookup_insert_eq.
  - apply (apply_update_written _ _ _ _ (Lit (VString "confirmed")));
      [apply NoDup_approveData|in_data].
  - apply (apply_update_written _ _ _ _ ServerTimestamp);
      [apply NoDup_approveData|in_data].
  - apply (apply_update_written _ _ _ _ (Lit (VString "ok")));
      [apply NoDup_approveData|in_data].
  - apply (apply_update_written _ _ _ _ ServerTimestamp);
      [apply NoDup_approveData|in_data].
  - intros f Hf. by apply apply_update_other.
  - intros j Hj. by rewrite lookup_insert_ne.
Qed.

Ltac field_written Hnd fv :=
  apply (apply_update_written _ _ _ _ fv); [apply Hnd | in_data].

(** C6. With an appointment selected, a reason prompt that is dismissed
    (null) or answered with the empty string leaves the store and the
    component state as they were: only the prompt is recorded.  A non-empty
    reason writes status "cancelled", the server time as [cancelledAt] and
    the reason as [cancellationReason]; fields outside the update are
    unchanged. *)
Theorem decline_requires_reason
    (s : State) (sel : Appointment) (now : Timestamp) :
  selectedAppointment s = Some sel ->
  (forall answer : option string,
      answer = None \/ answer = Some "" ->
      handleDecline answer now s = show (Prompt declinePrompt answer) s
      /\ docs (handleDecline answer now s) = docs s)
  /\ (forall (reason : string) (d : gmap string Value),
        reason <> "" ->
        docs s !! id sel = Some d ->
        exists d',
          docs (handleDecline (Some reason) now s) !! id sel = Some d'
          /\ d' !! "status" = Some (VString "cancelled")
          /\ d' !! "cancelledAt" = Some (VTimestamp now)
          /\ d' !! "cancellationReason" = Some (VString reason)
          /\ (forall f : string,
                f ∉ ["status"; "cancelledAt"; "cancellationReason";
                     "adminNotes"; "updatedAt"] ->
                d' !! f = d !! f)).
Proof.
  intros Hsel. split.
  - intros answer [-> | ->]; unfold handleDecline; rewrite Hsel; done.
  - intros reason d Hreason Hd. unfold handleDecline. rewrite Hsel.
    destruct reason as [|c reason]; [done|]. cbn [JsString.truthy negb].
    cbn [setActionLoading show docs adminNotes].
    rewrite (updateDoc_Some _ _ _ _ d) by done.
    cbn [docs setSelectedAppointment setAdminNotes setShowApprovalModal
           setDocs setActionLoading].
    eexists. split; [by rewrite lookup_insert_eq|]. split_and!.
    + field_written NoDup_declineData (Lit (VString "cancelled")).
    + field_written NoDup_declineData ServerTimestamp.
    + field_written NoDup_declineData (Lit (VString (String c reason))).
    + intros f Hf. by apply apply_update_other.
Qed.

(** C7. Marking completed, with the operator's confirmation, an
    appointment whose stored status is already "completed" leaves the status
    "completed" and every field other than [updatedAt] as it was. *)
Theorem mark_completed_idempotent
    (s : State) (appointmentId : string) (d : gmap string Value)
    (now : Timestamp) :
  docs s !! appointmentId = Some d ->
  d !! "status" = Some (VString "completed") ->
  exists d',
    docs (handleMarkCompleted appointmentId true now s) !! appointmentId
    = Some d'
    /\ d' !! "status" = Some (VString "completed")
    /\ d' !! "updatedAt" = Some (VTimestamp now)
    /\ (forall f : string, f <> "updatedAt" -> d' !! f = d !! f)
    /\ (forall j : string,
          j <> appointmentId ->
          docs (handleMarkCompleted appointmentId true now s) !! j
          = docs s !! j).
Proof.
  intros Hd Hst. unfold handleMarkCompleted. cbn [negb show docs].
  rewrite (updateDoc_Some _ _ _ _ d) by done. cbn [docs setDocs].
  eexists. split; [by rewrite lookup_insert_eq|].
  assert (Hs : apply_update now completedData d !! "status"
               = Some (VString "completed"))
    by field_written NoDup_completedData (Lit (VString "completed")).
  split_and!.
  - done.
  - field_written NoDup_completedData ServerTimestamp.
  - intros f Hf. destruct (decide (f = "status")) as [->|Hne].
    + by rewrite Hs, Hst.
    + apply apply_update_other. cbn.
      rewrite !not_elem_of_cons. split_and!; [done..|apply not_elem_of_nil].
  - intros j Hj. by rewrite lookup_insert_ne.
Qed.

(** Without a selection, approving and declining do nothing. *)
Lemma no_selection_no_effect (answer : option string) (now : Timestamp)
    (s : State) :
  selectedAppointment s = None ->
  handleApprove now s = s /\ handleDecline answer now s = s.
Proof.
  intros H. unfold handleApprove, handleDecline. by rewrite H.
Qed.

(** A successful approval closes the modal and clears the note and the
    selection. *)
Lemma approve_resets_modal (s : State) (sel : Appointment)
    (d : gmap string Value) (now : Timestamp) :
  selectedAppointment s = Some sel ->
  docs s !! id sel = Some d ->
  showApprovalModal (handleApprove now s) = false
  /\ adminNotes (handleApprove now s) = ""
  /\ selectedAppointment (handleApprove now s) = None
  /\ actionLoading (handleApprove now s) = false
  /\ dialogs (handleApprove now s) = dialogs s.
Proof.
  intros Hsel Hd. unfold handleApprove. rewrite Hsel.
  cbn [setActionLoading docs adminNotes].
  rewrite (updateDoc_Some _ _ _ _ d) by done. done.
Qed.

(** A failed write is reported and changes nothing else: the modal stays
    open on the same selection. *)
Lemma approve_missing_document (s : State) (sel : Appointment)
    (now : Timestamp) :
  selectedAppointment s = Some sel ->
  docs s !! id sel = None ->
  docs (handleApprove now s) = docs s
  /\ selectedAppointment (handleApprove now s) = Some sel
  /\ adminNotes (handleApprove now s) = adminNotes s
  /\ actionLoading (handleApprove now s) = false
  /\ dialogs (handleApprove now s)
     = dialogs s ++ [Alert "Failed to approve appointment"].
Proof.
  intros Hsel Hd. unfold handleApprove. rewrite Hsel.
  cbn [setActionLoading docs adminNotes].
  rewrite updateDoc_None by done. done.
Qed.

(** Answering "Cancel" in the confirmation of "mark completed" writes
    nothing. *)
Lemma completed_refused (appointmentId : string) (now : Timestamp)
    (s : State) :
  docs (handleMarkCompleted appointmentId false now s) = docs s.
Proof. done. Qed.

Section RefundFacts.
Variable Number_toString : float -> string.

Lemma refund_docs (appointment : Appointment) (s : State)
    (d : gmap string Value) (now : Timestamp) :
  docs s !! id appointment = Some d ->
  docs (handleRefund Number_toString appointment true now s)
  = <[id appointment := apply_update now refundData d]> (docs s).
Proof.
  intros Hd. unfold handleRefund. cbn [negb show docs].
  rewrite (updateDoc_Some _ _ _ _ d) by done. done.
Qed.

Lemma refund_200 (appointment : Appointment) :
  amount appointment = 200%float ->
  refundFee Number_toString appointment = "20.00"
  /\ refundAmount Number_toString appointment = "180.00".
Proof.
  intros H. unfold refundFee, refundAmount. rewrite H.
  split; vm_compute; reflexivity.
Qed.

(** C4. A confirmed refund of an appointment whose document exists writes
    status "cancelled", payment status "refunded", the server time as
    [cancelledAt] and the fixed reason "Refund requested by patient"; the
    [amount] field and every field outside the update are unchanged, so no
    refund amount is stored.  The dialog that was confirmed carries the
    refund message, which for an amount of 200 shows the fee as R20.00 and
    the refund as R180.00. *)
Theorem refund_write
    (appointment : Appointment) (s : State) (d : gmap string Value)
    (now : Timestamp) :
  docs s !! id appointment = Some d ->
  (exists d',
      docs (handleRefund Number_toString appointment true now s)
        !! id appointment = Some d'
      /\ d' !! "status" = Some (VString "cancelled")
      /\ d' !! "paymentStatus" = Some (VString "refunded")
      /\ d' !! "cancelledAt" = Some (VTimestamp now)
      /\ d' !! "cancellationReason"
         = Some (VString "Refund requested by patient")
      /\ d' !! "amount" = d !! "amount"
      /\ (forall f : string,
            f ∉ ["paymentStatus"; "status"; "cancelledAt";
                 "cancellationReason"; "updatedAt"] ->
            d' !! f = d !! f))
  /\ Confirm (refundMessage Number_toString appointment) true
       ∈ dialogs (handleRefund Number_toString appointment true now s)
  /\ (amount appointment = 200%float ->
        refundMessage Number_toString appointment
        = "Refund R" +:+ Number_toString 200%float +:+ "?" +:+ nl +:+ nl
          +:+ "Note: A 10% cancellation fee (R20.00) will be deducted."
          +:+ nl +:+ "Refund amount: R180.00").
Proof.
  intros Hd. split_and!.
  - rewrite (refund_docs _ _ d) by done.
    eexists. split; [by rewrite lookup_insert_eq|]. split_and!.
    + field_written NoDup_refundData (Lit (VString "cancelled")).
    + field_written NoDup_refundData (Lit (VString "refunded")).
    + field_written NoDup_refundData ServerTimestamp.
    + field_written NoDup_refundData
        (Lit (VString "Refund requested by patient")).
    + apply apply_update_other. compute_done.
    + intros f Hf. by apply apply_update_other.
  - unfold handleRefund. cbn [negb show docs].
    rewrite (updateDoc_Some _ _ _ _ d) by done.
    cbn [show dialogs setDocs].
    apply elem_of_app. left. apply elem_of_app. right. apply list_elem_of_here.
  - intros H. unfold refundMessage.
    destruct (refund_200 appointment H) as [-> ->]. rewrite H. reflexivity.
Qed.

(** Answering "Cancel" in the refund dialog writes nothing and shows no
    further dialog. *)
Lemma refund_refused (appointment : Appointment) (now : Timestamp)
    (s : State) :
  handleRefund Number_toString appointment false now s
  = show (Confirm (refundMessage Number_toString appointment) false) s.
Proof. done. Qed.

(** A refund whose write fails is reported and stores nothing. *)
Lemma refund_missing_document (appointment : Appointment)
    (now : Timestamp) (s : State) :
  docs s !! id appointment = None ->
  docs (handleRefund Number_toString appointment true now s) = docs s
  /\ Alert "Failed to process refund"
       ∈ dialogs (handleRefund Number_toString appointment true now s).
Proof.
  intros Hd. unfold handleRefund. cbn [negb show docs].
  rewrite updateDoc_None by done. split; [done|].
  cbn [show dialogs]. apply elem_of_app. right. apply list_elem_of_here.
Qed.

(** C10. [handleRefund] checks nothing about the appointment: whatever its
    status and payment status, a confirmed refund writes status "cancelled"
    and payment status "refunded".  Only the "Process Refund" button is
    conditional, shown exactly for a paid appointment that is not
    cancelled. *)
Theorem refund_has_no_precondition
    (appointment : Appointment) (s : State) (d : gmap string Value)
    (now : Timestamp) :
  docs s !! id appointment = Some d ->
  (exists d',
      docs (handleRefund Number_toString appointment true now s)
        !! id appointment = Some d'
      /\ d' !! "status" = Some (VString "cancelled")
      /\ d' !! "paymentStatus" = Some (VString "refunded"))
  /\ (showProcessRefund appointment = true
      <-> paymentStatus appointment = PayPaid
          /\ status appointment <> StCancelled).
Proof.
  intros Hd. split.
  - rewrite (refund_docs _ _ d) by done.
    eexists. split; [by rewrite lookup_insert_eq|]. split.
    + field_written NoDup_refundData (Lit (VString "cancelled")).
    + field_written NoDup_refundData (Lit (VString "refunded")).
  - unfold showProcessRefund.
    rewrite andb_true_iff, negb_true_iff.
    assert (PaymentStatus_eqb (paymentStatus appointment) PayPaid = true
            <-> paymentStatus appointment = PayPaid) as ->
      by (destruct (paymentStatus appointment); cbn; split; congruence).
    assert (Status_eqb (status appointment) StCancelled = false
            <-> status appointment <> StCancelled) as ->
      by (destruct (status appointment); cbn; split; congruence).
    done.
Qed.

End RefundFacts.

End LifecycleFacts.

(* --------------------------------------------------------------------- *)
(** ** The sortable table *)
(* --------------------------------------------------------------------- *)

Section StringOrder.

Lemma ascii_compare_refl c : Ascii.compare c c = Eq.
Proof. apply N.compare_refl. Qed.

Lemma string_compare_refl s : String.compare s s = Eq.
Proof.
  induction s as [|c s IH]; [done|]. cbn. by rewrite ascii_compare_refl.
Qed.

Lemma ascii_compare_lt_trans a b c :
  Ascii.compare a b = Lt -> Ascii.compare b c = Lt -> Ascii.compare a c = Lt.
Proof.
  unfold Ascii.compare. rewrite !N.compare_lt_iff. lia.
Qed.

Lemma string_compare_lt_trans s1 s2 s3 :
  String.compare s1 s2 = Lt -> String.compare s2 s3 = Lt ->
  String.compare s1 s3 = Lt.
Proof.
  revert s2 s3. induction s1 as [|a s1 IH]; intros [|b s2] [|c s3]; cbn;
    try done.
  destruct (Ascii.compare a b) eqn:Eab; [|  |done].
  - apply Ascii.compare_eq_iff in Eab as ->.
    destruct (Ascii.compare b c); [apply IH|done|done].
  - intros _. destruct (Ascii.compare b c) eqn:Ebc; [| |done].
    + apply Ascii.compare_eq_iff in Ebc as <-. by rewrite Eab.
    + by rewrite (ascii_compare_lt_trans a b c).
Qed.

Lemma string_ltb_lt s t : String.ltb s t = true <-> String.compare s t = Lt.
Proof. unfold String.ltb. destruct (String.compare s t); split; congruence. Qed.

Lemma string_leb_trans s1 s2 s3 :
  String.leb s1 s2 = true -> String.leb s2 s3 = true ->
  String.leb s1 s3 = true.
Proof.
  unfold String.leb.
  destruct (String.compare s1 s2) eqn:E12; [| |done].
  - apply String.compare_eq_iff in E12 as ->. done.
  - destruct (String.compare s2 s3) eqn:E23; [| |done].
    + apply String.compare_eq_iff in E23 as <-. by rewrite E12.
    + by rewrite (string_compare_lt_trans s1 s2 s3).
Qed.

Lemma string_compare_gt_lt s t :
  String.compare s t = Gt <-> String.compare t s = Lt.
Proof.
  rewrite (String.compare_antisym t s).
  destruct (String.compare s t); cbn; split; congruence.
Qed.

End StringOrder.

Section SortFacts.
Context {A : Type} (cmp : A -> A -> Z).
Import JsArray.

Lemma insert_Permutation x l : insert cmp x l ≡ₚ x :: l.
Proof.
  induction l as [|y l IH]; [done|]. cbn [insert].
  destruct (0 <? cmp x y); [|done].
  rewrite IH. apply Permutation_swap.
Qed.

Lemma sort_Permutation l : sort cmp l ≡ₚ l.
Proof.
  induction l as [|x l IH]; [done|]. cbn [sort].
  by rewrite insert_Permutation, IH.
Qed.

(** An element only moves past elements that do not satisfy [p] together
    with it, so the elements satisfying [p] keep their order. *)
Lemma insert_filter (p : A -> bool) x l :
  (forall y, p x = true -> p y = true -> cmp x y <= 0) ->
  List.filter p (insert cmp x l) = List.filter p (x :: l).
Proof.
  intros Hp. induction l as [|y l IH]; [done|]. cbn [insert].
  destruct (Z.ltb_spec 0 (cmp x y)) as [Hgt|Hle]; [|done].
  cbn [List.filter] in *. rewrite IH.
  destruct (p x) eqn:Px, (p y) eqn:Py; try done.
  specialize (Hp y eq_refl Py). lia.
Qed.

Lemma sort_filter (p : A -> bool) l :
  (forall x y, p x = true -> p y = true -> cmp x y <= 0) ->
  List.filter p (sort cmp l) = List.filter p l.
Proof.
  intros Hp. induction l as [|x l IH]; [done|]. cbn [sort].
  rewrite insert_filter by (intros y; apply Hp).
  cbn [List.filter]. by rewrite IH.
Qed.

Context (le : A -> A -> Prop).
Hypothesis le_trans : forall a b c, le a b -> le b c -> le a c.
Hypothesis cmp_le : forall a b, cmp a b <= 0 -> le a b.
Hypothesis cmp_gt : forall a b, 0 < cmp a b -> le b a.

Lemma insert_sorted x l :
  StronglySorted le l -> StronglySorted le (insert cmp x l).
Proof.
  induction l as [|y l IH]; intros Hs.
  - cbn. by repeat constructor.
  - apply StronglySorted_inv in Hs as [Hs Hy]. cbn [insert].
    destruct (Z.ltb_spec 0 (cmp x y)) as [Hgt|Hle].
    + constructor; [by apply IH|].
      rewrite insert_Permutation. constructor; [by apply cmp_gt|done].
    + constructor; [by constructor|].
      constructor; [by apply cmp_le|].
      eapply Forall_impl; [exact Hy|]. intros z Hz.
      apply (le_trans x y z); [by apply cmp_le|done].
Qed.

Lemma sort_sorted l : StronglySorted le (sort cmp l).
Proof.
  induction l as [|x l IH]; [constructor|]. by apply insert_sorted.
Qed.

End SortFacts.

Section SortExt.
Context {A : Type} (cmp cmp' : A -> A -> Z).
Import JsArray.

Lemma insert_ext x l :
  (forall y, y ∈ l -> cmp x y = cmp' x y) ->
  insert cmp x l = insert cmp' x l.
Proof.
  induction l as [|y l IH]; intros H; [done|]. cbn [insert].
  rewrite (H y) by apply list_elem_of_here.
  rewrite IH; [done|]. intros z Hz. apply H. by apply list_elem_of_further.
Qed.

(** [sort] only consults the comparator on pairs of elements of the list. *)
Lemma sort_ext l :
  (forall x y, x ∈ l -> y ∈ l -> cmp x y = cmp' x y) ->
  sort cmp l = sort cmp' l.
Proof.
  induction l as [|x l IH]; intros H; [done|]. cbn [sort].
  rewrite IH.
  - apply insert_ext. intros y Hy. rewrite sort_Permutation in Hy.
    apply H; [apply list_elem_of_here|by apply list_elem_of_further].
  - intros y z Hy Hz. apply H; by apply list_elem_of_further.
Qed.

End SortExt.


Section TableFacts.
Import AppointmentList.
Context {A K : Type} (get : K -> A -> JsValue).

Lemma compareFn_defined (c : SortConfig) a b :
  get (key c) a <> JsUndefined -> get (key c) b <> JsUndefined ->
  compareFn get c a b = compare_keys get c a b.
Proof.
  intros Ha Hb. unfold compareFn, compare_keys, key_string.
  destruct (get (key c) a) as [|s]; [done|].
  destruct (get (key c) b) as [|t]; [done|].
  cbn [js_lt]. unfold String.ltb. rewrite (String.compare_antisym s).
  destruct (String.compare t s), (direction c); reflexivity.
Qed.

Lemma ordered_trans dir k a b c :
  ordered get dir k a b -> ordered get dir k b c -> ordered get dir k a c.
Proof.
  destruct dir; cbn; intros H1 H2; eapply string_leb_trans; eauto.
Qed.

Lemma compare_keys_le k dir a b :
  compare_keys get {| key := k; direction := dir |} a b <= 0 ->
  ordered get dir k a b.
Proof.
  unfold compare_keys. cbn [key direction]. unfold ordered, String.leb.
  rewrite (String.compare_antisym (key_string get k a)).
  destruct (String.compare (key_string get k b) (key_string get k a)), dir;
    cbn; intros; (done || lia).
Qed.

Lemma compare_keys_gt k dir a b :
  0 < compare_keys get {| key := k; direction := dir |} a b ->
  ordered get dir k b a.
Proof.
  unfold compare_keys. cbn [key direction]. unfold ordered, String.leb.
  rewrite (String.compare_antisym (key_string get k a)).
  destruct (String.compare (key_string get k b) (key_string get k a)), dir;
    cbn; intros; (done || lia).
Qed.

Lemma compare_keys_same k dir v a b :
  String.eqb (key_string get k a) v = true ->
  String.eqb (key_string get k b) v = true ->
  compare_keys get {| key := k; direction := dir |} a b <= 0.
Proof.
  intros Ha%String.eqb_eq Hb%String.eqb_eq.
  unfold compare_keys. cbn [key direction].
  rewrite Ha, Hb, string_compare_refl. done.
Qed.

(** On rows that all have the field under [k], the table is a stable sort
    of the rows by the strings under [k]. *)
Lemma sortedAppointments_defined (rows : list A) (k : K) (dir : Direction) :
  all_defined get k rows ->
  let sorted :=
    sortedAppointments get rows (Some {| key := k; direction := dir |}) in
  sorted ≡ₚ rows
  /\ StronglySorted (ordered get dir k) sorted
  /\ (forall v : string,
        List.filter (fun a => String.eqb (key_string get k a) v) sorted
        = List.filter (fun a => String.eqb (key_string get k a) v) rows).
Proof.
  intros Hdef. cbn zeta. unfold sortedAppointments.
  rewrite (sort_ext _ (compare_keys get {| key := k; direction := dir |})).
  2:{ intros x y Hx Hy. unfold all_defined in Hdef.
      rewrite Forall_forall in Hdef. apply compareFn_defined; by apply Hdef. }
  split_and!.
  - apply sort_Permutation.
  - apply sort_sorted.
    + apply ordered_trans.
    + apply compare_keys_le.
    + apply compare_keys_gt.
  - intros v. apply sort_filter. intros x y. apply compare_keys_same.
Qed.

(** As soon as one of the two compared fields is absent the comparator
    answers 0, whatever the other one is. *)
Lemma compareFn_undefined (c : SortConfig) a b :
  get (key c) a = JsUndefined \/ get (key c) b = JsUndefined ->
  compareFn get c a b = 0.
Proof.
  unfold compareFn. intros [-> | ->]; cbn [js_lt];
    by destruct (get (key c) _).
Qed.

End TableFacts.

Section DashboardTables.
Import AppointmentList.




(** The earlier copy of the table: every clickable header sorts the rows
    it is given, whose [userName] the caller has filled in. *)
Lemma earlier_sort_by_header
    (users : list EarlierDashboard.AppUser)
    (appointments : list EarlierDashboard.Appointment)
    (k : EarlierDashboard.SortKeys) (dir : Direction) :
  k ∈ EarlierDashboard.headers ->
  let rows := EarlierDashboard.listRows users appointments in
  let sorted :=
    EarlierDashboard.sortedAppointments rows
      (Some {| key := k; direction := dir |}) in
  sorted ≡ₚ rows
  /\ StronglySorted (ordered EarlierDashboard.get dir k) sorted
  /\ (forall v : string,
        List.filter
          (fun a => String.eqb (key_string EarlierDashboard.get k a) v)
          sorted
        = List.filter
            (fun a => String.eqb (key_string EarlierDashboard.get k a) v)
            rows).
Proof.
  intros Hk. apply sortedAppointments_defined.
  apply Forall_forall. intros a Ha.
  unfold EarlierDashboard.listRows in Ha.
  apply list_elem_of_In, in_map_iff in Ha as (a0 & <- & _).
  unfold EarlierDashboard.headers in Hk.
  rewrite !elem_of_cons, elem_of_nil in Hk.
  destruct Hk as [->|[->|[->|[->|[]]]]]; done.
Qed.

End DashboardTables.

(* --------------------------------------------------------------------- *)
(** ** The figures of the refund dialog *)
(* --------------------------------------------------------------------- *)

Section NumberFacts.
Import JsNumber.

Lemma fixed_round_exact m e f :
  0 <= e -> fixed_round m e f = Z.pos m * 2 ^ e * 10 ^ Z.of_nat f.
Proof.
  intros He. unfold fixed_round.
  destruct (Z.leb_spec 0 e); lia.
Qed.

Lemma fixed_round_nearest m e f :
  e < 0 ->
  let D := 2 ^ (- e) in
  let n := fixed_round m e f in
  - D <= 2 * (D * n) - 2 * (Z.pos m * 10 ^ Z.of_nat f) <= D.
Proof.
  intros He D n. subst n. unfold fixed_round.
  destruct (Z.leb_spec 0 e); [lia|]. fold D.
  assert (HD : 0 < D) by (apply Z.pow_pos_nonneg; lia).
  set (num := Z.pos m * 10 ^ Z.of_nat f).
  pose proof (Z.div_mod (2 * num + D) (2 * D) ltac:(lia)) as Hdm.
  pose proof (Z.mod_pos_bound (2 * num + D) (2 * D) ltac:(lia)) as Hr.
  set (q := (2 * num + D) / (2 * D)) in *.
  set (r := (2 * num + D) mod (2 * D)) in *.
  nia.
Qed.

Lemma shown_units_nearest x u :
  shown_units x 2 = Some u ->
  exists v, float_value x = Some v
            /\ (Qabs ((u # 100) - v) <= 1 # 200)%Q.
Proof.
  unfold shown_units, float_value.
  destruct (Prim2SF x) as [sg| | |sg m e]; try done.
  - intros [= <-]. exists 0%Q. split; [done|]. by vm_compute.
  - destruct (at_least_1e21 m e); [done|]. intros [= <-].
    eexists. split; [reflexivity|].
    destruct (Z.leb_spec 0 e) as [He|He].
    + rewrite fixed_round_exact by done.
      unfold Qle, Qabs, Qminus, Qplus, Qopp, inject_Z. cbn [Qnum Qden].
      change (10 ^ Z.of_nat 2) with 100.
      destruct sg; lia.
    + pose proof (fixed_round_nearest m e 2 He) as Hn. cbn zeta in Hn.
      change (10 ^ Z.of_nat 2) with 100 in Hn.
      assert (HD : 0 < 2 ^ (- e)) by (apply Z.pow_pos_nonneg; lia).
      unfold Qle, Qabs, Qminus, Qplus, Qopp. cbn [Qnum Qden].
      rewrite Pos2Z.inj_mul, Z2Pos.id by done.
      set (D := 2 ^ (- e)) in *. set (n := fixed_round m e 2) in *.
      destruct sg; lia.
Qed.

Lemma fixed_round_nonneg m e f : 0 <= fixed_round m e f.
Proof.
  unfold fixed_round. destruct (Z.leb_spec 0 e).
  - assert (0 <= 2 ^ e) by (apply Z.pow_nonneg; lia).
    assert (0 <= 10 ^ Z.of_nat f) by (apply Z.pow_nonneg; lia). nia.
  - assert (0 < 2 ^ (- e)) by (apply Z.pow_pos_nonneg; lia).
    assert (0 <= 10 ^ Z.of_nat f) by (apply Z.pow_nonneg; lia).
    apply Z.div_pos; nia.
Qed.

Section ToFixedFacts.
Variable Number_toString : float -> string.

(** The text of [toFixed]: the sign, then the digits of the shown integer
    with the decimal point placed. *)
Lemma toFixed_shown x f u :
  shown_units x f = Some u ->
  toFixed Number_toString x f = sign_of x +:+ fixed_digits (Z.abs u) f.
Proof.
  unfold shown_units, toFixed, sign_of.
  destruct (Prim2SF x) as [sg| | |sg m e]; try done.
  - by intros [= <-].
  - destruct (at_least_1e21 m e); [done|]. intros [= <-].
    pose proof (fixed_round_nonneg m e f).
    destruct sg; do 2 f_equal; lia.
Qed.

End ToFixedFacts.


End NumberFacts.

Section RefundDisplay.
Import JsNumber Lifecycle.
Variable Number_toString : float -> string.


End RefundDisplay.


(* --------------------------------------------------------------------- *)
(** ** Worked instances *)
(* --------------------------------------------------------------------- *)


(** Approving the pending booking with the note "ok". *)
Lemma approve_pending_scenario_witness :
  Lifecycle.selectedAppointment (Samples.state (Some Samples.booked) "ok")
  = Some Samples.booked
  /\ status Samples.booked = StPending
  /\ confirmedAt Samples.booked = None
  /\ Lifecycle.adminNotes (Samples.state (Some Samples.booked) "ok") = "ok"
  /\ Lifecycle.docs (Samples.state (Some Samples.booked) "ok")
       !! id Samples.booked = Some (Samples.docOf Samples.booked)
  /\ exists d',
       Lifecycle.docs
         (Lifecycle.handleApprove Samples.server_time
            (Samples.state (Some Samples.booked) "ok"))
         !! id Samples.booked = Some d'
       /\ d' !! "status" = Some (Firestore.VString "confirmed")
       /\ d' !! "confirmedAt" = Some (Firestore.VTimestamp Samples.server_time)
       /\ d' !! "adminNotes" = Some (Firestore.VString "ok")
       /\ d' !! "amount" = Some (Firestore.VNumber 500%float).
Proof.
  assert (Hd : Lifecycle.docs (Samples.state (Some Samples.booked) "ok")
                 !! id Samples.booked = Some (Samples.docOf Samples.booked))
    by reflexivity.
  split; [reflexivity|]. split; [reflexivity|]. split; [reflexivity|].
  split; [reflexivity|]. split; [exact Hd|].
  destruct (approve_pending_scenario
              (Samples.state (Some Samples.booked) "ok") Samples.booked
              (Samples.docOf Samples.booked) Samples.server_time
              eq_refl eq_refl eq_refl eq_refl Hd)
    as (d' & H1 & H2 & H3 & H4 & _ & Hf & _).
  exists d'. split; [exact H1|]. split; [exact H2|]. split; [exact H3|].
  split; [exact H4|].
  rewrite (Hf "amount"); [reflexivity|].
  rewrite !not_elem_of_cons. repeat split; try discriminate.
  apply not_elem_of_nil.
Defined.

(** Declining the pending booking: a dismissed prompt, then a reason. *)
Lemma decline_requires_reason_witness :
  Lifecycle.selectedAppointment (Samples.state (Some Samples.booked) "")
  = Some Samples.booked
  /\ "No slot available" <> ""
  /\ Lifecycle.docs (Samples.state (Some Samples.booked) "")
       !! id Samples.booked = Some (Samples.docOf Samples.booked)
  /\ Lifecycle.docs
       (Lifecycle.handleDecline None Samples.server_time
          (Samples.state (Some Samples.booked) ""))
     = Lifecycle.docs (Samples.state (Some Samples.booked) "")
  /\ exists d',
       Lifecycle.docs
         (Lifecycle.handleDecline (Some "No slot available")
            Samples.server_time (Samples.state (Some Samples.booked) ""))
         !! id Samples.booked = Some d'
       /\ d' !! "status" = Some (Firestore.VString "cancelled")
       /\ d' !! "cancellationReason"
          = Some (Firestore.VString "No slot available").
Proof.
  assert (Hd : Lifecycle.docs (Samples.state (Some Samples.booked) "")
                 !! id Samples.booked = Some (Samples.docOf Samples.booked))
    by reflexivity.
  assert (Hr : "No slot available" <> "") by discriminate.
  destruct (decline_requires_reason
              (Samples.state (Some Samples.booked) "") Samples.booked
              Samples.server_time eq_refl) as [Hno Hyes].
  split; [reflexivity|]. split; [exact Hr|]. split; [exact Hd|].
  split; [exact (proj2 (Hno None (or_introl eq_refl)))|].
  destruct (Hyes "No slot available" (Samples.docOf Samples.booked) Hr Hd)
    as (d' & H1 & H2 & _ & H3 & _).
  exists d'. split; [exact H1|]. split; [exact H2|exact H3].
Defined.

(** Completing the visit that is already completed. *)
Lemma mark_completed_idempotent_witness :
  Lifecycle.docs (Samples.state None "") !! id Samples.done_visit
  = Some (Samples.docOf Samples.done_visit)
  /\ Samples.docOf Samples.done_visit !! "status"
     = Some (Firestore.VString "completed")
  /\ exists d',
       Lifecycle.docs
         (Lifecycle.handleMarkCompleted (id Samples.done_visit) true
            Samples.server_time (Samples.state None ""))
         !! id Samples.done_visit = Some d'
       /\ d' !! "status" = Some (Firestore.VString "completed")
       /\ d' !! "adminNotes"
          = Some (Firestore.VString "follow up in 6 weeks").
Proof.
  assert (Hd : Lifecycle.docs (Samples.state None "") !! id Samples.done_visit
               = Some (Samples.docOf Samples.done_visit))
    by reflexivity.
  assert (Hs : Samples.docOf Samples.done_visit !! "status"
               = Some (Firestore.VString "completed"))
    by reflexivity.
  split; [exact Hd|]. split; [exact Hs|].
  destruct (mark_completed_idempotent (Samples.state None "")
              (id Samples.done_visit) (Samples.docOf Samples.done_visit)
              Samples.server_time Hd Hs)
    as (d' & H1 & H2 & _ & Hf & _).
  exists d'. split; [exact H1|]. split; [exact H2|].
  rewrite (Hf "adminNotes"); [reflexivity|discriminate].
Defined.

(** Refunding the confirmed, paid booking of R200. *)
Lemma refund_write_witness :
  Lifecycle.docs (Samples.state None "") !! id Samples.confirmed_paid
  = Some (Samples.docOf Samples.confirmed_paid)
  /\ amount Samples.confirmed_paid = 200%float
  /\ (exists d',
        Lifecycle.docs
          (Lifecycle.handleRefund Samples.integral_toString
             Samples.confirmed_paid true Samples.server_time
             (Samples.state None ""))
          !! id Samples.confirmed_paid = Some d'
        /\ d' !! "status" = Some (Firestore.VString "cancelled")
        /\ d' !! "paymentStatus" = Some (Firestore.VString "refunded")
        /\ d' !! "amount" = Some (Firestore.VNumber 200%float))
  /\ Lifecycle.refundMessage Samples.integral_toString
       Samples.confirmed_paid
     = "Refund R200?" +:+ Lifecycle.nl +:+ Lifecycle.nl
       +:+ "Note: A 10% cancellation fee (R20.00) will be deducted."
       +:+ Lifecycle.nl +:+ "Refund amount: R180.00".
Proof.
  assert (Hd : Lifecycle.docs (Samples.state None "")
                 !! id Samples.confirmed_paid
               = Some (Samples.docOf Samples.confirmed_paid))
    by reflexivity.
  destruct (refund_write Samples.integral_toString Samples.confirmed_paid
              (Samples.state None "") (Samples.docOf Samples.confirmed_paid)
              Samples.server_time Hd)
    as ((d' & H1 & H2 & H3 & _ & _ & H4 & _) & _ & Hmsg).
  split; [exact Hd|]. split; [reflexivity|]. split.
  - exists d'. split; [exact H1|]. split; [exact H2|]. split; [exact H3|].
    rewrite H4. reflexivity.
  - rewrite (Hmsg eq_refl). vm_compute; reflexivity.
Defined.

(** Refunding the declined, never paid booking, for which the button is
    not shown. *)
Lemma refund_has_no_precondition_witness :
  Lifecycle.docs (Samples.state None "") !! id Samples.declined
  = Some (Samples.docOf Samples.declined)
  /\ Lifecycle.showProcessRefund Samples.declined = false
  /\ exists d',
       Lifecycle.docs
         (Lifecycle.handleRefund Samples.integral_toString Samples.declined
            true Samples.server_time (Samples.state None ""))
         !! id Samples.declined = Some d'
       /\ d' !! "status" = Some (Firestore.VString "cancelled")
       /\ d' !! "paymentStatus" = Some (Firestore.VString "refunded").
Proof.
  assert (Hd : Lifecycle.docs (Samples.state None "") !! id Samples.declined
               = Some (Samples.docOf Samples.declined))
    by reflexivity.
  split; [exact Hd|]. split; [reflexivity|].
  exact (proj1 (refund_has_no_precondition Samples.integral_toString
                  Samples.declined (Samples.state None "")
                  (Samples.docOf Samples.declined) Samples.server_time Hd)).
Defined.



(* ===================================================================== *)
(** * Further properties *)
(* ===================================================================== *)

(* --------------------------------------------------------------------- *)
(** ** Views and counts *)
(* --------------------------------------------------------------------- *)

Section SearchFacts.
Import Views ViewSpec.






Lemma filter_sublist {A} (f : A -> bool) (l : list A) :
  List.filter f l `sublist_of` l.
Proof.
  induction l as [|x l IH]; [constructor|]. cbn.
  destruct (f x); by constructor.
Qed.

(** X2. Every view lists appointments in the order the subscription
    delivered them: the filters drop rows, and neither reorder nor repeat
    them. *)
Theorem view_is_sublist
    (appointments : list Appointment) (viewMode : ViewMode)
    (searchTerm : string) :
  filteredAppointments appointments viewMode searchTerm
    `sublist_of` appointments.
Proof.
  unfold filteredAppointments.
  assert (Hv : match viewMode with
               | VmPending => List.filter pendingFilter appointments
               | VmConfirmed => List.filter confirmedFilter appointments
               | _ => appointments
               end `sublist_of` appointments)
    by (destruct viewMode; (apply filter_sublist || done)).
  destruct (JsString.truthy searchTerm); [|done].
  etrans; [apply filter_sublist|done].
Qed.

Lemma toLowerCase_empty s : JsString.toLowerCase s = "" <-> s = "".
Proof. by destruct s. Qed.


End SearchFacts.

Section StatsFacts.
Import Views.

Lemma count_split {A} (f g h : A -> bool) (l : list A) :
  (forall a, f a = g a || h a) -> (forall a, g a && h a = false) ->
  length (List.filter f l)
  = (length (List.filter g l) + length (List.filter h l))%nat.
Proof.
  intros Hf Hd. induction l as [|a l IH]; [done|]. cbn.
  rewrite Hf. specialize (Hd a).
  destruct (g a), (h a); cbn in *; try done; lia.
Qed.

Lemma count_exclusive2 {A} (g h : A -> bool) (l : list A) :
  (forall a, g a && h a = false) ->
  (length (List.filter g l) + length (List.filter h l) <= length l)%nat.
Proof.
  intros Hd. induction l as [|a l IH]; [done|]. cbn. specialize (Hd a).
  destruct (g a), (h a); cbn in *; try done; lia.
Qed.

Lemma count_exclusive3 {A} (f g h : A -> bool) (l : list A) :
  (forall a, In a l -> f a && g a = false /\ f a && h a = false
                       /\ g a && h a = false) ->
  (length (List.filter f l) + length (List.filter g l)
   + length (List.filter h l) <= length l)%nat.
Proof.
  induction l as [|a l IH]; intros Hd; [done|].
  assert (Hl : forall b, In b l ->
                 f b && g b = false /\ f b && h b = false
                 /\ g b && h b = false) by (intros b Hb; apply Hd; by right).
  specialize (IH Hl). destruct (Hd a (or_introl eq_refl)) as (H1 & H2 & H3).
  cbn. destruct (f a), (g a), (h a); cbn in *; try done; lia.
Qed.

(** X4. The pending count is the number of appointments of status
    "pending" plus the number of those of another status that have no
    [confirmedAt]; the confirmed and the completed count never cover the
    same appointment; and when only pending appointments lack
    [confirmedAt], the three counts together stay within the number of
    appointments. *)
Theorem stats_counts (appointments : list Appointment) :
  pending (stats appointments)
  = (length (List.filter (fun a => Status_eqb (status a) StPending)
               appointments)
     + length (List.filter
                 (fun a => negb (Status_eqb (status a) StPending)
                           && is_null (confirmedAt a))
                 appointments))%nat
  /\ (confirmed (stats appointments) + completed (stats appointments)
      <= length appointments)%nat
  /\ ((forall a, In a appointments ->
                 confirmedAt a = None -> status a = StPending) ->
      (pending (stats appointments) + confirmed (stats appointments)
       + completed (stats appointments) <= length appointments)%nat).
Proof.
  split_and!.
  - cbn [stats pending]. apply count_split.
    + intros a. unfold pendingFilter.
      by destruct (Status_eqb (status a) StPending), (is_null (confirmedAt a)).
    + intros a. by destruct (Status_eqb (status a) StPending).
  - cbn [stats confirmed completed].
    apply count_exclusive2. intros a. unfold confirmedFilter.
    by destruct (status a).
  - intros Hinv. cbn [stats pending confirmed completed].
    apply count_exclusive3. intros a Ha. specialize (Hinv a Ha).
    unfold pendingFilter, confirmedFilter.
    destruct (confirmedAt a) as [t|].
    + by destruct (status a).
    + rewrite Hinv; done.
Qed.

End StatsFacts.

(* --------------------------------------------------------------------- *)
(** ** The shape of the grid and the month buttons *)
(* --------------------------------------------------------------------- *)

Section GridShape.
Import JsDate Calendar.


(** X6. For a month whose year is outside 0..99, a click on a cell of
    the grid selects its day when the day lies in the displayed month and
    leaves the selection as it was otherwise. *)
Theorem day_click (fuel : nat) (currentDate day : Date) (days : list Date)
    (selectedDate : option Date) :
  getFullYear currentDate < 0 \/ 99 < getFullYear currentDate ->
  (6 <= fuel)%nat ->
  daysInMonth fuel currentDate = Some days ->
  day ∈ days ->
  (in_target_month currentDate day
   /\ onDayClick currentDate day selectedDate = Some day)
  \/ (~ in_target_month currentDate day
      /\ onDayClick currentDate day selectedDate = selectedDate).
Proof.
  intros Hy Hfuel Hdays Hin.
  assert (Hnear : isCurrentMonth currentDate day = true
                  <-> in_target_month currentDate day).
  { rewrite daysInMonth_seq in Hdays by done. injection Hdays as <-.
    apply elem_of_seqZ in Hin.
    pose proof (monthLength_range (isLeapYear (getFullYear currentDate))
                  (getMonth currentDate)) as Hlen.
    apply isCurrentMonth_near. unfold padding, WeekDay in Hin. zlia. }
  unfold onDayClick.
  destruct (isCurrentMonth currentDate day) eqn:E.
  - left. split; [by apply Hnear|done].
  - right. split; [|done]. intros Ht. apply Hnear in Ht. congruence.
Qed.




End GridShape.

(* --------------------------------------------------------------------- *)
(** ** ISO dates *)
(* --------------------------------------------------------------------- *)

Section IsoFacts.
Import JsDate JsTime.

Lemma digit_inj a b :
  0 <= a <= 9 -> 0 <= b <= 9 -> digit a = digit b -> a = b.
Proof.
  intros Ha Hb H. unfold digit in H. apply (f_equal N_of_ascii) in H.
  rewrite !N_ascii_embedding in H by lia. lia.
Qed.

Lemma digit_not_sign a :
  0 <= a <= 9 -> digit a <> "-"%char /\ digit a <> "+"%char.
Proof.
  intros Ha. unfold digit.
  split; intros H; apply (f_equal N_of_ascii) in H;
    rewrite N_ascii_embedding in H by lia; cbn in H; lia.
Qed.

Lemma pad_app_inj w n n' (s s' : string) :
  0 <= n < 10 ^ Z.of_nat w -> 0 <= n' < 10 ^ Z.of_nat w ->
  pad w n +:+ s = pad w n' +:+ s' -> n = n' /\ s = s'.
Proof.
  revert n n'. induction w as [|w IH]; intros n n' Hn Hn' H.
  - cbn in *. split; [lia|done].
  - cbn [pad String.append] in H.
    replace (Z.of_nat (S w)) with (Z.of_nat w + 1) in * by lia.
    rewrite Z.pow_add_r in Hn, Hn' by lia.
    assert (Hp : 0 < 10 ^ Z.of_nat w) by (apply Z.pow_pos_nonneg; lia).
    set (p := 10 ^ Z.of_nat w) in *.
    change (10 ^ 1) with 10 in Hn, Hn'.
    injection H as Hd Ht.
    assert (Hq : forall m, 0 <= m < p * 10 -> 0 <= m / p <= 9).
    { intros m Hm. split; [apply Z.div_pos; lia|].
      apply Z.lt_succ_r. apply Z.div_lt_upper_bound; lia. }
    apply digit_inj in Hd; [| by apply Hq..].
    apply IH in Ht as [Hm ->]; [| apply Z.mod_pos_bound; lia..].
    split; [|done].
    rewrite (Z.div_mod n p), (Z.div_mod n' p) by lia. by rewrite Hd, Hm.
Qed.

Lemma append_cons (c : ascii) (s t : string) :
  String c s +:+ t = String c (s +:+ t).
Proof. reflexivity. Qed.

Lemma append_empty (s : string) : s +:+ "" = s.
Proof.
  induction s as [|c s IH]; [done|]. by rewrite append_cons, IH.
Qed.

Lemma String_tail_eq (c c' : ascii) (s s' : string) :
  String c s = String c' s' -> s = s'.
Proof. by intros [= _ ->]. Qed.

Lemma yearText_app_inj y y' (s s' : string) :
  -999999 <= y <= 999999 -> -999999 <= y' <= 999999 ->
  yearText y +:+ s = yearText y' +:+ s' -> y = y' /\ s = s'.
Proof.
  intros Hy Hy'. unfold yearText.
  assert (Hhead : forall n r c r',
             0 <= n <= 9999 -> c = "-"%char \/ c = "+"%char ->
             pad 4 n +:+ r <> String c r').
  { intros n r c r' Hn Hc E. cbn [pad String.append] in E.
    injection E as E _. change (10 ^ Z.of_nat 3) with 1000 in E.
    destruct (digit_not_sign (n / 1000)) as [H1 H2]; [zlia|].
    destruct Hc as [-> | ->]; done. }
  destruct ((0 <=? y) && (y <=? 9999)) eqn:E;
    destruct ((0 <=? y') && (y' <=? 9999)) eqn:E'; intros Heq.
  - apply andb_prop in E as [?%Z.leb_le ?%Z.leb_le].
    apply andb_prop in E' as [?%Z.leb_le ?%Z.leb_le].
    apply pad_app_inj in Heq; [done|cbn; lia..].
  - apply andb_prop in E as [?%Z.leb_le ?%Z.leb_le].
    exfalso. destruct (y' <? 0); cbn [String.append] in Heq;
      (eapply Hhead; [|..|exact Heq]; [lia|auto]).
  - apply andb_prop in E' as [?%Z.leb_le ?%Z.leb_le].
    exfalso. symmetry in Heq. destruct (y <? 0); cbn [String.append] in Heq;
      (eapply Hhead; [|..|exact Heq]; [lia|auto]).
  - apply andb_false_iff in E, E'.
    rewrite !Z.leb_gt in E, E'.
    destruct (Z.ltb_spec y 0), (Z.ltb_spec y' 0);
      cbn [String.append] in Heq; try discriminate Heq;
      apply String_tail_eq in Heq;
      (apply pad_app_inj in Heq as [Ha ->]; [split; [lia|done]|cbn; lia..]).
Qed.

Lemma valid_Day t : valid t = true -> -100000000 <= Day t <= 100000000.
Proof.
  unfold valid, Day, msPerDay. intros H%Z.leb_le. zlia.
Qed.

Lemma year_of_valid_day d :
  -100000000 <= d <= 100000000 -> -999999 <= YearFromTime d <= 999999.
Proof.
  intros Hd. pose proof (YearFromTime_spec d) as [H1 H2].
  pose proof (DayFromYear_bounds (YearFromTime d)).
  pose proof (DayFromYear_bounds (YearFromTime d + 1)). lia.
Qed.

(** Distinct days have distinct ISO dates. *)
Lemma isoDateOfDay_inj d d' :
  -100000000 <= d <= 100000000 -> -100000000 <= d' <= 100000000 ->
  isoDateOfDay d = isoDateOfDay d' -> d = d'.
Proof.
  intros Hd Hd' H. unfold isoDateOfDay in H.
  destruct (month_date_cases d) as (mn & Hmn & Hr & _ & Hdt).
  destruct (month_date_cases d') as (mn' & Hmn' & Hr' & _ & Hdt').
  pose proof (monthLength_range (isLeapYear (YearFromTime d)) mn).
  pose proof (monthLength_range (isLeapYear (YearFromTime d')) mn').
  apply yearText_app_inj in H as [Hy H]; [|by apply year_of_valid_day..].
  cbn [String.append] in H. apply String_tail_eq in H.
  apply pad_app_inj in H as [Hm H]; [|cbn; lia..].
  cbn [String.append] in H. apply String_tail_eq in H.
  rewrite <- (append_empty (pad 2 (DateFromTime d))) in H.
  rewrite <- (append_empty (pad 2 (DateFromTime d'))) in H.
  apply pad_app_inj in H as [Hdd _]; [|cbn; lia..].
  rewrite <- (MakeDay_of_fields d), <- (MakeDay_of_fields d').
  f_equal; [done|lia|done].
Qed.

Lemma Day_timeValue tz day :
  -720 <= tz <= 840 ->
  Day (timeValue tz day) = if 0 <? tz then day - 1 else day.
Proof.
  intros Htz. unfold Day, timeValue, UTC, msPerDay, msPerMinute.
  destruct (Z.ltb_spec 0 tz); zlia.
Qed.

Lemma Day_add_days t i : Day (t + i * msPerDay) = Day t + i.
Proof. unfold Day, msPerDay. zlia. Qed.

End IsoFacts.

(* --------------------------------------------------------------------- *)
(** ** Appointments by date *)
(* --------------------------------------------------------------------- *)

Section GroupingFacts.
Import CalendarCells.
Context {A : Type} (dateKeyOf : A -> option string) (entry : A -> A).

Lemma appointmentsByDate_snoc l a :
  appointmentsByDate dateKeyOf entry (l ++ [a])
  = match appointmentsByDate dateKeyOf entry l with
    | Some map => addToMap dateKeyOf entry map a
    | None => None
    end.
Proof. unfold appointmentsByDate. by rewrite foldl_app. Qed.

Lemma forDay_addToMap map a map' k :
  addToMap dateKeyOf entry map a = Some map' ->
  forDay map' k
  = forDay map k ++ (if has_key dateKeyOf k a then [entry a] else []).
Proof.
  unfold addToMap, has_key. destruct (dateKeyOf a) as [k'|]; [|done].
  intros [= <-]. unfold forDay.
  destruct (String.eqb_spec k' k) as [->|Hne].
  - destruct (map !! k) as [b|] eqn:E.
    + rewrite E. by rewrite lookup_insert_eq.
    + rewrite lookup_insert_eq. by rewrite lookup_insert_eq.
  - destruct (map !! k') as [b|] eqn:E.
    + rewrite E. rewrite lookup_insert_ne by done. by rewrite app_nil_r.
    + rewrite lookup_insert_eq. rewrite !lookup_insert_ne by done.
      by rewrite app_nil_r.
Qed.

Lemma filter_snoc (p : A -> bool) l a :
  List.filter p (l ++ [a]) = List.filter p l ++ (if p a then [a] else []).
Proof. rewrite List.filter_app. cbn. by destruct (p a). Qed.

End GroupingFacts.

Section GroupingTheorem.
Import CalendarCells.
Context {A : Type} (dateKeyOf : A -> option string) (entry : A -> A).

(** X8. When the key of every appointment can be computed, the map built
    from the appointments returns under each key the entries of the
    appointments with that key, in their order in the list, and nothing
    under a key no appointment has; when the key of one appointment cannot
    be computed, building the map fails. *)
Theorem appointments_by_date (appointments : list A) :
  (Forall (fun a => dateKeyOf a <> None) appointments ->
   exists map,
     appointmentsByDate dateKeyOf entry appointments = Some map
     /\ forall k : string,
          forDay map k
          = List.map entry (List.filter (has_key dateKeyOf k) appointments))
  /\ (Exists (fun a => dateKeyOf a = None) appointments ->
      appointmentsByDate dateKeyOf entry appointments = None).
Proof.
  induction appointments as [|a l IH] using rev_ind.
  - split.
    + intros _. exists ∅. split; [done|]. intros k. unfold forDay.
      by rewrite lookup_empty.
    + intros H. by apply Exists_nil in H.
  - destruct IH as [IH1 IH2]. rewrite appointmentsByDate_snoc. split.
    + intros H. apply Forall_app in H as [Hl Ha].
      rewrite Forall_singleton in Ha.
      destruct (IH1 Hl) as (map & -> & Hmap).
      destruct (addToMap dateKeyOf entry map a) as [map'|] eqn:E.
      * exists map'. split; [done|]. intros k.
        rewrite (forDay_addToMap _ _ _ _ _ _ E), Hmap, filter_snoc.
        rewrite List.map_app. by destruct (has_key dateKeyOf k a).
      * unfold addToMap in E. destruct (dateKeyOf a); [discriminate E|done].
    + intros H. apply Exists_app in H as [H|H].
      * by rewrite IH2.
      * apply Exists_cons in H as [H|H]; [|by apply Exists_nil in H].
        destruct (appointmentsByDate dateKeyOf entry l); [|done].
        unfold addToMap. by rewrite H.
Qed.

End GroupingTheorem.

Section CellFacts.
Import JsTime CalendarCells.

Lemma cellKey_shift tz day :
  -720 <= tz <= 840 -> valid (timeValue tz day) = true ->
  cellKey tz day = Some (isoDateOfDay (if 0 <? tz then day - 1 else day)).
Proof.
  intros Htz Hv. unfold cellKey, toISODate. rewrite Hv.
  by rewrite Day_timeValue.
Qed.

Lemma shifted_day_valid tz day :
  -720 <= tz <= 840 -> valid (timeValue tz day) = true ->
  -100000000 <= (if 0 <? tz then day - 1 else day) <= 100000000.
Proof.
  intros Htz Hv. rewrite <- Day_timeValue by done. by apply valid_Day.
Qed.

Lemma filter_map_ext {A} (p q : A -> bool) (l : list A) :
  (forall a, In a l -> p a = q a) -> List.filter p l = List.filter q l.
Proof. apply List.filter_ext_in. Qed.

(** X9. In a zone at a fixed offset from UTC, the cell of a civil day of
    the calendar of EnhancedAppointmentManagement.tsx shows the
    appointments whose timestamp falls, in UTC, on that day when the zone
    is at or behind UTC, and on the day before when the zone is ahead of
    UTC.  In a zone ahead of UTC an appointment at least that offset after
    local midnight is thus shown in the cell that follows its local
    date. *)
Theorem calendar_cell_appointments (tz : Z) (appointments : list Appointment)
    (day : JsDate.Date) :
  -720 <= tz <= 840 ->
  Forall (fun a => valid (appointmentDate a) = true) appointments ->
  valid (timeValue tz day) = true ->
  exists map shown,
    enhancedByDate appointments = Some map
    /\ appointmentsForDay tz map day = Some shown
    /\ shown
       = List.filter
           (fun a => Day (appointmentDate a)
                     =? (if 0 <? tz then day - 1 else day))
           appointments
    /\ (forall a : Appointment,
          In a appointments ->
          0 < tz ->
          tz * msPerMinute <= LocalTime tz (appointmentDate a) mod msPerDay ->
          (In a shown <-> Day (LocalTime tz (appointmentDate a)) = day - 1)).
Proof.
  intros Htz Hvalid Hv.
  destruct (appointments_by_date
              (fun app : Appointment => toISODate (appointmentDate app))
              (fun app => app) appointments) as [Hmap _].
  destruct Hmap as (map & Hmap & Hday).
  { eapply Forall_impl; [exact Hvalid|]. intros a Ha. cbn beta in *.
    unfold toISODate. by rewrite Ha. }
  pose proof (shifted_day_valid tz day Htz Hv) as Hs.
  assert (Hshown :
    forDay map (isoDateOfDay (if 0 <? tz then day - 1 else day))
    = List.filter
        (fun a => Day (appointmentDate a)
                  =? (if 0 <? tz then day - 1 else day))
        appointments).
  { rewrite Hday, List.map_id. apply filter_map_ext. intros a Ha.
    rewrite Forall_forall in Hvalid.
    assert (Hva : valid (appointmentDate a) = true)
      by (apply Hvalid; by apply list_elem_of_In).
    unfold has_key, toISODate. rewrite Hva.
    destruct (Z.eqb_spec (Day (appointmentDate a))
                (if 0 <? tz then day - 1 else day)) as [->|Hne].
    - by apply String.eqb_eq.
    - apply String.eqb_neq. intros E. apply Hne.
      apply isoDateOfDay_inj; [by apply valid_Day|done|done]. }
  exists map, (forDay map (isoDateOfDay (if 0 <? tz then day - 1 else day))).
  split; [exact Hmap|]. split.
  { unfold appointmentsForDay. by rewrite cellKey_shift. }
  split; [exact Hshown|].
  intros a Ha Hpos Hlate. rewrite Hshown, List.filter_In.
  destruct (Z.ltb_spec 0 tz); [|lia].
  rewrite Z.eqb_eq.
  assert (Day (LocalTime tz (appointmentDate a)) = Day (appointmentDate a))
    as ->.
  { revert Hlate. unfold Day, LocalTime, msPerDay, msPerMinute. zlia. }
  tauto.
Qed.

(** X10. In the two calendars of src/Layout.tsx and a zone at a fixed
    offset from UTC, the cell of a civil day shows the appointments whose
    [date] string is the ISO date of that day when the zone is at or
    behind UTC, and of the day before when the zone is ahead of UTC. *)
Theorem dashboard_cell_appointments (tz : Z)
    (users : list EarlierDashboard.AppUser)
    (earlier : list EarlierDashboard.Appointment)
    (admin : list AdminDashboard.Appointment) (day : JsDate.Date) :
  -720 <= tz <= 840 ->
  valid (timeValue tz day) = true ->
  let shownDate := isoDateOfDay (if 0 <? tz then day - 1 else day) in
  exists map1 map2,
    earlierByDate users earlier = Some map1
    /\ adminByDate admin = Some map2
    /\ appointmentsForDay tz map1 day
       = Some (List.map (EarlierDashboard.withUserName users)
                 (List.filter
                    (fun a => String.eqb (EarlierDashboard.date a) shownDate)
                    earlier))
    /\ appointmentsForDay tz map2 day
       = Some (List.filter
                 (fun a => String.eqb (AdminDashboard.date a) shownDate)
                 admin).
Proof.
  intros Htz Hv shownDate.
  destruct (appointments_by_date
              (fun app : EarlierDashboard.Appointment =>
                 Some (EarlierDashboard.date app))
              (EarlierDashboard.withUserName users) earlier) as [H1 _].
  destruct H1 as (map1 & Hmap1 & Hday1);
    [apply Forall_forall; by intros|].
  destruct (appointments_by_date
              (fun app : AdminDashboard.Appointment =>
                 Some (AdminDashboard.date app))
              (fun app => app) admin) as [H2 _].
  destruct H2 as (map2 & Hmap2 & Hday2);
    [apply Forall_forall; by intros|].
  exists map1, map2. split; [exact Hmap1|]. split; [exact Hmap2|].
  unfold appointmentsForDay. rewrite cellKey_shift by done.
  fold shownDate. rewrite Hday1, Hday2, List.map_id. done.
Qed.

End CellFacts.

(* --------------------------------------------------------------------- *)
(** ** Outcomes of the lifecycle handlers *)
(* --------------------------------------------------------------------- *)

Section LifecycleMore.
Import Firestore Lifecycle.

Ltac in_data :=
  repeat first [apply list_elem_of_here | apply list_elem_of_further].
Ltac field_written Hnd fv :=
  apply (apply_update_written _ _ _ _ fv); [apply Hnd | in_data].

Lemma handleDecline_written (s : State) (sel : Appointment)
    (d : gmap string Value) (reason : string) (now : Timestamp) :
  selectedAppointment s = Some sel ->
  docs s !! id sel = Some d ->
  reason <> "" ->
  handleDecline (Some reason) now s
  = setActionLoading false
      (setSelectedAppointment None
         (setAdminNotes ""
            (setShowApprovalModal false
               (setDocs
                  (<[id sel :=
                       apply_update now (declineData reason (adminNotes s)) d]>
                     (docs s))
                  (setActionLoading true
                     (show (Prompt declinePrompt (Some reason)) s)))))).
Proof.
  intros Hsel Hd Hr. unfold handleDecline. rewrite Hsel.
  destruct reason as [|c reason]; [done|]. cbn [JsString.truthy negb].
  cbn [setActionLoading show docs adminNotes].
  by rewrite (updateDoc_Some _ _ _ _ d) by done.
Qed.

Lemma handleApprove_written (s : State) (sel : Appointment)
    (d : gmap string Value) (now : Timestamp) :
  selectedAppointment s = Some sel ->
  docs s !! id sel = Some d ->
  handleApprove now s
  = setActionLoading false
      (setSelectedAppointment None
         (setAdminNotes ""
            (setShowApprovalModal false
               (setDocs
                  (<[id sel := apply_update now (approveData (adminNotes s)) d]>
                     (docs s))
                  (setActionLoading true s))))).
Proof.
  intros Hsel Hd. unfold handleApprove. rewrite Hsel.
  cbn [setActionLoading docs adminNotes].
  by rewrite (updateDoc_Some _ _ _ _ d) by done.
Qed.


Lemma docOf_status (a : Appointment) :
  Samples.docOf a !! "status"
  = Some (VString (Samples.status_str (status a))).
Proof. reflexivity. Qed.

Lemma docOf_confirmedAt (a : Appointment) :
  Samples.docOf a !! "confirmedAt"
  = Some (Samples.nullable_ts (confirmedAt a)).
Proof. reflexivity. Qed.

Lemma docOf_cancellationReason (a : Appointment) :
  Samples.docOf a !! "cancellationReason"
  = Some (Samples.nullable_str (cancellationReason a)).
Proof. reflexivity. Qed.

(** X11. When the document of the selected appointment is missing, so
    that the write fails, approving and declining leave the store, the
    selection, the modal and the note as they were, reset the loading flag
    and report the failure with an alert. *)
Theorem failed_write_keeps_modal (s : State) (sel : Appointment)
    (reason : string) (now : Timestamp) :
  selectedAppointment s = Some sel ->
  docs s !! id sel = None ->
  reason <> "" ->
  let approved := handleApprove now s in
  let declined := handleDecline (Some reason) now s in
  docs approved = docs s
  /\ docs declined = docs s
  /\ selectedAppointment approved = Some sel
  /\ selectedAppointment declined = Some sel
  /\ showApprovalModal approved = showApprovalModal s
  /\ showApprovalModal declined = showApprovalModal s
  /\ adminNotes approved = adminNotes s
  /\ adminNotes declined = adminNotes s
  /\ actionLoading approved = false
  /\ actionLoading declined = false
  /\ dialogs approved = dialogs s ++ [Alert "Failed to approve appointment"]
  /\ dialogs declined
     = dialogs s ++ [Prompt declinePrompt (Some reason);
                     Alert "Failed to decline appointment"].
Proof.
  intros Hsel Hd Hr approved declined.
  assert (Ha : approved
               = setActionLoading false
                   (show (Alert "Failed to approve appointment") s)).
  { unfold approved, handleApprove. rewrite Hsel.
    cbn [setActionLoading docs adminNotes].
    by rewrite updateDoc_None by done. }
  assert (Hdc : declined
                = setActionLoading false
                    (show (Alert "Failed to decline appointment")
                       (show (Prompt declinePrompt (Some reason)) s))).
  { unfold declined, handleDecline. rewrite Hsel.
    destruct reason as [|c reason]; [done|]. cbn [JsString.truthy negb].
    cbn [setActionLoading show docs adminNotes].
    by rewrite updateDoc_None by done. }
  rewrite Ha, Hdc. cbn. rewrite <- app_assoc. done.
Qed.

(** X12. When the write goes through, approving and declining close the
    modal, clear the selection and the note and reset the loading flag;
    no alert is shown. *)
Theorem successful_write_closes_modal (s : State) (sel : Appointment)
    (d : gmap string Value) (reason : string) (now : Timestamp) :
  selectedAppointment s = Some sel ->
  docs s !! id sel = Some d ->
  reason <> "" ->
  let approved := handleApprove now s in
  let declined := handleDecline (Some reason) now s in
  showApprovalModal approved = false
  /\ showApprovalModal declined = false
  /\ selectedAppointment approved = None
  /\ selectedAppointment declined = None
  /\ adminNotes approved = ""
  /\ adminNotes declined = ""
  /\ actionLoading approved = false
  /\ actionLoading declined = false
  /\ dialogs approved = dialogs s
  /\ dialogs declined = dialogs s ++ [Prompt declinePrompt (Some reason)].
Proof.
  intros Hsel Hd Hr approved declined. unfold approved, declined.
  rewrite (handleApprove_written s sel d) by done.
  rewrite (handleDecline_written s sel d) by done. done.
Qed.

(** X13. Approving and declining write the note of the modal to
    [adminNotes]; with an empty note they write [null], whatever the
    document held. *)
Theorem admin_note_written_or_erased (s : State) (sel : Appointment)
    (d : gmap string Value) (reason : string) (now : Timestamp) :
  selectedAppointment s = Some sel ->
  docs s !! id sel = Some d ->
  reason <> "" ->
  exists d1 d2,
    docs (handleApprove now s) !! id sel = Some d1
    /\ docs (handleDecline (Some reason) now s) !! id sel = Some d2
    /\ (adminNotes s = "" ->
        d1 !! "adminNotes" = Some VNull /\ d2 !! "adminNotes" = Some VNull)
    /\ (adminNotes s <> "" ->
        d1 !! "adminNotes" = Some (VString (adminNotes s))
        /\ d2 !! "adminNotes" = Some (VString (adminNotes s))).
Proof.
  intros Hsel Hd Hr.
  rewrite (handleApprove_written s sel d) by done.
  rewrite (handleDecline_written s sel d) by done.
  cbn [docs setSelectedAppointment setAdminNotes setShowApprovalModal
         setDocs setActionLoading show adminNotes].
  exists (apply_update now (approveData (adminNotes s)) d),
    (apply_update now (declineData reason (adminNotes s)) d).
  rewrite !lookup_insert_eq. split; [done|]. split; [done|]. split.
  - intros ->. split.
    + field_written NoDup_approveData (Lit VNull).
    + field_written NoDup_declineData (Lit VNull).
  - intros Hn. destruct (adminNotes s) as [|c n] eqn:E; [done|]. split.
    + field_written NoDup_approveData (Lit (VString (String c n))).
    + field_written NoDup_declineData (Lit (VString (String c n))).
Qed.

(** X14. An appointment that was never confirmed and is declined (its
    record read back from the written document) has status "cancelled"
    and the reason given, still has no [confirmedAt], and therefore stays
    in the pending view with its "Approve" button. *)
Theorem declined_stays_pending (s : State) (sel a a' : Appointment)
    (reason : string) (now : Timestamp) :
  selectedAppointment s = Some sel ->
  docs s !! id sel = Some (Samples.docOf a) ->
  confirmedAt a = None ->
  reason <> "" ->
  docs (handleDecline (Some reason) now s) !! id sel
  = Some (Samples.docOf a') ->
  status a' = StCancelled
  /\ cancellationReason a' = Some reason
  /\ confirmedAt a' = None
  /\ Views.pendingFilter a' = true
  /\ Review.showApprove a' = true.
Proof.
  intros Hsel Hd Hc Hr Ha'.
  rewrite (handleDecline_written s sel (Samples.docOf a)) in Ha' by done.
  cbn [docs setSelectedAppointment setAdminNotes setShowApprovalModal
         setDocs setActionLoading show adminNotes] in Ha'.
  rewrite lookup_insert_eq in Ha'. apply (inj Some) in Ha'.
  assert (Hst : status a' = StCancelled).
  { pose proof (docOf_status a') as H. rewrite <- Ha' in H.
    erewrite apply_update_written in H;
      [|apply NoDup_declineData
       |apply (list_elem_of_here ("status", Lit (VString "cancelled")))].
    cbn [resolve] in H. by destruct (status a'). }
  assert (Hre : cancellationReason a' = Some reason).
  { pose proof (docOf_cancellationReason a') as H. rewrite <- Ha' in H.
    erewrite (apply_update_written _ _ _ _ (Lit (VString reason))) in H;
      [|apply NoDup_declineData|in_data].
    cbn [resolve] in H. destruct (cancellationReason a'); cbn in H.
    - by injection H as ->.
    - done. }
  assert (Hco : confirmedAt a' = None).
  { pose proof (docOf_confirmedAt a') as H. rewrite <- Ha' in H.
    rewrite apply_update_other, docOf_confirmedAt, Hc in H.
    - by destruct (confirmedAt a').
    - cbn. rewrite !not_elem_of_cons.
      split_and!; [done..|apply not_elem_of_nil]. }
  split_and!; [done..| |].
  - unfold Views.pendingFilter. rewrite Hco. by rewrite orb_true_r.
  - unfold Review.showApprove. rewrite Hco. by rewrite orb_true_r.
Qed.

(** X15. Approving has no condition on the status: after a decline,
    "Approve" on the same row writes status "confirmed" and [confirmedAt],
    erases the note, and leaves [cancelledAt] and [cancellationReason] of
    the decline in the document. *)
Theorem approve_after_decline (s : State) (sel app : Appointment)
    (d : gmap string Value) (reason : string) (declinedAt approvedAt : Timestamp) :
  selectedAppointment s = Some sel ->
  docs s !! id sel = Some d ->
  reason <> "" ->
  id app = id sel ->
  let s1 := handleDecline (Some reason) declinedAt s in
  let s2 := handleApprove approvedAt (Review.onApproveClick app s1) in
  exists d',
    docs s2 !! id sel = Some d'
    /\ d' !! "status" = Some (VString "confirmed")
    /\ d' !! "confirmedAt" = Some (VTimestamp approvedAt)
    /\ d' !! "cancelledAt" = Some (VTimestamp declinedAt)
    /\ d' !! "cancellationReason" = Some (VString reason)
    /\ d' !! "adminNotes" = Some VNull
    /\ dialogs s2 = dialogs s ++ [Prompt declinePrompt (Some reason)].
Proof.
  intros Hsel Hd Hr Hid s1 s2. unfold s2, s1.
  rewrite (handleDecline_written s sel d) by done.
  set (d1 := apply_update declinedAt (declineData reason (adminNotes s)) d).
  erewrite (handleApprove_written _ app d1).
  2: done.
  2: { cbn [docs setSelectedAppointment setAdminNotes setShowApprovalModal
              setDocs setActionLoading show Review.onApproveClick].
       rewrite Hid. by rewrite lookup_insert_eq. }
  cbn [docs setSelectedAppointment setAdminNotes setShowApprovalModal
         setDocs setActionLoading show Review.onApproveClick adminNotes
         dialogs].
  rewrite Hid. eexists. rewrite lookup_insert_eq. split; [done|].
  assert (Hkeep : forall f : string,
             f ∉ (approveData "").*1 ->
             apply_update approvedAt (approveData "") d1 !! f = d1 !! f)
    by (intros f Hf; by apply apply_update_other).
  split_and!.
  - field_written NoDup_approveData (Lit (VString "confirmed")).
  - field_written NoDup_approveData ServerTimestamp.
  - rewrite Hkeep by (cbn; rewrite !not_elem_of_cons;
                      split_and!; [done..|apply not_elem_of_nil]).
    unfold d1. field_written NoDup_declineData ServerTimestamp.
  - rewrite Hkeep by (cbn; rewrite !not_elem_of_cons;
                      split_and!; [done..|apply not_elem_of_nil]).
    unfold d1. field_written NoDup_declineData (Lit (VString reason)).
  - field_written NoDup_approveData (Lit VNull).
  - done.
Qed.

(** X16. Marking completed, once confirmed by the operator, sets the
    status of any existing document to "completed", whatever it was, and
    touches no other field than [updatedAt] and no other document. *)
Theorem complete_overwrites_any_status (s : State) (appointmentId : string)
    (d : gmap string Value) (now : Timestamp) :
  docs s !! appointmentId = Some d ->
  let s' := handleMarkCompleted appointmentId true now s in
  exists d',
    docs s' !! appointmentId = Some d'
    /\ d' !! "status" = Some (VString "completed")
    /\ d' !! "updatedAt" = Some (VTimestamp now)
    /\ (forall f : string, f ∉ ["status"; "updatedAt"] -> d' !! f = d !! f)
    /\ (forall j : string, j <> appointmentId -> docs s' !! j = docs s !! j)
    /\ dialogs s'
       = dialogs s ++ [Confirm "Mark this appointment as completed?" true].
Proof.
  intros Hd s'. unfold s', handleMarkCompleted. cbn [negb show docs].
  rewrite (updateDoc_Some _ _ _ _ d) by done. cbn [docs setDocs dialogs].
  eexists. split; [by rewrite lookup_insert_eq|]. split_and!.
  - field_written NoDup_completedData (Lit (VString "completed")).
  - field_written NoDup_completedData ServerTimestamp.
  - intros f Hf. by apply apply_update_other.
  - intros j Hj. by rewrite lookup_insert_ne.
  - done.
Qed.

Section RefundMore.
Variable Number_toString : float -> string.

(** X17. When the operator answers "Cancel", or the document is missing,
    "mark completed" and "refund" leave the store as it was, and the only
    alert they can add is the report of the failure. *)
Theorem no_write_no_success_report (s : State) (appointment : Appointment)
    (confirmAnswer : bool) (now : Timestamp) :
  confirmAnswer = false \/ docs s !! id appointment = None ->
  let completed :=
    handleMarkCompleted (id appointment) confirmAnswer now s in
  let refunded :=
    handleRefund Number_toString appointment confirmAnswer now s in
  docs completed = docs s
  /\ docs refunded = docs s
  /\ (forall m : string,
        Alert m ∈ dialogs refunded ->
        Alert m ∈ dialogs s \/ m = "Failed to process refund")
  /\ (forall m : string,
        Alert m ∈ dialogs completed ->
        Alert m ∈ dialogs s \/ m = "Failed to mark as completed").
Proof.
  intros H completed refunded. unfold completed, refunded.
  unfold handleMarkCompleted, handleRefund.
  destruct confirmAnswer; cbn [negb show docs].
  - destruct H as [H|H]; [done|].
    rewrite !updateDoc_None by done. cbn [show docs dialogs].
    split_and!; [done..| |]; intros m Hm;
      rewrite <- app_assoc in Hm; apply elem_of_app in Hm as [Hm|Hm];
      try (by left);
      apply elem_of_cons in Hm as [Hm|Hm]; try done;
      apply elem_of_cons in Hm as [[= ->]|Hm]; try (by right);
      by apply elem_of_nil in Hm.
  - cbn [dialogs]. split_and!; [done..| |]; intros m Hm;
      apply elem_of_app in Hm as [Hm|Hm]; try (by left);
      apply elem_of_cons in Hm as [Hm|Hm]; try done;
      by apply elem_of_nil in Hm.
Qed.

End RefundMore.

End LifecycleMore.

(* --------------------------------------------------------------------- *)
(** ** Amounts on screen *)
(* --------------------------------------------------------------------- *)

Section CurrencyFacts.
Import JsNumber Format.

Lemma length_append (s t : string) :
  String.length (s +:+ t) = (String.length s + String.length t)%nat.
Proof.
  induction s as [|c s IH]; [done|].
  change (String c s +:+ t) with (String c (s +:+ t)).
  cbn [String.length]. by rewrite IH.
Qed.

Lemma length_zeros k : String.length (zeros k) = k.
Proof. induction k as [|k IH]; [done|]. cbn. by rewrite IH. Qed.

Lemma substring_split (n : nat) (s : string) :
  (n <= String.length s)%nat ->
  substring 0 n s +:+ substring n (String.length s - n) s = s
  /\ String.length (substring 0 n s) = n
  /\ String.length (substring n (String.length s - n) s)
     = (String.length s - n)%nat.
Proof.
  revert s. induction n as [|n IH]; intros s Hn.
  - rewrite Nat.sub_0_r. cbn [substring].
    assert (H : forall t, substring 0 (String.length t) t = t).
    { induction t as [|c t IHt]; [done|]. cbn. by rewrite IHt. }
    destruct s as [|c s]; [done|]. cbn [substring].
    change ("" +:+ ?x) with x. cbn [String.length]. rewrite !H.
    split; [done|]. split; [done|]. cbn. lia.
  - destruct s as [|c s]; [cbn in Hn; lia|]. cbn [String.length] in *.
    destruct (IH s ltac:(lia)) as (H1 & H2 & H3).
    cbn [substring Nat.sub].
    change (String c ?x +:+ ?y) with (String c (x +:+ y)).
    rewrite H1. cbn [String.length]. rewrite H2, H3. done.
Qed.

Lemma read_digits_digits n :
  0 <= n -> read_digits (digits n) = Some n /\ digits n <> "".
Proof.
  intros Hn. unfold read_digits, digits.
  assert (Hu : N.of_uint (N.to_uint (Z.to_N n)) = Z.to_N n)
    by apply DecimalN.Unsigned.of_to.
  assert (Hnil : N.to_uint (Z.to_N n) <> Decimal.Nil).
  { destruct (Z.to_N n); [discriminate|].
    apply DecimalPos.Unsigned.to_uint_nonnil. }
  pose proof (NilZero.usu _ Hnil) as H.
  unfold NilZero.uint_of_string in H.
  destruct (NilZero.string_of_uint (N.to_uint (Z.to_N n))) as [|c s];
    [done|].
  rewrite H, Hu, Z2N.id by lia. done.
Qed.

Lemma read_digits_zeros k s n :
  read_digits s = Some n -> read_digits (zeros k +:+ s) = Some n.
Proof.
  intros H. induction k as [|k IH]; [done|].
  change (zeros (S k) +:+ s) with (String "0" (zeros k +:+ s)).
  unfold read_digits in *. cbn [NilEmpty.uint_of_string].
  destruct (NilEmpty.uint_of_string (zeros k +:+ s)) as [d|]; [|done].
  cbn [uint_of_char]. exact IH.
Qed.

Section ShownAmount.
Variable Number_toString : float -> string.

(** X18. For a finite amount below 10^21 in magnitude,
    [formatCurrency] shows "R ", the sign, at least one digit, a point and
    exactly two digits; read without the point the digits are the amount in
    cents, rounded to the nearest cent. *)
Theorem currency_shows_nearest_cent (amount : float) (u : Z) :
  shown_units amount 2 = Some u ->
  exists (rand cents : string) (v : Q),
    formatCurrency Number_toString amount
    = "R " +:+ sign_of amount +:+ rand +:+ "." +:+ cents
    /\ (1 <= String.length rand)%nat
    /\ String.length cents = 2%nat
    /\ read_digits (rand +:+ cents) = Some (Z.abs u)
    /\ float_value amount = Some v
    /\ (Qabs ((u # 100) - v) <= 1 # 200)%Q.
Proof.
  intros Hu. destruct (shown_units_nearest _ _ Hu) as (v & Hv & Hnear).
  unfold formatCurrency. rewrite (toFixed_shown _ _ _ _ Hu).
  unfold fixed_digits.
  destruct (read_digits_digits (Z.abs u) ltac:(lia)) as [Hread Hne].
  set (m := digits (Z.abs u)) in *.
  set (k := String.length m).
  set (m' := if (k <=? 2)%nat then zeros (2 + 1 - k) +:+ m else m).
  assert (Hk : (1 <= k)%nat).
  { unfold k. destruct m; [done|]. cbn. lia. }
  assert (Hlen : (3 <= String.length m')%nat).
  { unfold m'. destruct (Nat.leb_spec k 2).
    - rewrite length_append, length_zeros. fold k. lia.
    - fold k. lia. }
  assert (Hread' : read_digits m' = Some (Z.abs u)).
  { unfold m'. destruct (k <=? 2)%nat; [|done]. by apply read_digits_zeros. }
  destruct (substring_split (String.length m' - 2) m' ltac:(lia))
    as (H1 & H2 & H3).
  replace (String.length m' - (String.length m' - 2))%nat with 2%nat in *
    by lia.
  exists (substring 0 (String.length m' - 2) m'),
    (substring (String.length m' - 2) 2 m'), v.
  split; [done|]. split; [lia|]. split; [done|]. split; [|done].
  by rewrite H1.
Qed.

End ShownAmount.

End CurrencyFacts.

(* --------------------------------------------------------------------- *)
(** ** User names in the earlier dashboard *)
(* --------------------------------------------------------------------- *)

Section UserNames.
Import EarlierDashboard.

Lemma find_first {A} (p : A -> bool) (pre : list A) (u : A) (post : list A) :
  (forall v, v ∈ pre -> p v = false) -> p u = true ->
  List.find p (pre ++ u :: post) = Some u.
Proof.
  intros Hpre Hu. induction pre as [|v pre IH]; cbn [List.find app].
  - by rewrite Hu.
  - rewrite Hpre by apply list_elem_of_here.
    apply IH. intros w Hw. apply Hpre. by apply list_elem_of_further.
Qed.

Lemma find_none {A} (p : A -> bool) (l : list A) :
  (forall v, v ∈ l -> p v = false) -> List.find p l = None.
Proof.
  intros H. induction l as [|v l IH]; [done|]. cbn [List.find].
  rewrite H by apply list_elem_of_here.
  apply IH. intros w Hw. apply H. by apply list_elem_of_further.
Qed.

(** X20. The rows handed to the table of the earlier dashboard are the
    appointments in their order, each with a non-empty [userName]: the
    display name of the first user whose id is the appointment's [userId],
    or "Unknown" when there is none or that name is empty; a [userName]
    stored with the appointment is not used, and the other fields are
    kept. *)
Theorem list_rows_user_names (users : list AppUser)
    (appointments : list Appointment) :
  let rows := listRows users appointments in
  length rows = length appointments
  /\ forall (i : nat) (app : Appointment),
       appointments !! i = Some app ->
       exists (row : Appointment) (name : string),
         rows !! i = Some row
         /\ userName row = Some name
         /\ name <> ""
         /\ ((forall u, u ∈ users -> user_id u <> userId app) ->
             name = "Unknown")
         /\ (forall pre u post,
               users = pre ++ u :: post ->
               (forall v, v ∈ pre -> user_id v <> userId app) ->
               user_id u = userId app ->
               name = if String.eqb (displayName u) "" then "Unknown"
                      else displayName u)
         /\ id row = id app /\ userId row = userId app
         /\ date row = date app /\ time row = time app
         /\ status row = status app /\ serviceType row = serviceType app
         /\ notes row = notes app /\ createdAt row = createdAt app.
Proof.
  cbn zeta. unfold listRows. split; [apply List.length_map|].
  intros i app Hi.
  exists (withUserName users app).
  destruct (userName (withUserName users app)) as [name|] eqn:En; [|done].
  exists name. split.
  { change (List.map (withUserName users) appointments)
      with (withUserName users <$> appointments).
    by rewrite list_lookup_fmap, Hi. }
  split; [done|]. unfold withUserName in En. cbn [userName] in En.
  injection En as En. split_and!; try done.
  - subst name.
    destruct (List.find _ users) as [u|]; [|done].
    by destruct (displayName u).
  - intros Hnone. subst name. rewrite find_none; [done|].
    intros v Hv. apply String.eqb_neq. by apply Hnone.
  - intros pre u post -> Hpre Hu. subst name.
    rewrite (find_first _ pre u post).
    + by destruct (displayName u).
    + intros v Hv. apply String.eqb_neq. by apply Hpre.
    + by apply String.eqb_eq.
Qed.

End UserNames.

Section EarlierTable.
Import AppointmentList.

Lemma EarlierSortKeys_eqb_eq a b :
  EarlierDashboard.SortKeys_eqb a b = true <-> a = b.
Proof. destruct a, b; cbn; split; congruence. Qed.

(** X19. In the earlier dashboard every clickable header sorts the rows of
    the table (the appointments with their user names filled in): the
    sorted rows are a rearrangement of the rows, ordered by the strings of
    that column in the chosen direction, rows with equal strings in their
    original order; a click on the active header flips the direction and a
    click on another header selects it, ascending. *)
Theorem earlier_table_by_header
    (users : list EarlierDashboard.AppUser)
    (appointments : list EarlierDashboard.Appointment)
    (k : EarlierDashboard.SortKeys) (dir : Direction) :
  k ∈ EarlierDashboard.headers ->
  let rows := EarlierDashboard.listRows users appointments in
  let config := Some {| key := k; direction := dir |} in
  let sorted := EarlierDashboard.sortedAppointments rows config in
  sorted ≡ₚ rows
  /\ StronglySorted (ordered EarlierDashboard.get dir k) sorted
  /\ (forall v : string,
        List.filter
          (fun a => String.eqb (key_string EarlierDashboard.get k a) v)
          sorted
        = List.filter
            (fun a => String.eqb (key_string EarlierDashboard.get k a) v)
            rows)
  /\ EarlierDashboard.requestSort k config
     = Some {| key := k; direction := flip dir |}
  /\ (forall k' : EarlierDashboard.SortKeys,
        k' <> k ->
        EarlierDashboard.requestSort k' config
        = Some {| key := k'; direction := ascending |}).
Proof.
  intros Hk rows config sorted.
  assert (Hdef : all_defined EarlierDashboard.get k rows).
  { apply Forall_forall. intros a Ha. unfold rows, EarlierDashboard.listRows in Ha.
    apply list_elem_of_In, in_map_iff in Ha as (a0 & <- & _).
    unfold EarlierDashboard.headers in Hk.
    rewrite !elem_of_cons, elem_of_nil in Hk.
    destruct Hk as [->|[->|[->|[->|[]]]]]; done. }
  destruct (sortedAppointments_defined EarlierDashboard.get rows k dir Hdef)
    as (Hperm & Hsorted & Hstable).
  split_and!; [done..| |].
  - unfold config, EarlierDashboard.requestSort, requestSort.
    cbn [key direction].
    assert (EarlierDashboard.SortKeys_eqb k k = true) as ->
      by by apply EarlierSortKeys_eqb_eq.
    by destruct dir.
  - intros k' Hne. unfold config, EarlierDashboard.requestSort, requestSort.
    cbn [key direction].
    destruct (EarlierDashboard.SortKeys_eqb k k') eqn:E; [|done].
    apply EarlierSortKeys_eqb_eq in E. congruence.
Qed.

End EarlierTable.

(* --------------------------------------------------------------------- *)
(** ** The overview page *)
(* --------------------------------------------------------------------- *)

Section DashboardFacts.
Import JsTime DashboardView.

Lemma filterM_total {A} (p : A -> option bool) (q : A -> bool) l :
  (forall a, p a = Some (q a)) -> filterM p l = Some (List.filter q l).
Proof.
  intros H. induction l as [|a l IH]; [done|].
  cbn [filterM List.filter]. rewrite H, IH. by destruct (q a).
Qed.

Lemma filterM_throws {A} (p : A -> option bool) l :
  (forall a, p a = None) -> l <> [] -> filterM p l = None.
Proof. intros H Hl. destruct l as [|a l]; [done|]. cbn. by rewrite H. Qed.




Section ChartFacts.
Context {A : Type} (date : A -> string).

Lemma onDate_valid t a :
  valid t = true -> onDate date t a = Some (onDay date (Day t) a).
Proof. intros H. unfold onDate, toISODate. by rewrite H. Qed.

Lemma chartInstant_day cv now i :
  Day (chartInstant cv now i)
  = Day now + match cv with upcoming => i | past => i - 6 end.
Proof.
  destruct cv; unfold chartInstant, Day, msPerDay; zlia.
Qed.

Lemma chartInstant_valid cv now i :
  valid (now - 6 * msPerDay) = true -> valid (now + 6 * msPerDay) = true ->
  0 <= i <= 6 -> valid (chartInstant cv now i) = true.
Proof.
  unfold valid, chartInstant, msPerDay. rewrite !Z.leb_le.
  destruct cv; lia.
Qed.

Lemma list_sum_cons (n : nat) (l : list nat) :
  list_sum (n :: l) = (n + list_sum l)%nat.
Proof. reflexivity. Qed.

(** An appointment is counted under at most one of several distinct
    days. *)
Lemma onDay_disjoint (days : list Z) (l : list A) :
  NoDup days ->
  Forall (fun d => -100000000 <= d <= 100000000) days ->
  (list_sum (List.map (fun d => length (List.filter (onDay date d) l)) days)
   <= length l)%nat.
Proof.
  intros Hnd Hv. induction l as [|a l IH].
  - cbn. induction days as [|d days IHd]; [done|]. cbn.
    apply NoDup_cons in Hnd as [_ Hnd]. apply Forall_cons in Hv as [_ Hv].
    by apply IHd.
  - assert (Hone :
      (list_sum (List.map (fun d => if onDay date d a then 1 else 0) days) <= 1)%nat).
    { clear IH. induction days as [|d days IHd]; [cbn; lia|].
      apply NoDup_cons in Hnd as [Hd Hnd]. apply Forall_cons in Hv as [Hvd Hv].
      cbn [List.map]. rewrite list_sum_cons. specialize (IHd Hnd Hv).
      destruct (onDay date d a) eqn:E; [|lia].
      assert (Hz : list_sum
                     (List.map (fun d => if onDay date d a then 1%nat else 0%nat)
                        days)
                   = 0%nat); [|lia].
      clear IHd. induction days as [|d' days IHd']; [done|].
      apply not_elem_of_cons in Hd as [Hne Hd].
      apply NoDup_cons in Hnd as [_ Hnd]. apply Forall_cons in Hv as [Hvd' Hv].
      cbn [List.map]. rewrite list_sum_cons, IHd' by done.
      destruct (onDay date d' a) eqn:E'; [|done]. exfalso. apply Hne.
      unfold onDay in E, E'. apply String.eqb_eq in E, E'.
      apply isoDateOfDay_inj; [done|done|congruence]. }
    assert (Hsplit :
      list_sum (List.map (fun d => length (List.filter (onDay date d) (a :: l))) days)
      = (list_sum (List.map (fun d => if onDay date d a then 1 else 0) days)
         + list_sum (List.map (fun d => length (List.filter (onDay date d) l)) days))%nat).
    { clear. induction days as [|d days IHd]; [done|].
      cbn [List.map]. rewrite !list_sum_cons, IHd. cbn [List.filter].
      destruct (onDay date d a); cbn [length]; lia. }
    rewrite Hsplit. cbn [length]. lia.
Qed.

(** X22. With the clock within the range of [Date] six days either way,
    the seven bars of the appointments chart count the appointments dated
    (in ISO form) on seven consecutive UTC days, starting today for
    "upcoming" and ending today for "past"; no appointment is counted in
    two bars. *)
Theorem chart_counts_consecutive_days (chartView : ChartView) (now : Z)
    (appointments : list A) :
  valid (now - 6 * msPerDay) = true ->
  valid (now + 6 * msPerDay) = true ->
  let first :=
    match chartView with upcoming => Day now | past => Day now - 6 end in
  exists bars,
    chartData date chartView now appointments = Some bars
    /\ bars
       = List.map
           (fun i => length (List.filter (onDay date (first + i)) appointments))
           [0; 1; 2; 3; 4; 5; 6]
    /\ (list_sum bars <= length appointments)%nat.
Proof.
  intros Hlo Hhi first.
  assert (Hbar : forall i, 0 <= i <= 6 ->
    filterM (onDate date (chartInstant chartView now i)) appointments
    = Some (List.filter (onDay date (first + i)) appointments)).
  { intros i Hi. rewrite (filterM_total _ (onDay date (first + i))); [done|].
    intros a. rewrite onDate_valid by by apply chartInstant_valid.
    rewrite chartInstant_day. unfold first.
    destruct chartView; do 2 f_equal; lia. }
  eexists. split; [|split; [reflexivity|]].
  - unfold chartData. cbn [mapM].
    rewrite !Hbar by lia. reflexivity.
  - pose proof (valid_Day _ Hlo) as H1. pose proof (valid_Day _ Hhi) as H2.
    rewrite (Day_add_days now 6) in H2.
    replace (now - 6 * msPerDay) with (now + (-6) * msPerDay) in H1 by lia.
    rewrite (Day_add_days now (-6)) in H1.
    change (List.map
              (fun i => length (List.filter (onDay date (first + i)) appointments))
              [0; 1; 2; 3; 4; 5; 6])
      with (List.map
              (fun d => length (List.filter (onDay date d) appointments))
              [first + 0; first + 1; first + 2; first + 3; first + 4;
               first + 5; first + 6]).
    apply onDay_disjoint.
    + repeat (apply NoDup_cons; split;
              [rewrite ?not_elem_of_cons; split_and?;
               try apply not_elem_of_nil; lia|]).
      apply NoDup_nil_2.
    + repeat (apply Forall_cons; split; [unfold first; destruct chartView; lia|]).
      apply Forall_nil_2.
Qed.

End ChartFacts.


End DashboardFacts.

(* --------------------------------------------------------------------- *)
(** ** The chat page and the theme *)
(* --------------------------------------------------------------------- *)

Section ChatFacts.
Import Chat.

Lemma trimStart_blank s : trimStart s = "" <-> blank s.
Proof.
  unfold blank. induction s as [|c s IH]; cbn [trimStart list_ascii_of_string].
  - split; [constructor|done].
  - destruct (isWhiteSpace c) eqn:E.
    + rewrite IH. split.
      * intros H. by constructor.
      * intros H. by apply Forall_cons in H as [_ H].
    + split; [done|]. intros H. apply Forall_cons in H as [H _]. congruence.
Qed.

Lemma trimEnd_nonempty c s :
  isWhiteSpace c = false -> trimEnd (String c s) <> "".
Proof. intros H. cbn [trimEnd]. rewrite H. by destruct (trimEnd s). Qed.

Lemma trim_blank s : trim s = "" <-> blank s.
Proof.
  rewrite <- trimStart_blank. unfold trim. split.
  - intros H. destruct (trimStart s) as [|c t] eqn:E; [done|].
    assert (Hc : isWhiteSpace c = false).
    { clear H. induction s as [|c' s IH]; [done|]. cbn [trimStart] in E.
      destruct (isWhiteSpace c') eqn:E'; [by apply IH|]. congruence. }
    by apply trimEnd_nonempty in H.
  - by intros ->.
Qed.

Lemma threadData_lookup text now (d : gmap string Field) (f : string) :
  f ∉ ["lastMessageText"; "lastMessageTimestamp"; "unreadByAdmin"] ->
  foldl (fun d kv => <[kv.1 := kv.2]> d) d (threadData text now) !! f
  = d !! f.
Proof.
  rewrite !not_elem_of_cons. intros (H1 & H2 & H3 & _). cbn.
  by rewrite !lookup_insert_ne.
Qed.

Lemma threadData_written text now (d : gmap string Field) :
  let d' := foldl (fun d kv => <[kv.1 := kv.2]> d) d (threadData text now) in
  d' !! "lastMessageText" = Some (FString text)
  /\ d' !! "lastMessageTimestamp" = Some (FTimestamp now)
  /\ d' !! "unreadByAdmin" = Some (FBool false).
Proof.
  cbn. split_and!.
  - rewrite !lookup_insert_ne by done. by rewrite lookup_insert_eq.
  - rewrite lookup_insert_ne by done. by rewrite lookup_insert_eq.
  - by rewrite lookup_insert_eq.
Qed.

(** X24. Sending does nothing when the message is blank (white space
    only), no thread is selected or nobody is signed in.  Otherwise, when
    the thread exists, it appends one message with the text as typed and
    sender "admin" to the thread, sets the thread's last message text and
    time, clears its unread flag, keeps its other fields, every other
    thread and the selection, and empties the input. *)
Theorem send_message (user : option User) (sentAt updatedAt : Timestamp)
    (s : State) :
  (blank (newMessage s) \/ selectedThreadId s = None
   \/ selectedThreadId s = Some "" \/ user = None ->
   handleSendMessage user sentAt updatedAt s = Fulfilled s)
  /\ (forall (threadId : string) (d : gmap string Field),
        ~ blank (newMessage s) ->
        selectedThreadId s = Some threadId ->
        threadId <> "" ->
        user <> None ->
        chats s !! threadId = Some d ->
        exists s' d',
          handleSendMessage user sentAt updatedAt s = Fulfilled s'
          /\ thread threadId s'
             = thread threadId s ++ [messageData (newMessage s) sentAt]
          /\ chats s' !! threadId = Some d'
          /\ d' !! "lastMessageText" = Some (FString (newMessage s))
          /\ d' !! "lastMessageTimestamp" = Some (FTimestamp updatedAt)
          /\ d' !! "unreadByAdmin" = Some (FBool false)
          /\ (forall f : string,
                f ∉ ["lastMessageText"; "lastMessageTimestamp";
                     "unreadByAdmin"] ->
                d' !! f = d !! f)
          /\ (forall j : string,
                j <> threadId ->
                chats s' !! j = chats s !! j
                /\ thread j s' = thread j s)
          /\ newMessage s' = ""
          /\ selectedThreadId s' = Some threadId).
Proof.
  split.
  - intros H. unfold handleSendMessage.
    destruct (String.eqb_spec (trim (newMessage s)) "") as [E|E]; [done|].
    destruct H as [H|[H|[H|H]]].
    + by apply trim_blank in H.
    + by rewrite H.
    + rewrite H. by destruct user.
    + rewrite H. by destruct (selectedThreadId s).
  - intros threadId d Hb Hsel Hid Hu Hd. unfold handleSendMessage.
    destruct (String.eqb_spec (trim (newMessage s)) "") as [E|E];
      [by apply trim_blank in E|].
    rewrite Hsel. destruct user as [u|]; [|done].
    destruct threadId as [|c t]; [done|]. cbn [JsString.truthy negb].
    cbn [chats]. unfold updateDoc. rewrite Hd.
    eexists. exists (foldl (fun d kv => <[kv.1 := kv.2]> d) d
                       (threadData (newMessage s) updatedAt)).
    split; [reflexivity|]. unfold thread. cbn [chats messages newMessage
      selectedThreadId]. split_and!.
    + unfold addDoc. by rewrite lookup_insert_eq.
    + by rewrite lookup_insert_eq.
    + apply threadData_written.
    + apply threadData_written.
    + apply threadData_written.
    + apply threadData_lookup.
    + intros j Hj. unfold addDoc. by rewrite !lookup_insert_ne.
    + done.
    + done.
Qed.

(** X25. When the selected thread has no document, the message is still
    added, the update of the thread is rejected and the input is not
    cleared; sending again adds the same text a second time. *)
Theorem send_message_without_thread (user : option User)
    (t1 t2 t3 t4 : Timestamp) (s : State) (threadId : string) :
  ~ blank (newMessage s) ->
  selectedThreadId s = Some threadId ->
  threadId <> "" ->
  user <> None ->
  chats s !! threadId = None ->
  exists s1 s2,
    handleSendMessage user t1 t2 s = Rejected s1
    /\ chats s1 = chats s
    /\ newMessage s1 = newMessage s
    /\ thread threadId s1
       = thread threadId s ++ [messageData (newMessage s) t1]
    /\ handleSendMessage user t3 t4 s1 = Rejected s2
    /\ thread threadId s2
       = thread threadId s
         ++ [messageData (newMessage s) t1; messageData (newMessage s) t3].
Proof.
  intros Hb Hsel Hid Hu Hd.
  assert (Hstep : forall ta tb s0,
            newMessage s0 = newMessage s -> selectedThreadId s0 = Some threadId ->
            chats s0 = chats s ->
            handleSendMessage user ta tb s0
            = Rejected
                {| chats := chats s0;
                   messages :=
                     addDoc threadId (messageData (newMessage s0) ta)
                       (messages s0);
                   selectedThreadId := selectedThreadId s0;
                   newMessage := newMessage s0 |}).
  { intros ta tb s0 Hn Hs Hc. unfold handleSendMessage. rewrite Hn.
    destruct (String.eqb_spec (trim (newMessage s)) "") as [E|E];
      [by apply trim_blank in E|].
    rewrite Hs. destruct user as [u|]; [|done].
    destruct threadId as [|c t]; [done|]. cbn [JsString.truthy negb].
    cbn [chats]. unfold updateDoc. by rewrite Hc, Hd. }
  do 2 eexists. split; [by apply Hstep|]. cbn [chats newMessage].
  split; [done|]. split; [done|]. split.
  { unfold thread, addDoc. cbn [messages]. by rewrite lookup_insert_eq. }
  split; [by apply Hstep|].
  unfold thread, addDoc. cbn [messages newMessage].
  rewrite !lookup_insert_eq. cbn [default from_option]. unfold Datatypes.id. by rewrite <- app_assoc.
Qed.

End ChatFacts.

Section ThemeFacts.
Import Theme.

Lemma initialTheme_nonempty storage : initialTheme storage <> "".
Proof.
  unfold initialTheme. destruct (storage !! "theme") as [[|c t]|]; done.
Qed.

(** X26. After opening the page and any number of clicks on the theme
    switch, the stored theme is the current theme, the root element has the
    class "dark" exactly for the theme "dark", reopening the page restores
    the same state, and no other key of the storage has changed; after the
    first click the theme is "light" or "dark" and two more clicks return
    to it. *)
Theorem theme_survives_reload (storage : gmap string string)
    (rootDark reloadDark : bool) (clicks : nat) :
  let s := Nat.iter clicks onToggle (mount storage rootDark) in
  localStorage s !! "theme" = Some (theme s)
  /\ darkClass s = String.eqb (theme s) "dark"
  /\ mount (localStorage s) reloadDark = s
  /\ (forall k : string, k <> "theme" -> localStorage s !! k = storage !! k)
  /\ ((0 < clicks)%nat -> theme s = "light" \/ theme s = "dark")
  /\ ((0 < clicks)%nat -> onToggle (onToggle s) = s).
Proof.
  cbn zeta.
  assert (Hinv : forall n,
    let s := Nat.iter n onToggle (mount storage rootDark) in
    theme s <> ""
    /\ (exists base, localStorage s = <["theme" := theme s]> base
                     /\ forall k, k <> "theme" -> base !! k = storage !! k)
    /\ darkClass s = String.eqb (theme s) "dark"
    /\ ((0 < n)%nat -> theme s = "light" \/ theme s = "dark")).
  { induction n as [|n IH]; cbn zeta.
    - cbn [Nat.iter]. unfold mount, themeEffect. cbn [theme localStorage darkClass].
      split_and!; [apply initialTheme_nonempty| |done|lia].
      by exists storage.
    - rewrite Nat.iter_succ. cbn zeta in IH.
      set (s := Nat.iter n onToggle (mount storage rootDark)) in *.
      destruct IH as (Hne & (base & Hls & Hbase) & Hdc & _).
      unfold onToggle, themeEffect. cbn [theme localStorage darkClass].
      split_and!.
      + destruct (String.eqb (theme s) "dark"); discriminate.
      + exists base. split; [|done]. rewrite Hls. by rewrite insert_insert_eq.
      + done.
      + intros _. destruct (String.eqb (theme s) "dark"); auto. }
  destruct (Hinv clicks) as (Hne & (base & Hls & Hbase) & Hdc & Hval).
  cbn zeta in *.
  set (s := Nat.iter clicks onToggle (mount storage rootDark)) in *.
  clearbody s. destruct s as [t0 l0 d0].
  cbn [theme localStorage darkClass] in *. subst l0 d0.
  split_and!.
  - by rewrite lookup_insert_eq.
  - done.
  - unfold mount, themeEffect, initialTheme.
    cbn [theme localStorage darkClass]. rewrite lookup_insert_eq.
    destruct t0 as [|c t]; [done|]. cbn [JsString.truthy].
    by rewrite insert_insert_eq.
  - intros k Hk. rewrite lookup_insert_ne by done. by apply Hbase.
  - done.
  - intros Hc. specialize (Hval Hc). unfold onToggle, themeEffect.
    cbn [theme localStorage darkClass].
    destruct Hval as [-> | ->]; cbn [String.eqb Ascii.eqb Bool.eqb];
      by rewrite !insert_insert_eq.
Qed.

End ThemeFacts.

(* --------------------------------------------------------------------- *)
(** ** Worked instances of the further properties *)
(* --------------------------------------------------------------------- *)



(** A click on 2 November in the grid of November 2026. *)
Lemma day_click_witness :
  (JsDate.getFullYear Samples.a_day < 0
   \/ 99 < JsDate.getFullYear Samples.a_day)
  /\ Calendar.in_target_month Samples.a_day Cases.nov_2
  /\ Calendar.onDayClick Samples.a_day Cases.nov_2 None = Some Cases.nov_2.
Proof.
  assert (H : JsDate.getFullYear Samples.a_day < 0
              \/ 99 < JsDate.getFullYear Samples.a_day)
    by (right; vm_compute; reflexivity).
  split; [exact H|].
  destruct (Calendar.daysInMonth 6 Samples.a_day) as [days|] eqn:E;
    [|vm_compute in E; discriminate E].
  assert (Hin : Cases.nov_2 ∈ days).
  { vm_compute in E. injection E as <-. vm_compute.
    do 1 apply list_elem_of_further. apply list_elem_of_here. }
  destruct (day_click 6 Samples.a_day Cases.nov_2 days None H (le_n 6) E Hin)
    as [[H1 H2]|[_ H2]].
  - split; [exact H1|exact H2].
  - vm_compute in H2. discriminate H2.
Defined.


(** The cell of 2 January 2026 in Johannesburg shows the booking of
    1 January, 12:00 local time. *)
Lemma calendar_cell_appointments_witness :
  -720 <= Cases.sast <= 840
  /\ JsTime.valid (JsTime.timeValue Cases.sast Cases.jan_2) = true
  /\ exists map,
       CalendarCells.enhancedByDate [Samples.booked; Samples.confirmed_paid]
       = Some map
       /\ CalendarCells.appointmentsForDay Cases.sast map Cases.jan_2
          = Some [Samples.booked]
       /\ JsTime.Day (JsTime.LocalTime Cases.sast
                        (appointmentDate Samples.booked))
          = Cases.jan_2 - 1.
Proof.
  assert (Htz : -720 <= Cases.sast <= 840) by (unfold Cases.sast; lia).
  assert (Hv : JsTime.valid (JsTime.timeValue Cases.sast Cases.jan_2) = true)
    by (vm_compute; reflexivity).
  assert (Hall : Forall (fun a => JsTime.valid (appointmentDate a) = true)
                   [Samples.booked; Samples.confirmed_paid]).
  { repeat (apply Forall_cons; split; [vm_compute; reflexivity|]).
    apply Forall_nil_2. }
  split; [exact Htz|]. split; [exact Hv|].
  destruct (calendar_cell_appointments Cases.sast
              [Samples.booked; Samples.confirmed_paid] Cases.jan_2
              Htz Hall Hv) as (map & shown & H1 & H2 & H3 & _).
  exists map. split; [exact H1|]. split.
  - rewrite H2, H3. reflexivity.
  - vm_compute; reflexivity.
Defined.

(** The cell of 2 November 2026 in Johannesburg shows the visit dated
    2026-11-01. *)
Lemma dashboard_cell_appointments_witness :
  -720 <= Cases.sast <= 840
  /\ JsTime.valid (JsTime.timeValue Cases.sast Cases.nov_2) = true
  /\ exists map1 map2,
       CalendarCells.earlierByDate Cases.users Cases.visits = Some map1
       /\ CalendarCells.adminByDate Samples.rows = Some map2
       /\ List.map EarlierDashboard.id
            (default [] (CalendarCells.appointmentsForDay Cases.sast map1
                           Cases.nov_2))
          = ["v1"]
       /\ CalendarCells.appointmentsForDay Cases.sast map2 Cases.nov_2
          = Some [].
Proof.
  assert (Htz : -720 <= Cases.sast <= 840) by (unfold Cases.sast; lia).
  assert (Hv : JsTime.valid (JsTime.timeValue Cases.sast Cases.nov_2) = true)
    by (vm_compute; reflexivity).
  split; [exact Htz|]. split; [exact Hv|].
  destruct (dashboard_cell_appointments Cases.sast Cases.users Cases.visits
              Samples.rows Cases.nov_2 Htz Hv)
    as (map1 & map2 & H1 & H2 & H3 & H4).
  exists map1, map2. split; [exact H1|]. split; [exact H2|]. split.
  - rewrite H3. vm_compute; reflexivity.
  - rewrite H4. vm_compute; reflexivity.
Defined.

(** Approving and declining the booking whose document is gone. *)
Lemma failed_write_keeps_modal_witness :
  Lifecycle.docs (Samples.state (Some Cases.removed) "call first")
    !! id Cases.removed = None
  /\ Lifecycle.docs
       (Lifecycle.handleApprove Samples.server_time
          (Samples.state (Some Cases.removed) "call first"))
     = Samples.store
  /\ Lifecycle.selectedAppointment
       (Lifecycle.handleApprove Samples.server_time
          (Samples.state (Some Cases.removed) "call first"))
     = Some Cases.removed
  /\ Lifecycle.dialogs
       (Lifecycle.handleDecline (Some "No slot available")
          Samples.server_time
          (Samples.state (Some Cases.removed) "call first"))
     = [Lifecycle.Prompt Lifecycle.declinePrompt (Some "No slot available");
        Lifecycle.Alert "Failed to decline appointment"].
Proof.
  assert (Hd : Lifecycle.docs (Samples.state (Some Cases.removed) "call first")
                 !! id Cases.removed = None) by reflexivity.
  assert (Hr : "No slot available" <> "") by discriminate.
  split; [exact Hd|].
  destruct (failed_write_keeps_modal
              (Samples.state (Some Cases.removed) "call first")
              Cases.removed "No slot available" Samples.server_time
              eq_refl Hd Hr)
    as (H1 & _ & H3 & _ & _ & _ & _ & _ & _ & _ & _ & H12).
  split; [exact H1|]. split; [exact H3|exact H12].
Defined.

(** Approving and declining the pending booking. *)
Lemma successful_write_closes_modal_witness :
  Lifecycle.docs (Samples.state (Some Samples.booked) "ok")
    !! id Samples.booked = Some (Samples.docOf Samples.booked)
  /\ Lifecycle.showApprovalModal
       (Lifecycle.handleApprove Samples.server_time
          (Samples.state (Some Samples.booked) "ok")) = false
  /\ Lifecycle.selectedAppointment
       (Lifecycle.handleDecline (Some "No slot available")
          Samples.server_time (Samples.state (Some Samples.booked) "ok"))
     = None
  /\ Lifecycle.adminNotes
       (Lifecycle.handleDecline (Some "No slot available")
          Samples.server_time (Samples.state (Some Samples.booked) "ok"))
     = "".
Proof.
  assert (Hd : Lifecycle.docs (Samples.state (Some Samples.booked) "ok")
                 !! id Samples.booked = Some (Samples.docOf Samples.booked))
    by reflexivity.
  assert (Hr : "No slot available" <> "") by discriminate.
  split; [exact Hd|].
  destruct (successful_write_closes_modal
              (Samples.state (Some Samples.booked) "ok") Samples.booked
              (Samples.docOf Samples.booked) "No slot available"
              Samples.server_time eq_refl Hd Hr)
    as (H1 & _ & _ & H4 & _ & H6 & _).
  split; [exact H1|]. split; [exact H4|exact H6].
Defined.

(** Approving the completed visit, which carries a note, with an empty
    note. *)
Lemma admin_note_written_or_erased_witness :
  Lifecycle.docs (Samples.state (Some Samples.done_visit) "")
    !! id Samples.done_visit = Some (Samples.docOf Samples.done_visit)
  /\ Samples.docOf Samples.done_visit !! "adminNotes"
     = Some (Firestore.VString "follow up in 6 weeks")
  /\ exists d1,
       Lifecycle.docs
         (Lifecycle.handleApprove Samples.server_time
            (Samples.state (Some Samples.done_visit) ""))
         !! id Samples.done_visit = Some d1
       /\ d1 !! "adminNotes" = Some Firestore.VNull.
Proof.
  assert (Hd : Lifecycle.docs (Samples.state (Some Samples.done_visit) "")
                 !! id Samples.done_visit
               = Some (Samples.docOf Samples.done_visit)) by reflexivity.
  assert (Hr : "No slot available" <> "") by discriminate.
  split; [exact Hd|]. split; [reflexivity|].
  destruct (admin_note_written_or_erased
              (Samples.state (Some Samples.done_visit) "")
              Samples.done_visit (Samples.docOf Samples.done_visit)
              "No slot available" Samples.server_time eq_refl Hd Hr)
    as (d1 & d2 & H1 & _ & Hempty & _).
  exists d1. split; [exact H1|]. exact (proj1 (Hempty eq_refl)).
Defined.

(** Declining the pending booking. *)
Lemma declined_stays_pending_witness :
  confirmedAt Samples.booked = None
  /\ Lifecycle.docs
       (Lifecycle.handleDecline (Some "No slot available")
          Samples.server_time (Samples.state (Some Samples.booked) ""))
       !! id Samples.booked
     = Some (Samples.docOf Cases.booked_declined)
  /\ Views.pendingFilter Cases.booked_declined = true
  /\ Review.showApprove Cases.booked_declined = true.
Proof.
  assert (Hd : Lifecycle.docs (Samples.state (Some Samples.booked) "")
                 !! id Samples.booked = Some (Samples.docOf Samples.booked))
    by reflexivity.
  assert (Hr : "No slot available" <> "") by discriminate.
  assert (Hafter :
    Lifecycle.docs
      (Lifecycle.handleDecline (Some "No slot available")
         Samples.server_time (Samples.state (Some Samples.booked) ""))
      !! id Samples.booked
    = Some (Samples.docOf Cases.booked_declined)) by reflexivity.
  split; [reflexivity|]. split; [exact Hafter|].
  destruct (declined_stays_pending
              (Samples.state (Some Samples.booked) "") Samples.booked
              Samples.booked Cases.booked_declined "No slot available"
              Samples.server_time eq_refl Hd eq_refl Hr Hafter)
    as (_ & _ & _ & H4 & H5).
  split; [exact H4|exact H5].
Defined.

(** Declining the pending booking and approving it a minute later. *)
Lemma approve_after_decline_witness :
  "No slot available" <> ""
  /\ exists d',
       Lifecycle.docs
         (Lifecycle.handleApprove (Samples.server_time + 60000)
            (Review.onApproveClick Cases.booked_declined
               (Lifecycle.handleDecline (Some "No slot available")
                  Samples.server_time
                  (Samples.state (Some Samples.booked) ""))))
         !! id Samples.booked = Some d'
       /\ d' !! "status" = Some (Firestore.VString "confirmed")
       /\ d' !! "cancellationReason"
          = Some (Firestore.VString "No slot available")
       /\ d' !! "cancelledAt"
          = Some (Firestore.VTimestamp Samples.server_time).
Proof.
  assert (Hd : Lifecycle.docs (Samples.state (Some Samples.booked) "")
                 !! id Samples.booked = Some (Samples.docOf Samples.booked))
    by reflexivity.
  assert (Hr : "No slot available" <> "") by discriminate.
  split; [exact Hr|].
  destruct (approve_after_decline
              (Samples.state (Some Samples.booked) "") Samples.booked
              Cases.booked_declined (Samples.docOf Samples.booked)
              "No slot available" Samples.server_time
              (Samples.server_time + 60000) eq_refl Hd Hr eq_refl)
    as (d' & H1 & H2 & _ & H4 & H5 & _).
  exists d'. split; [exact H1|]. split; [exact H2|]. split; [exact H5|exact H4].
Defined.

(** Marking the declined booking completed. *)
Lemma complete_overwrites_any_status_witness :
  Lifecycle.docs (Samples.state None "") !! id Samples.declined
  = Some (Samples.docOf Samples.declined)
  /\ Samples.docOf Samples.declined !! "status"
     = Some (Firestore.VString "cancelled")
  /\ exists d',
       Lifecycle.docs
         (Lifecycle.handleMarkCompleted (id Samples.declined) true
            Samples.server_time (Samples.state None ""))
         !! id Samples.declined = Some d'
       /\ d' !! "status" = Some (Firestore.VString "completed")
       /\ d' !! "cancellationReason"
          = Some (Firestore.VString "No slot available").
Proof.
  assert (Hd : Lifecycle.docs (Samples.state None "") !! id Samples.declined
               = Some (Samples.docOf Samples.declined)) by reflexivity.
  split; [exact Hd|]. split; [reflexivity|].
  destruct (complete_overwrites_any_status (Samples.state None "")
              (id Samples.declined) (Samples.docOf Samples.declined)
              Samples.server_time Hd)
    as (d' & H1 & H2 & _ & Hf & _).
  exists d'. split; [exact H1|]. split; [exact H2|].
  rewrite (Hf "cancellationReason"); [reflexivity|].
  rewrite !not_elem_of_cons. repeat split; try discriminate.
  apply not_elem_of_nil.
Defined.

(** A refund of the booking whose document is gone. *)
Lemma no_write_no_success_report_witness :
  Lifecycle.docs (Samples.state None "") !! id Cases.removed = None
  /\ Lifecycle.docs
       (Lifecycle.handleRefund Samples.integral_toString Cases.removed true
          Samples.server_time (Samples.state None ""))
     = Samples.store
  /\ Lifecycle.docs
       (Lifecycle.handleMarkCompleted (id Cases.removed) true
          Samples.server_time (Samples.state None ""))
     = Samples.store.
Proof.
  assert (Hd : Lifecycle.docs (Samples.state None "") !! id Cases.removed
               = None) by reflexivity.
  split; [exact Hd|].
  destruct (no_write_no_success_report Samples.integral_toString
              (Samples.state None "") Cases.removed true
              Samples.server_time (or_intror Hd))
    as (H1 & H2 & _).
  split; [exact H2|exact H1].
Defined.

(** An amount of R200, and of five cents. *)
Lemma currency_shows_nearest_cent_witness :
  JsNumber.shown_units 200%float 2 = Some 20000
  /\ Format.formatCurrency Samples.integral_toString 200%float = "R 200.00"
  /\ exists (rand cents : string) (v : Q),
       Format.formatCurrency Samples.integral_toString 200%float
       = "R " +:+ JsNumber.sign_of 200%float +:+ rand +:+ "." +:+ cents
       /\ String.length cents = 2%nat
       /\ Format.read_digits (rand +:+ cents) = Some 20000.
Proof.
  assert (Hu : JsNumber.shown_units 200%float 2 = Some 20000)
    by (vm_compute; reflexivity).
  split; [exact Hu|]. split; [vm_compute; reflexivity|].
  destruct (currency_shows_nearest_cent Samples.integral_toString 200%float
              20000 Hu)
    as (rand & cents & v & H1 & _ & H3 & H4 & _).
  exists rand, cents, v. split; [exact H1|]. split; [exact H3|exact H4].
Defined.

(** Sorting the sample visits by user name, descending. *)
Lemma earlier_table_by_header_witness :
  EarlierDashboard.key_userName ∈ EarlierDashboard.headers
  /\ List.map EarlierDashboard.id
       (EarlierDashboard.sortedAppointments
          (EarlierDashboard.listRows Cases.users Cases.visits)
          (Some {| AppointmentList.key := EarlierDashboard.key_userName;
                   AppointmentList.direction := AppointmentList.descending |}))
     = ["v2"; "v3"; "v1"]
  /\ StronglySorted
       (AppointmentList.ordered EarlierDashboard.get
          AppointmentList.descending EarlierDashboard.key_userName)
       (EarlierDashboard.sortedAppointments
          (EarlierDashboard.listRows Cases.users Cases.visits)
          (Some {| AppointmentList.key := EarlierDashboard.key_userName;
                   AppointmentList.direction := AppointmentList.descending |})).
Proof.
  assert (Hk : EarlierDashboard.key_userName ∈ EarlierDashboard.headers).
  { do 2 apply list_elem_of_further. apply list_elem_of_here. }
  split; [exact Hk|]. split; [vm_compute; reflexivity|].
  exact (proj1 (proj2 (earlier_table_by_header Cases.users Cases.visits
                         EarlierDashboard.key_userName
                         AppointmentList.descending Hk))).
Defined.

(** The "upcoming" chart of the sample visits on 2 November 2026. *)
Lemma chart_counts_consecutive_days_witness :
  JsTime.valid (Cases.now - 6 * JsTime.msPerDay) = true
  /\ JsTime.valid (Cases.now + 6 * JsTime.msPerDay) = true
  /\ DashboardView.chartData EarlierDashboard.date DashboardView.upcoming
       Cases.now Cases.visits
     = Some [2; 0; 0; 0; 0; 0; 0]%nat
  /\ DashboardView.chartData EarlierDashboard.date DashboardView.past
       Cases.now Cases.visits
     = Some [0; 0; 0; 0; 0; 1; 2]%nat.
Proof.
  assert (Hlo : JsTime.valid (Cases.now - 6 * JsTime.msPerDay) = true)
    by (vm_compute; reflexivity).
  assert (Hhi : JsTime.valid (Cases.now + 6 * JsTime.msPerDay) = true)
    by (vm_compute; reflexivity).
  split; [exact Hlo|]. split; [exact Hhi|].
  destruct (chart_counts_consecutive_days EarlierDashboard.date
              DashboardView.upcoming Cases.now Cases.visits Hlo Hhi)
    as (up & Hup & Eup & _).
  destruct (chart_counts_consecutive_days EarlierDashboard.date
              DashboardView.past Cases.now Cases.visits Hlo Hhi)
    as (pa & Hpa & Epa & _).
  split.
  - rewrite Hup, Eup. vm_compute; reflexivity.
  - rewrite Hpa, Epa. vm_compute; reflexivity.
Defined.


(** Sending "Hello" twice to a thread that has no document. *)
Lemma send_message_without_thread_witness :
  ~ Chat.blank "Hello"
  /\ Chat.chats (Cases.chat (Some "t-9") "Hello") !! "t-9" = None
  /\ exists s1 s2,
       Chat.handleSendMessage (Some Cases.admin) 1 2
         (Cases.chat (Some "t-9") "Hello") = Chat.Rejected s1
       /\ Chat.newMessage s1 = "Hello"
       /\ Chat.handleSendMessage (Some Cases.admin) 3 4 s1 = Chat.Rejected s2
       /\ length (Chat.thread "t-9" s2) = 2%nat.
Proof.
  assert (Hb : ~ Chat.blank "Hello").
  { intros H. apply Forall_cons in H as [H _]. discriminate H. }
  assert (Hd : Chat.chats (Cases.chat (Some "t-9") "Hello") !! "t-9" = None)
    by reflexivity.
  assert (Hid : "t-9" <> "") by discriminate.
  assert (Hu : Some Cases.admin <> None) by discriminate.
  split; [exact Hb|]. split; [exact Hd|].
  destruct (send_message_without_thread (Some Cases.admin) 1 2 3 4
              (Cases.chat (Some "t-9") "Hello") "t-9" Hb eq_refl Hid Hu Hd)
    as (s1 & s2 & H1 & _ & H3 & _ & H5 & H6).
  exists s1, s2. split; [exact H1|]. split; [exact H3|]. split; [exact H5|].
  rewrite H6. reflexivity.
Defined.
